(** * Register access layer of the Unicorn engine: SPARC and x86 targets

    A shallow embedding of [qemu/target/sparc/unicorn.c] and
    [qemu/target/i386/unicorn.c], followed by the properties of the
    register accessors stated in the specification.

    Conventions of the embedding.
    - A CPU state record ([CPUSPARCState], [CPUX86State]) is a store from
      the fields the C code names to integers; an array field is a family
      of locations indexed by [Z].
    - The caller's [void *value] is a byte buffer, little-endian as on the
      hosts the engine runs on; [size_t *size] is an [option Z] ([None] is
      the NULL pointer).
    - C integer conversions and wrap-around are written out with [cast].
    - Functions and constants declared in headers that are not part of the
      two files are taken as parameters (classes [cpu_h] and [sparc_h]). *)

From Stdlib Require Import ZArith List Bool Lia.
Import ListNotations.
Local Open Scope Z_scope.

(** ** C types, conversions, buffers *)

Inductive ctype : Type :=
| int8_t | uint8_t | int16_t | uint16_t | int32_t | uint32_t
| int64_t | uint64_t
| char_10            (* char[10] *)
| float64_2          (* float64[2] *)
| float64_4          (* float64[4] *)
| uc_x86_mmr         (* struct { uint16_t selector; uint64_t base;
                                 uint32_t limit; uint32_t flags; } *)
| uc_x86_msr.        (* struct { uint32_t rid; uint64_t value; } *)

Definition sizeof (t : ctype) : Z :=
  match t with
  | int8_t | uint8_t => 1
  | int16_t | uint16_t => 2
  | int32_t | uint32_t => 4
  | int64_t | uint64_t => 8
  | char_10 => 10
  | float64_2 => 16
  | float64_4 => 32
  | uc_x86_mmr => 24
  | uc_x86_msr => 16
  end.

Definition is_signed (t : ctype) : bool :=
  match t with
  | int8_t | int16_t | int32_t | int64_t => true
  | _ => false
  end.

(** [cast t x]: the value of [(t)x] for an integer type [t]; conversion to
    a signed type wraps, as gcc and clang define it. *)
Definition cast (t : ctype) (x : Z) : Z :=
  let m := 2 ^ (8 * sizeof t) in
  if is_signed t then (x + m / 2) mod m - m / 2 else x mod m.

(** [int], the type of several helper parameters. *)
Definition int_t : ctype := int32_t.

Definition buffer : Type := Z -> Z.

Fixpoint load_le (n : nat) (off : Z) (b : buffer) : Z :=
  match n with
  | O => 0
  | S k => (b off) mod 256 + 256 * load_le k (off + 1) b
  end.

Definition store_le (n : Z) (off : Z) (x : Z) (b : buffer) : buffer :=
  fun i =>
    if (off <=? i) && (i <? off + n)
    then (x / 2 ^ (8 * (i - off))) mod 256
    else b i.

(** [*(t * )((char * )value + off)] as an rvalue and as an assignment. *)
Definition deref_at (t : ctype) (off : Z) (value : buffer) : Z :=
  cast t (load_le (Z.to_nat (sizeof t)) off value).

Definition assign_at (t : ctype) (off : Z) (value : buffer) (x : Z) : buffer :=
  store_le (sizeof t) off x value.

Definition deref (t : ctype) (value : buffer) : Z := deref_at t 0 value.
Definition assign (t : ctype) (value : buffer) (x : Z) : buffer :=
  assign_at t 0 value x.

(** A buffer holding the little-endian bytes of [x]. *)
Definition bytes_of (x : Z) : buffer := fun i => (x / 2 ^ (8 * i)) mod 256.

(** ** Error codes, modes, the engine handle *)

(** [UC_ERR_EXCEPTION] stands for the non-zero code the segment legality
    pre-check reports. *)
Inductive uc_err : Type := UC_ERR_OK | UC_ERR_ARG | UC_ERR_EXCEPTION.

(** [if (err)] *)
Definition is_err (e : uc_err) : bool :=
  match e with UC_ERR_OK => false | _ => true end.

(** [UC_MODE_other] is any mode value that is none of the three x86 modes
    (the [default:] label of [switch (mode)]). *)
Inductive uc_mode : Type :=
| UC_MODE_16 | UC_MODE_32 | UC_MODE_64 | UC_MODE_other (m : Z).

(** The engine handle [struct uc_struct], reduced to what the two files
    use: the CPU state, the mode, [quit_request], and the number of
    requests raised so far to abandon the running translated unit. *)
Record uc_struct (E : Type) : Type := mk_uc {
  env_ptr : E;                 (* uc->cpu->env_ptr *)
  mode : uc_mode;
  quit_request : bool;
  tb_exit_requests : nat
}.
Arguments mk_uc {E}.
Arguments env_ptr {E}.
Arguments mode {E}.
Arguments quit_request {E}.
Arguments tb_exit_requests {E}.

(** Modelled from the spec: [break_translation_loop] (uc_priv.h) is the
    execution-abort signal produced to the execution engine, "a single
    abandon-current-translated-unit request".  Each call is counted in
    [tb_exit_requests]. *)
Definition break_translation_loop {E} (uc : uc_struct E) : uc_struct E :=
  mk_uc (env_ptr uc) (mode uc) (quit_request uc) (S (tb_exit_requests uc)).

Definition set_quit_request {E} (uc : uc_struct E) (b : bool) : uc_struct E :=
  mk_uc (env_ptr uc) (mode uc) b (tb_exit_requests uc).

Definition set_env {E} (uc : uc_struct E) (env : E) : uc_struct E :=
  mk_uc env (mode uc) (quit_request uc) (tb_exit_requests uc).

(** A detached snapshot: [struct uc_context], fields [data] and [mode]. *)
Record uc_context (E : Type) : Type := mk_ctx {
  data : E;
  ctx_mode : uc_mode
}.
Arguments mk_ctx {E}.
Arguments data {E}.
Arguments ctx_mode {E}.

(** Modelled from the spec: [CHECK_REG_TYPE] (uc_priv.h).  "Before any read
    or write touches the backing store, the operation must verify this size
    equals the known semantic width of that identifier ...  Mismatch fails
    the whole operation for that identifier with an argument-validity
    error"; "declared sizes may be omitted when the caller accepts the
    canonical width".  [bail] is the result of [return UC_ERR_ARG]; the
    continuation receives the new value of [ret]. *)
Definition CHECK_REG_TYPE {A : Type} (size : option Z) (t : ctype)
    (bail : A) (k : uc_err -> A) : A :=
  match size with
  | Some sz => if sz =? sizeof t then k UC_ERR_OK else bail
  | None => k UC_ERR_OK
  end.

(** [sizes ? sizes + i : NULL], with the arrays walked in step. *)
Definition size_ptr (sizes : option (list Z)) : option Z :=
  match sizes with
  | Some (s :: _) => Some s
  | _ => None
  end.

Definition sizes_next (sizes : option (list Z)) : option (list Z) :=
  match sizes with
  | Some l => Some (tl l)
  | None => None
  end.

(** ** Stores *)

Section Store.
Context {L : Type} (L_eq_dec : forall a b : L, {a = b} + {a <> b}).

Definition store_upd (env : L -> Z) (l : L) (v : Z) : L -> Z :=
  fun l' => if L_eq_dec l l' then v else env l'.

(** [memset(field, 0, sizeof(field))] for the locations selected by [p]. *)
Definition store_memset0 (p : L -> bool) (env : L -> Z) : L -> Z :=
  fun l => if p l then 0 else env l.
End Store.

(** ** SPARC: qemu/target/sparc/unicorn.c *)

Module Sparc.

(** [target_ulong] of the 32-bit SPARC target. *)
Definition target_ulong : ctype := uint32_t.

(** Fields of [CPUSPARCState] used by the file.  [regwptr] points into
    [regbase]; the model keeps its offset. *)
Inductive loc : Type :=
| gregs (i : Z) | fpr (i : Z) | regbase (i : Z) | pc | npc | regwptr.

Definition loc_eq_dec (a b : loc) : {a = b} + {a <> b}.
Proof. decide equality; apply Z.eq_dec. Defined.

Definition CPUSPARCState : Type := loc -> Z.

Definition upd : CPUSPARCState -> loc -> Z -> CPUSPARCState :=
  store_upd loc_eq_dec.

(** Enumerators of [uc_sparc_reg] (unicorn/sparc.h) the file compares
    [regid] with. *)
Class sparc_h : Type := {
  UC_SPARC_REG_G0 : Z; UC_SPARC_REG_G7 : Z;
  UC_SPARC_REG_O0 : Z; UC_SPARC_REG_O7 : Z;
  UC_SPARC_REG_L0 : Z; UC_SPARC_REG_L7 : Z;
  UC_SPARC_REG_I0 : Z; UC_SPARC_REG_I7 : Z;
  UC_SPARC_REG_PC : Z
}.

(** The values the public header gives them. *)
Definition sparc_header : sparc_h := {|
  UC_SPARC_REG_G0 := 53; UC_SPARC_REG_G7 := 60;
  UC_SPARC_REG_I0 := 61; UC_SPARC_REG_I7 := 68;
  UC_SPARC_REG_L0 := 70; UC_SPARC_REG_L7 := 77;
  UC_SPARC_REG_O0 := 78; UC_SPARC_REG_O7 := 85;
  UC_SPARC_REG_PC := 88
|}.

Section Accessors.
Context {H : sparc_h}.

(** [env->regwptr[k]] *)
Definition regwptr_at (env : CPUSPARCState) (k : Z) : loc :=
  regbase (env regwptr + k).

Definition sparc_set_pc (uc : uc_struct CPUSPARCState) (address : Z)
  : uc_struct CPUSPARCState :=
  let env := env_ptr uc in
  let env := upd env pc (cast target_ulong address) in
  let env := upd env npc (cast target_ulong (cast uint64_t (address + 4))) in
  set_env uc env.

Definition sparc_get_pc (uc : uc_struct CPUSPARCState) : Z :=
  cast uint64_t (env_ptr uc pc).

Definition sparc_reg_reset (uc : uc_struct CPUSPARCState)
  : uc_struct CPUSPARCState :=
  let env := env_ptr uc in
  let env := store_memset0 (fun l => match l with gregs _ => true | _ => false end) env in
  let env := store_memset0 (fun l => match l with fpr _ => true | _ => false end) env in
  let env := store_memset0 (fun l => match l with regbase _ => true | _ => false end) env in
  let env := upd env pc 0 in
  let env := upd env npc 0 in
  let env := upd env regwptr 0 in
  set_env uc env.

Definition in_range (lo hi regid : Z) : bool :=
  (lo <=? regid) && (regid <=? hi).

(** [reg_read]: the result is [ret] and the caller's buffer. *)
Definition reg_read (env : CPUSPARCState) (regid : Z) (value : buffer)
    (size : option Z) : uc_err * buffer :=
  let ret := UC_ERR_ARG in
  if in_range UC_SPARC_REG_G0 UC_SPARC_REG_G7 regid then
    CHECK_REG_TYPE size uint32_t (UC_ERR_ARG, value) (fun ret =>
    (ret, assign uint32_t value (env (gregs (regid - UC_SPARC_REG_G0)))))
  else if in_range UC_SPARC_REG_O0 UC_SPARC_REG_O7 regid then
    CHECK_REG_TYPE size uint32_t (UC_ERR_ARG, value) (fun ret =>
    (ret, assign uint32_t value
            (env (regwptr_at env (regid - UC_SPARC_REG_O0)))))
  else if in_range UC_SPARC_REG_L0 UC_SPARC_REG_L7 regid then
    CHECK_REG_TYPE size uint32_t (UC_ERR_ARG, value) (fun ret =>
    (ret, assign uint32_t value
            (env (regwptr_at env (8 + regid - UC_SPARC_REG_L0)))))
  else if in_range UC_SPARC_REG_I0 UC_SPARC_REG_I7 regid then
    (ret, assign uint32_t value
            (env (regwptr_at env (16 + regid - UC_SPARC_REG_I0))))
  else if regid =? UC_SPARC_REG_PC then
    CHECK_REG_TYPE size uint32_t (UC_ERR_ARG, value) (fun ret =>
    (ret, assign uint32_t value (env pc)))
  else (ret, value).

(** [reg_write]: the result is [ret] and the state. *)
Definition reg_write (env : CPUSPARCState) (regid : Z) (value : buffer)
    (size : option Z) : uc_err * CPUSPARCState :=
  let ret := UC_ERR_ARG in
  if in_range UC_SPARC_REG_G0 UC_SPARC_REG_G7 regid then
    CHECK_REG_TYPE size uint32_t (UC_ERR_ARG, env) (fun ret =>
    (ret, upd env (gregs (regid - UC_SPARC_REG_G0)) (deref uint32_t value)))
  else if in_range UC_SPARC_REG_O0 UC_SPARC_REG_O7 regid then
    CHECK_REG_TYPE size uint32_t (UC_ERR_ARG, env) (fun ret =>
    (ret, upd env (regwptr_at env (regid - UC_SPARC_REG_O0))
            (deref uint32_t value)))
  else if in_range UC_SPARC_REG_L0 UC_SPARC_REG_L7 regid then
    CHECK_REG_TYPE size uint32_t (UC_ERR_ARG, env) (fun ret =>
    (ret, upd env (regwptr_at env (8 + regid - UC_SPARC_REG_L0))
            (deref uint32_t value)))
  else if in_range UC_SPARC_REG_I0 UC_SPARC_REG_I7 regid then
    CHECK_REG_TYPE size uint32_t (UC_ERR_ARG, env) (fun ret =>
    (ret, upd env (regwptr_at env (16 + regid - UC_SPARC_REG_I0))
            (deref uint32_t value)))
  else if regid =? UC_SPARC_REG_PC then
    CHECK_REG_TYPE size uint32_t (UC_ERR_ARG, env) (fun ret =>
    let env := upd env pc (deref uint32_t value) in
    let env := upd env npc (cast uint32_t (deref uint32_t value + 4)) in
    (ret, env))
  else (ret, env).

(** The loop of [sparc_reg_write], from element [i] on: [regs], [vals]
    and [sizes] are the remaining parts of the three arrays, [count]
    the length of the shortest. *)
Fixpoint sparc_reg_write_loop (uc : uc_struct CPUSPARCState)
    (regs : list Z) (vals : list buffer) (sizes : option (list Z))
  : uc_err * uc_struct CPUSPARCState :=
  match regs, vals with
  | regid :: regs', value :: vals' =>
      let (err, env) := reg_write (env_ptr uc) regid value (size_ptr sizes) in
      let uc := set_env uc env in
      if is_err err then (err, uc)
      else
        let uc :=
          if regid =? UC_SPARC_REG_PC
          then break_translation_loop (set_quit_request uc true)
          else uc in
        sparc_reg_write_loop uc regs' vals' (sizes_next sizes)
  | _, _ => (UC_ERR_OK, uc)
  end.

Definition sparc_reg_write := sparc_reg_write_loop.

Fixpoint sparc_context_reg_write_loop (env : CPUSPARCState)
    (regs : list Z) (vals : list buffer) (sizes : option (list Z))
  : uc_err * CPUSPARCState :=
  match regs, vals with
  | regid :: regs', value :: vals' =>
      let (err, env) := reg_write env regid value (size_ptr sizes) in
      if is_err err then (err, env)
      else sparc_context_reg_write_loop env regs' vals' (sizes_next sizes)
  | _, _ => (UC_ERR_OK, env)
  end.

Definition sparc_context_reg_write (ctx : uc_context CPUSPARCState)
    (regs : list Z) (vals : list buffer) (sizes : option (list Z))
  : uc_err * uc_context CPUSPARCState :=
  let (err, env) := sparc_context_reg_write_loop (data ctx) regs vals sizes in
  (err, mk_ctx env (ctx_mode ctx)).

(** The loop of [sparc_reg_read], from element [i] on.  The result is the
    return code and what the call leaves in the objects the elements of
    [vals] point to, taken to be distinct objects. *)
Fixpoint sparc_reg_read_loop (env : CPUSPARCState)
    (regs : list Z) (vals : list buffer) (sizes : option (list Z))
  : uc_err * list buffer :=
  match regs, vals with
  | regid :: regs', value :: vals' =>
      let (err, value) := reg_read env regid value (size_ptr sizes) in
      if is_err err then (err, value :: vals')
      else
        let (err, vals') :=
          sparc_reg_read_loop env regs' vals' (sizes_next sizes) in
        (err, value :: vals')
  | _, _ => (UC_ERR_OK, vals)
  end.

Definition sparc_reg_read (uc : uc_struct CPUSPARCState)
    (regs : list Z) (vals : list buffer) (sizes : option (list Z))
  : uc_err * list buffer :=
  sparc_reg_read_loop (env_ptr uc) regs vals sizes.

Fixpoint sparc_context_reg_read_loop (env : CPUSPARCState)
    (regs : list Z) (vals : list buffer) (sizes : option (list Z))
  : uc_err * list buffer :=
  match regs, vals with
  | regid :: regs', value :: vals' =>
      let (err, value) := reg_read env regid value (size_ptr sizes) in
      if is_err err then (err, value :: vals')
      else
        let (err, vals') :=
          sparc_context_reg_read_loop env regs' vals' (sizes_next sizes) in
        (err, value :: vals')
  | _, _ => (UC_ERR_OK, vals)
  end.

Definition sparc_context_reg_read (ctx : uc_context CPUSPARCState)
    (regs : list Z) (vals : list buffer) (sizes : option (list Z))
  : uc_err * list buffer :=
  sparc_context_reg_read_loop (data ctx) regs vals sizes.

End Accessors.
End Sparc.

(** ** x86: qemu/target/i386/unicorn.c *)

Module X86.

(** [target_ulong] of the build that provides all three modes
    ([TARGET_X86_64] defined). *)
Definition target_ulong : ctype := uint64_t.

(** Enumerators of [uc_x86_reg] (unicorn/x86.h) named in the file.
    [UC_X86_REG_other n] is any other value of [regid]. *)
Inductive uc_x86_reg : Type :=
| UC_X86_REG_FP0 | UC_X86_REG_FP1 | UC_X86_REG_FP2 | UC_X86_REG_FP3
| UC_X86_REG_FP4 | UC_X86_REG_FP5 | UC_X86_REG_FP6 | UC_X86_REG_FP7
| UC_X86_REG_FPSW | UC_X86_REG_FPCW | UC_X86_REG_FPTAG | UC_X86_REG_XMM0
| UC_X86_REG_XMM1 | UC_X86_REG_XMM2 | UC_X86_REG_XMM3 | UC_X86_REG_XMM4
| UC_X86_REG_XMM5 | UC_X86_REG_XMM6 | UC_X86_REG_XMM7 | UC_X86_REG_ST0
| UC_X86_REG_ST1 | UC_X86_REG_ST2 | UC_X86_REG_ST3 | UC_X86_REG_ST4
| UC_X86_REG_ST5 | UC_X86_REG_ST6 | UC_X86_REG_ST7 | UC_X86_REG_YMM0
| UC_X86_REG_YMM1 | UC_X86_REG_YMM2 | UC_X86_REG_YMM3 | UC_X86_REG_YMM4
| UC_X86_REG_YMM5 | UC_X86_REG_YMM6 | UC_X86_REG_YMM7 | UC_X86_REG_YMM8
| UC_X86_REG_YMM9 | UC_X86_REG_YMM10 | UC_X86_REG_YMM11 | UC_X86_REG_YMM12
| UC_X86_REG_YMM13 | UC_X86_REG_YMM14 | UC_X86_REG_YMM15 | UC_X86_REG_FIP
| UC_X86_REG_FCS | UC_X86_REG_FDP | UC_X86_REG_FDS | UC_X86_REG_FOP
| UC_X86_REG_ES | UC_X86_REG_SS | UC_X86_REG_DS | UC_X86_REG_FS
| UC_X86_REG_GS | UC_X86_REG_FS_BASE | UC_X86_REG_CR0 | UC_X86_REG_CR1
| UC_X86_REG_CR2 | UC_X86_REG_CR3 | UC_X86_REG_CR4 | UC_X86_REG_DR0
| UC_X86_REG_DR1 | UC_X86_REG_DR2 | UC_X86_REG_DR3 | UC_X86_REG_DR4
| UC_X86_REG_DR5 | UC_X86_REG_DR6 | UC_X86_REG_DR7 | UC_X86_REG_FLAGS
| UC_X86_REG_EFLAGS | UC_X86_REG_EAX | UC_X86_REG_AX | UC_X86_REG_AH
| UC_X86_REG_AL | UC_X86_REG_EBX | UC_X86_REG_BX | UC_X86_REG_BH
| UC_X86_REG_BL | UC_X86_REG_ECX | UC_X86_REG_CX | UC_X86_REG_CH
| UC_X86_REG_CL | UC_X86_REG_EDX | UC_X86_REG_DX | UC_X86_REG_DH
| UC_X86_REG_DL | UC_X86_REG_ESP | UC_X86_REG_SP | UC_X86_REG_EBP
| UC_X86_REG_BP | UC_X86_REG_ESI | UC_X86_REG_SI | UC_X86_REG_EDI
| UC_X86_REG_DI | UC_X86_REG_EIP | UC_X86_REG_IP | UC_X86_REG_CS
| UC_X86_REG_IDTR | UC_X86_REG_GDTR | UC_X86_REG_LDTR | UC_X86_REG_TR
| UC_X86_REG_MSR | UC_X86_REG_MXCSR | UC_X86_REG_RFLAGS | UC_X86_REG_RAX
| UC_X86_REG_RBX | UC_X86_REG_RCX | UC_X86_REG_RDX | UC_X86_REG_RSP
| UC_X86_REG_SPL | UC_X86_REG_RBP | UC_X86_REG_BPL | UC_X86_REG_RSI
| UC_X86_REG_SIL | UC_X86_REG_RDI | UC_X86_REG_DIL | UC_X86_REG_RIP
| UC_X86_REG_R8 | UC_X86_REG_R8D | UC_X86_REG_R8W | UC_X86_REG_R8B
| UC_X86_REG_R9 | UC_X86_REG_R9D | UC_X86_REG_R9W | UC_X86_REG_R9B
| UC_X86_REG_R10 | UC_X86_REG_R10D | UC_X86_REG_R10W | UC_X86_REG_R10B
| UC_X86_REG_R11 | UC_X86_REG_R11D | UC_X86_REG_R11W | UC_X86_REG_R11B
| UC_X86_REG_R12 | UC_X86_REG_R12D | UC_X86_REG_R12W | UC_X86_REG_R12B
| UC_X86_REG_R13 | UC_X86_REG_R13D | UC_X86_REG_R13W | UC_X86_REG_R13B
| UC_X86_REG_R14 | UC_X86_REG_R14D | UC_X86_REG_R14W | UC_X86_REG_R14B
| UC_X86_REG_R15 | UC_X86_REG_R15D | UC_X86_REG_R15W | UC_X86_REG_R15B
| UC_X86_REG_XMM8 | UC_X86_REG_XMM9 | UC_X86_REG_XMM10 | UC_X86_REG_XMM11
| UC_X86_REG_XMM12 | UC_X86_REG_XMM13 | UC_X86_REG_XMM14
| UC_X86_REG_XMM15 | UC_X86_REG_GS_BASE
| UC_X86_REG_other (n : Z).

(** [SegmentCache] *)
Inductive seg_field : Type := selector | base | limit | flags.

(** [floatx80], also seen through [CPU_LDoubleU]: [low] is [l.lower],
    [high] is [l.upper]. *)
Inductive fp_field : Type := low | high.

(** Fields of [CPUX86State] named in the file; [other_field] is the rest
    of the record, which only the external helpers use. *)
Inductive loc : Type :=
| regs (i : Z) | eip
| segs (i : Z) (f : seg_field)
| ldt (f : seg_field) | gdt (f : seg_field)
| tr (f : seg_field) | idt (f : seg_field)
| cr (i : Z) | dr (i : Z)
| cc_op | hflags | efer | features (i : Z)
| fpstt | fpus | fpuc | fptags (i : Z) | fpregs (i : Z) (f : fp_field)
| fpip | fpcs | fpdp | fpds | fpop
| mxcsr | xmm_regs (i q : Z) | xmm_t0 (q : Z) | mmx_t0
| ymmh_regs (i q : Z) | opmask_regs (i : Z)
| zmmh_regs (i q : Z) | hi16_zmm_regs (i q : Z)
| sysenter_cs | sysenter_esp | sysenter_eip | star | vm_hsave
| tsc | tsc_adjust | tsc_deadline
| mcg_status | msr_ia32_misc_enable | msr_ia32_feature_control
| msr_fixed_ctr_ctrl | msr_global_ctrl | msr_global_status
| msr_global_ovf_ctrl
| msr_fixed_counters (i : Z) | msr_gp_counters (i : Z)
| msr_gp_evtsel (i : Z)
| lstar | cstar | fmask | kernelgsbase
| other_field (n : Z).

Definition seg_field_eq_dec (a b : seg_field) : {a = b} + {a <> b}.
Proof. decide equality. Defined.

Definition fp_field_eq_dec (a b : fp_field) : {a = b} + {a <> b}.
Proof. decide equality. Defined.

Definition loc_eq_dec (a b : loc) : {a = b} + {a <> b}.
Proof.
  decide equality;
    first [apply Z.eq_dec | apply seg_field_eq_dec | apply fp_field_eq_dec].
Defined.

Definition CPUX86State : Type := loc -> Z.

Definition upd : CPUX86State -> loc -> Z -> CPUX86State :=
  store_upd loc_eq_dec.

(** Members of [uc_x86_mmr] and [uc_x86_msr] inside the caller's buffer. *)
Record field : Type := mk_field { f_off : Z; f_type : ctype }.
Definition mmr_selector : field := mk_field 0 uint16_t.
Definition mmr_base : field := mk_field 8 uint64_t.
Definition mmr_limit : field := mk_field 16 uint32_t.
Definition mmr_flags : field := mk_field 20 uint32_t.
Definition msr_rid : field := mk_field 0 uint32_t.
Definition msr_value : field := mk_field 8 uint64_t.

Definition get_field (f : field) (value : buffer) : Z :=
  deref_at (f_type f) (f_off f) value.
Definition set_field (f : field) (value : buffer) (x : Z) : buffer :=
  assign_at (f_type f) (f_off f) value x.

(** Modelled from the spec: the sub-register macros of uc_priv.h.
    "Integer GPRs and sub-registers: resolved as width-masked views (low
    byte, high byte, low word, low dword, full width) of one wider backing
    slot"; "narrowing writes are expressed as masked updates".  The write
    macros assign to their first argument, here a location of [env]. *)
Definition READ_QWORD (x : Z) : Z := cast uint64_t x.
Definition READ_DWORD (x : Z) : Z := Z.land x 0xffffffff.
Definition READ_WORD (x : Z) : Z := Z.land x 0xffff.
Definition READ_BYTE_H (x : Z) : Z := Z.shiftr (Z.land x 0xffff) 8.
Definition READ_BYTE_L (x : Z) : Z := Z.land x 0xff.

Definition WRITE_DWORD (env : CPUX86State) (x : loc) (w : Z) : CPUX86State :=
  upd env x (Z.lor (Z.land (env x) (Z.lnot 0xffffffff)) (Z.land w 0xffffffff)).
Definition WRITE_WORD (env : CPUX86State) (x : loc) (w : Z) : CPUX86State :=
  upd env x (Z.lor (Z.land (env x) (Z.lnot 0xffff)) (Z.land w 0xffff)).
Definition WRITE_BYTE_H (env : CPUX86State) (x : loc) (b : Z) : CPUX86State :=
  upd env x (Z.lor (Z.land (env x) (Z.lnot 0xff00))
                   (Z.shiftl (Z.land b 0xff) 8)).
Definition WRITE_BYTE_L (env : CPUX86State) (x : loc) (b : Z) : CPUX86State :=
  upd env x (Z.lor (Z.land (env x) (Z.lnot 0xff)) (Z.land b 0xff)).

(** Constants and functions of cpu.h, seg_helper.c, fpu_helper.c,
    misc_helper.c and unicorn/x86.h that the file uses but does not
    define. *)
Class cpu_h : Type := {
  (* register numbers *)
  R_EAX : Z; R_ECX : Z; R_EDX : Z; R_EBX : Z;
  R_ESP : Z; R_EBP : Z; R_ESI : Z; R_EDI : Z;
  R_ES : Z; R_CS : Z; R_SS : Z; R_DS : Z; R_FS : Z; R_GS : Z;
  (* descriptor, hidden-flag and feature bits *)
  DESC_P_MASK : Z; DESC_S_MASK : Z; DESC_W_MASK : Z; DESC_A_MASK : Z;
  DESC_CS_MASK : Z; DESC_R_MASK : Z;
  HF_CS32_MASK : Z; HF_SS32_MASK : Z; HF_OSFXSR_MASK : Z;
  HF_CS64_MASK : Z; HF_LMA_MASK : Z; HF_ADDSEG_MASK : Z;
  CR0_PE_MASK : Z; MSR_EFER_LMA : Z; MSR_EFER_LME : Z;
  FEAT_8000_0001_EDX : Z; CPUID_EXT2_LM : Z; CC_OP_EFLAGS : Z;
  (* numeric value of an enumerator of uc_x86_reg *)
  reg_value : uc_x86_reg -> Z;
  (* helpers *)
  cpu_x86_load_seg_cache :
    CPUX86State -> Z -> Z -> Z -> Z -> Z -> CPUX86State;
  cpu_x86_load_seg : CPUX86State -> Z -> Z -> CPUX86State;
  uc_check_cpu_x86_load_seg : CPUX86State -> Z -> Z -> uc_err;
  cpu_load_eflags : CPUX86State -> Z -> Z -> CPUX86State;
  cpu_compute_eflags : CPUX86State -> Z;
  cpu_x86_update_cr0 : CPUX86State -> Z -> CPUX86State;
  cpu_x86_update_cr3 : CPUX86State -> Z -> CPUX86State;
  cpu_x86_update_cr4 : CPUX86State -> Z -> CPUX86State;
  cpu_set_mxcsr : CPUX86State -> Z -> CPUX86State;
  cpu_set_fpuc : CPUX86State -> Z -> CPUX86State;
  cpu_get_fp80 : Z -> Z -> Z * Z;      (* floatx80 low high |-> (mant, exp) *)
  cpu_set_fp80 : Z -> Z -> Z * Z;      (* mant upper |-> floatx80 (low, high) *)
  helper_rdmsr : CPUX86State -> CPUX86State;
  helper_wrmsr : CPUX86State -> CPUX86State
}.

(** Results of [reg_read] and [reg_write]: [ret], and what the call left
    in the objects it has pointers to. *)
Record rd : Type := Rd { rd_ret : uc_err; rd_value : buffer; rd_env : CPUX86State }.
Record wr : Type := Wr { wr_ret : uc_err; wr_env : CPUX86State; wr_setpc : Z }.

Section Accessors.
Context {H : cpu_h}.

(** [regid - base] on enumerators *)
Definition enum_sub (regid b : uc_x86_reg) : Z := reg_value regid - reg_value b.
Infix "-#" := enum_sub (at level 50, left associativity).

Definition X86_NON_CS_FLAGS : Z :=
  Z.lor (Z.lor (Z.lor DESC_P_MASK DESC_S_MASK) DESC_W_MASK) DESC_A_MASK.

Definition load_seg_16_helper (env : CPUX86State) (seg : Z) (selector : Z)
  : CPUX86State :=
  cpu_x86_load_seg_cache env seg selector
    (cast target_ulong (cast uint32_t (Z.shiftl selector 4))) 0xffff
    X86_NON_CS_FLAGS.

Definition x86_set_pc (uc : uc_struct CPUX86State) (address : Z)
  : uc_struct CPUX86State :=
  let env := env_ptr uc in
  match mode uc with
  | UC_MODE_16 =>
      let cs := cast int16_t (cast uint16_t (env (segs R_CS selector))) in
      set_env uc (upd env eip (cast target_ulong (address - cast int_t (cs * 16))))
  | _ => set_env uc (upd env eip (cast target_ulong address))
  end.

Definition x86_get_pc (uc : uc_struct CPUX86State) : Z :=
  let env := env_ptr uc in
  match mode uc with
  | UC_MODE_16 =>
      cast uint64_t (cast uint32_t (env (segs R_CS selector) * 16) + env eip)
  | _ => cast uint64_t (env eip)
  end.

Definition memset0 (p : loc -> bool) (env : CPUX86State) : CPUX86State :=
  store_memset0 p env.

Definition x86_reg_reset (uc : uc_struct CPUX86State)
  : uc_struct CPUX86State :=
  let env := env_ptr uc in
  let env := memset0 (fun l => match l with regs _ => true | _ => false end) env in
  let env := memset0 (fun l => match l with segs _ _ => true | _ => false end) env in
  let env := memset0 (fun l => match l with cr _ => true | _ => false end) env in
  let env := memset0 (fun l => match l with ldt _ => true | _ => false end) env in
  let env := memset0 (fun l => match l with gdt _ => true | _ => false end) env in
  let env := memset0 (fun l => match l with tr _ => true | _ => false end) env in
  let env := memset0 (fun l => match l with idt _ => true | _ => false end) env in
  let env := upd env eip 0 in
  let env := cpu_load_eflags env 0 (-1) in
  let env := upd env cc_op CC_OP_EFLAGS in
  let env := upd env fpstt 0 in
  let env := upd env fpus 0 in
  let env := upd env fpuc 0 in
  let env := memset0 (fun l => match l with fptags _ => true | _ => false end) env in
  let env := upd env mxcsr 0 in
  let env := memset0 (fun l => match l with xmm_regs _ _ => true | _ => false end) env in
  let env := memset0 (fun l => match l with xmm_t0 _ => true | _ => false end) env in
  let env := memset0 (fun l => match l with mmx_t0 => true | _ => false end) env in
  let env := memset0 (fun l => match l with ymmh_regs _ _ => true | _ => false end) env in
  let env := memset0 (fun l => match l with opmask_regs _ => true | _ => false end) env in
  let env := memset0 (fun l => match l with zmmh_regs _ _ => true | _ => false end) env in
  let env := upd env sysenter_cs 0 in
  let env := upd env sysenter_esp 0 in
  let env := upd env sysenter_eip 0 in
  let env := upd env efer 0 in
  let env := upd env star 0 in
  let env := upd env vm_hsave 0 in
  let env := upd env tsc 0 in
  let env := upd env tsc_adjust 0 in
  let env := upd env tsc_deadline 0 in
  let env := upd env mcg_status 0 in
  let env := upd env msr_ia32_misc_enable 0 in
  let env := upd env msr_ia32_feature_control 0 in
  let env := upd env msr_fixed_ctr_ctrl 0 in
  let env := upd env msr_global_ctrl 0 in
  let env := upd env msr_global_status 0 in
  let env := upd env msr_global_ovf_ctrl 0 in
  let env := memset0 (fun l => match l with msr_fixed_counters _ => true | _ => false end) env in
  let env := memset0 (fun l => match l with msr_gp_counters _ => true | _ => false end) env in
  let env := memset0 (fun l => match l with msr_gp_evtsel _ => true | _ => false end) env in
  let env := memset0 (fun l => match l with hi16_zmm_regs _ _ => true | _ => false end) env in
  let env := upd env lstar 0 in
  let env := upd env cstar 0 in
  let env := upd env fmask 0 in
  let env := upd env kernelgsbase 0 in
  let env :=
    match mode uc with
    | UC_MODE_16 =>
        let env := upd env hflags 0 in
        let env := upd env (cr 0) 0 in
        let env := cpu_x86_load_seg_cache env R_CS 0 0 0xffff
                     (Z.lor (Z.lor (Z.lor (Z.lor DESC_P_MASK DESC_S_MASK)
                                          DESC_CS_MASK) DESC_R_MASK) DESC_A_MASK) in
        let env := load_seg_16_helper env R_DS 0 in
        let env := load_seg_16_helper env R_ES 0 in
        let env := load_seg_16_helper env R_SS 0 in
        let env := load_seg_16_helper env R_FS 0 in
        let env := load_seg_16_helper env R_GS 0 in
        env
    | UC_MODE_32 =>
        let env := upd env hflags
                     (Z.lor (env hflags)
                        (Z.lor (Z.lor HF_CS32_MASK HF_SS32_MASK) HF_OSFXSR_MASK)) in
        let env := cpu_x86_update_cr0 env CR0_PE_MASK in
        env
    | UC_MODE_64 =>
        let env := upd env hflags
                     (Z.lor (env hflags)
                        (Z.lor (Z.lor (Z.lor (Z.lor HF_CS32_MASK HF_SS32_MASK)
                                             HF_CS64_MASK) HF_LMA_MASK)
                               HF_OSFXSR_MASK)) in
        let env := upd env hflags (Z.land (env hflags) (Z.lnot HF_ADDSEG_MASK)) in
        let env := upd env efer
                     (Z.lor (env efer) (Z.lor MSR_EFER_LMA MSR_EFER_LME)) in
        let env := cpu_x86_update_cr0 env CR0_PE_MASK in
        let env := upd env (features FEAT_8000_0001_EDX)
                     (Z.lor (env (features FEAT_8000_0001_EDX)) CPUID_EXT2_LM) in
        env
    | UC_MODE_other _ => env
    end in
  set_env uc env.

(** [x86_msr_read]: the result is [*msr] and the state (the function
    always returns 0). *)
Definition x86_msr_read (env : CPUX86State) (msr : buffer)
  : buffer * CPUX86State :=
  let ecx := env (regs R_ECX) in
  let eax := env (regs R_EAX) in
  let edx := env (regs R_EDX) in
  let env := upd env (regs R_ECX) (get_field msr_rid msr) in
  let env := helper_rdmsr env in
  let msr := set_field msr_value msr
               (Z.lor (cast uint32_t (env (regs R_EAX)))
                      (cast uint64_t
                         (Z.shiftl (cast uint64_t (cast uint32_t (env (regs R_EDX)))) 32))) in
  let env := upd env (regs R_EAX) eax in
  let env := upd env (regs R_ECX) ecx in
  let env := upd env (regs R_EDX) edx in
  (msr, env).

Definition x86_msr_write (env : CPUX86State) (msr : buffer) : CPUX86State :=
  let ecx := env (regs R_ECX) in
  let eax := env (regs R_EAX) in
  let edx := env (regs R_EDX) in
  let env := upd env (regs R_ECX) (get_field msr_rid msr) in
  let env := upd env (regs R_EAX) (cast uint32_t (get_field msr_value msr)) in
  let env := upd env (regs R_EDX)
               (cast uint32_t (Z.shiftr (get_field msr_value msr) 32)) in
  let env := helper_wrmsr env in
  let env := upd env (regs R_ECX) ecx in
  let env := upd env (regs R_EAX) eax in
  let env := upd env (regs R_EDX) edx in
  env.

(** [FPST(n)]: index of the physical register behind stack slot [n]. *)
Definition FPST (env : CPUX86State) (n : Z) : Z := Z.land (env fpstt + n) 7.

Definition MAXEXPD : Z := 0x7fff.

(** Body of the loop of the [UC_X86_REG_FPTAG] read, for one [i]. *)
Definition fptag_step (env : CPUX86State) (i : Z) (fptag : Z) : Z :=
  let fptag := Z.shiftl fptag 2 in
  if negb (env (fptags i) =? 0) then Z.lor fptag 3
  else
    let exp := Z.land (env (fpregs i high)) 0x7fff in
    let mant := env (fpregs i low) in
    if (exp =? 0) && (mant =? 0) then Z.lor fptag 1
    else if (exp =? 0) || (exp =? MAXEXPD)
            || (Z.land mant (Z.shiftl 1 63) =? 0)
    then Z.lor fptag 2
    else fptag.

(** [for (i = n - 1; i >= 0; i--)] *)
Fixpoint fptag_loop (env : CPUX86State) (n : nat) (fptag : Z) : Z :=
  match n with
  | O => fptag
  | S i => fptag_loop env i (fptag_step env (Z.of_nat i) fptag)
  end.

(** Loop of the [UC_X86_REG_FPTAG] write: [n] iterations left, at [i]. *)
Fixpoint fptag_write_loop (n : nat) (i : Z) (fptag : Z) (env : CPUX86State)
  : CPUX86State :=
  match n with
  | O => env
  | S n' =>
      let env := upd env (fptags i) (if Z.land fptag 3 =? 3 then 1 else 0) in
      fptag_write_loop n' (i + 1) (cast uint16_t (Z.shiftr fptag 2)) env
  end.

(** *** [reg_read]

    The function is given switch by switch: [mode_32] and [mode_64] are
    the inner [switch (regid)] of [case UC_MODE_32] and
    [case UC_MODE_64]; [mode_16] is the one of [case UC_MODE_16], which
    falls through to [case UC_MODE_32].  [rchk t v] is
    [CHECK_REG_TYPE(t);] followed by statements that leave the buffer
    as [v] and end in [return ret] (or [break] to it). *)
Section reg_read.
Variables (env : CPUX86State) (regid : uc_x86_reg) (value : buffer)
          (size : option Z).

Let ret : uc_err := UC_ERR_ARG.
Let bail : rd := Rd UC_ERR_ARG value env.
Definition rchk (t : ctype) (v : buffer) : rd :=
  CHECK_REG_TYPE size t bail (fun ret => Rd ret v env).

Definition reg_read_mode_32 : rd :=
  match regid with
  | UC_X86_REG_CR0 | UC_X86_REG_CR1 | UC_X86_REG_CR2 | UC_X86_REG_CR3
  | UC_X86_REG_CR4 =>
      rchk int32_t (assign int32_t value (env (cr (regid -# UC_X86_REG_CR0))))
  | UC_X86_REG_DR0 | UC_X86_REG_DR1 | UC_X86_REG_DR2 | UC_X86_REG_DR3
  | UC_X86_REG_DR4 | UC_X86_REG_DR5 | UC_X86_REG_DR6 | UC_X86_REG_DR7 =>
      rchk int32_t (assign int32_t value (env (dr (regid -# UC_X86_REG_DR0))))
  | UC_X86_REG_FLAGS =>
      rchk int16_t (assign int16_t value (cpu_compute_eflags env))
  | UC_X86_REG_EFLAGS =>
      rchk int32_t (assign int32_t value (cpu_compute_eflags env))
  | UC_X86_REG_EAX =>
      rchk int32_t (assign int32_t value (env (regs R_EAX)))
  | UC_X86_REG_AX =>
      rchk int16_t (assign int16_t value (READ_WORD (env (regs R_EAX))))
  | UC_X86_REG_AH =>
      rchk int8_t (assign int8_t value (READ_BYTE_H (env (regs R_EAX))))
  | UC_X86_REG_AL =>
      rchk int8_t (assign int8_t value (READ_BYTE_L (env (regs R_EAX))))
  | UC_X86_REG_EBX =>
      rchk int32_t (assign int32_t value (env (regs R_EBX)))
  | UC_X86_REG_BX =>
      rchk int16_t (assign int16_t value (READ_WORD (env (regs R_EBX))))
  | UC_X86_REG_BH =>
      rchk int8_t (assign int8_t value (READ_BYTE_H (env (regs R_EBX))))
  | UC_X86_REG_BL =>
      rchk int8_t (assign int8_t value (READ_BYTE_L (env (regs R_EBX))))
  | UC_X86_REG_ECX =>
      rchk int32_t (assign int32_t value (env (regs R_ECX)))
  | UC_X86_REG_CX =>
      rchk int16_t (assign int16_t value (READ_WORD (env (regs R_ECX))))
  | UC_X86_REG_CH =>
      rchk int8_t (assign int8_t value (READ_BYTE_H (env (regs R_ECX))))
  | UC_X86_REG_CL =>
      rchk int8_t (assign int8_t value (READ_BYTE_L (env (regs R_ECX))))
  | UC_X86_REG_EDX =>
      rchk int32_t (assign int32_t value (env (regs R_EDX)))
  | UC_X86_REG_DX =>
      rchk int16_t (assign int16_t value (READ_WORD (env (regs R_EDX))))
  | UC_X86_REG_DH =>
      rchk int8_t (assign int8_t value (READ_BYTE_H (env (regs R_EDX))))
  | UC_X86_REG_DL =>
      rchk int8_t (assign int8_t value (READ_BYTE_L (env (regs R_EDX))))
  | UC_X86_REG_ESP =>
      rchk int32_t (assign int32_t value (env (regs R_ESP)))
  | UC_X86_REG_SP =>
      rchk int16_t (assign int16_t value (READ_WORD (env (regs R_ESP))))
  | UC_X86_REG_EBP =>
      rchk int32_t (assign int32_t value (env (regs R_EBP)))
  | UC_X86_REG_BP =>
      rchk int16_t (assign int16_t value (READ_WORD (env (regs R_EBP))))
  | UC_X86_REG_ESI =>
      rchk int32_t (assign int32_t value (env (regs R_ESI)))
  | UC_X86_REG_SI =>
      rchk int16_t (assign int16_t value (READ_WORD (env (regs R_ESI))))
  | UC_X86_REG_EDI =>
      rchk int32_t (assign int32_t value (env (regs R_EDI)))
  | UC_X86_REG_DI =>
      rchk int16_t (assign int16_t value (READ_WORD (env (regs R_EDI))))
  | UC_X86_REG_EIP =>
      rchk int32_t (assign int32_t value (env eip))
  | UC_X86_REG_IP =>
      rchk int16_t (assign int16_t value (READ_WORD (env eip)))
  | UC_X86_REG_CS =>
      rchk int16_t (assign int16_t value (cast uint16_t (env (segs R_CS selector))))
  | UC_X86_REG_DS =>
      rchk int16_t (assign int16_t value (cast uint16_t (env (segs R_DS selector))))
  | UC_X86_REG_SS =>
      rchk int16_t (assign int16_t value (cast uint16_t (env (segs R_SS selector))))
  | UC_X86_REG_ES =>
      rchk int16_t (assign int16_t value (cast uint16_t (env (segs R_ES selector))))
  | UC_X86_REG_FS =>
      rchk int16_t (assign int16_t value (cast uint16_t (env (segs R_FS selector))))
  | UC_X86_REG_GS =>
      rchk int16_t (assign int16_t value (cast uint16_t (env (segs R_GS selector))))
  | UC_X86_REG_IDTR =>
      rchk uc_x86_mmr (
        let value := set_field mmr_limit value (cast uint16_t (env (idt limit))) in
        let value := set_field mmr_base value (cast uint32_t (env (idt base))) in
        value)
  | UC_X86_REG_GDTR =>
      rchk uc_x86_mmr (
        let value := set_field mmr_limit value (cast uint16_t (env (gdt limit))) in
        let value := set_field mmr_base value (cast uint32_t (env (gdt base))) in
        value)
  | UC_X86_REG_LDTR =>
      rchk uc_x86_mmr (
        let value := set_field mmr_limit value (env (ldt limit)) in
        let value := set_field mmr_base value (cast uint32_t (env (ldt base))) in
        let value := set_field mmr_selector value (cast uint16_t (env (ldt selector))) in
        let value := set_field mmr_flags value (env (ldt flags)) in
        value)
  | UC_X86_REG_TR =>
      rchk uc_x86_mmr (
        let value := set_field mmr_limit value (env (tr limit)) in
        let value := set_field mmr_base value (cast uint32_t (env (tr base))) in
        let value := set_field mmr_selector value (cast uint16_t (env (tr selector))) in
        let value := set_field mmr_flags value (env (tr flags)) in
        value)
  | UC_X86_REG_MSR =>
      CHECK_REG_TYPE size uc_x86_msr bail (fun ret =>
        let (value, env) := x86_msr_read env value in
        Rd ret value env)
  | UC_X86_REG_MXCSR =>
      rchk uint32_t (assign uint32_t value (env mxcsr))
  | UC_X86_REG_FS_BASE =>
      rchk uint32_t (assign uint32_t value (cast uint32_t (env (segs R_FS base))))
  | _ => Rd ret value env
  end.

Definition reg_read_mode_64 : rd :=
  match regid with
  | UC_X86_REG_CR0 | UC_X86_REG_CR1 | UC_X86_REG_CR2 | UC_X86_REG_CR3
  | UC_X86_REG_CR4 =>
      rchk int64_t (assign int64_t value (env (cr (regid -# UC_X86_REG_CR0))))
  | UC_X86_REG_DR0 | UC_X86_REG_DR1 | UC_X86_REG_DR2 | UC_X86_REG_DR3
  | UC_X86_REG_DR4 | UC_X86_REG_DR5 | UC_X86_REG_DR6 | UC_X86_REG_DR7 =>
      rchk int64_t (assign int64_t value (env (dr (regid -# UC_X86_REG_DR0))))
  | UC_X86_REG_FLAGS =>
      rchk int16_t (assign int16_t value (cpu_compute_eflags env))
  | UC_X86_REG_EFLAGS =>
      rchk int32_t (assign int32_t value (cpu_compute_eflags env))
  | UC_X86_REG_RFLAGS =>
      rchk int64_t (assign int64_t value (cpu_compute_eflags env))
  | UC_X86_REG_RAX =>
      rchk uint64_t (assign uint64_t value (env (regs R_EAX)))
  | UC_X86_REG_EAX =>
      rchk int32_t (assign int32_t value (READ_DWORD (env (regs R_EAX))))
  | UC_X86_REG_AX =>
      rchk int16_t (assign int16_t value (READ_WORD (env (regs R_EAX))))
  | UC_X86_REG_AH =>
      rchk int8_t (assign int8_t value (READ_BYTE_H (env (regs R_EAX))))
  | UC_X86_REG_AL =>
      rchk int8_t (assign int8_t value (READ_BYTE_L (env (regs R_EAX))))
  | UC_X86_REG_RBX =>
      rchk uint64_t (assign uint64_t value (env (regs R_EBX)))
  | UC_X86_REG_EBX =>
      rchk int32_t (assign int32_t value (READ_DWORD (env (regs R_EBX))))
  | UC_X86_REG_BX =>
      rchk int16_t (assign int16_t value (READ_WORD (env (regs R_EBX))))
  | UC_X86_REG_BH =>
      rchk int8_t (assign int8_t value (READ_BYTE_H (env (regs R_EBX))))
  | UC_X86_REG_BL =>
      rchk int8_t (assign int8_t value (READ_BYTE_L (env (regs R_EBX))))
  | UC_X86_REG_RCX =>
      rchk uint64_t (assign uint64_t value (env (regs R_ECX)))
  | UC_X86_REG_ECX =>
      rchk int32_t (assign int32_t value (READ_DWORD (env (regs R_ECX))))
  | UC_X86_REG_CX =>
      rchk int16_t (assign int16_t value (READ_WORD (env (regs R_ECX))))
  | UC_X86_REG_CH =>
      rchk int8_t (assign int8_t value (READ_BYTE_H (env (regs R_ECX))))
  | UC_X86_REG_CL =>
      rchk int8_t (assign int8_t value (READ_BYTE_L (env (regs R_ECX))))
  | UC_X86_REG_RDX =>
      rchk uint64_t (assign uint64_t value (env (regs R_EDX)))
  | UC_X86_REG_EDX =>
      rchk int32_t (assign int32_t value (READ_DWORD (env (regs R_EDX))))
  | UC_X86_REG_DX =>
      rchk int16_t (assign int16_t value (READ_WORD (env (regs R_EDX))))
  | UC_X86_REG_DH =>
      rchk int8_t (assign int8_t value (READ_BYTE_H (env (regs R_EDX))))
  | UC_X86_REG_DL =>
      rchk int8_t (assign int8_t value (READ_BYTE_L (env (regs R_EDX))))
  | UC_X86_REG_RSP =>
      rchk uint64_t (assign uint64_t value (env (regs R_ESP)))
  | UC_X86_REG_ESP =>
      rchk int32_t (assign int32_t value (READ_DWORD (env (regs R_ESP))))
  | UC_X86_REG_SP =>
      rchk int16_t (assign int16_t value (READ_WORD (env (regs R_ESP))))
  | UC_X86_REG_SPL =>
      rchk int8_t (assign int8_t value (READ_BYTE_L (env (regs R_ESP))))
  | UC_X86_REG_RBP =>
      rchk uint64_t (assign uint64_t value (env (regs R_EBP)))
  | UC_X86_REG_EBP =>
      rchk int32_t (assign int32_t value (READ_DWORD (env (regs R_EBP))))
  | UC_X86_REG_BP =>
      rchk int16_t (assign int16_t value (READ_WORD (env (regs R_EBP))))
  | UC_X86_REG_BPL =>
      rchk int8_t (assign int8_t value (READ_BYTE_L (env (regs R_EBP))))
  | UC_X86_REG_RSI =>
      rchk uint64_t (assign uint64_t value (env (regs R_ESI)))
  | UC_X86_REG_ESI =>
      rchk int32_t (assign int32_t value (READ_DWORD (env (regs R_ESI))))
  | UC_X86_REG_SI =>
      rchk int16_t (assign int16_t value (READ_WORD (env (regs R_ESI))))
  | UC_X86_REG_SIL =>
      rchk int8_t (assign int8_t value (READ_BYTE_L (env (regs R_ESI))))
  | UC_X86_REG_RDI =>
      rchk uint64_t (assign uint64_t value (env (regs R_EDI)))
  | UC_X86_REG_EDI =>
      rchk int32_t (assign int32_t value (READ_DWORD (env (regs R_EDI))))
  | UC_X86_REG_DI =>
      rchk int16_t (assign int16_t value (READ_WORD (env (regs R_EDI))))
  | UC_X86_REG_DIL =>
      rchk int8_t (assign int8_t value (READ_BYTE_L (env (regs R_EDI))))
  | UC_X86_REG_RIP =>
      rchk uint64_t (assign uint64_t value (env eip))
  | UC_X86_REG_EIP =>
      rchk int32_t (assign int32_t value (READ_DWORD (env eip)))
  | UC_X86_REG_IP =>
      rchk int16_t (assign int16_t value (READ_WORD (env eip)))
  | UC_X86_REG_CS =>
      rchk int16_t (assign int16_t value (cast uint16_t (env (segs R_CS selector))))
  | UC_X86_REG_DS =>
      rchk int16_t (assign int16_t value (cast uint16_t (env (segs R_DS selector))))
  | UC_X86_REG_SS =>
      rchk int16_t (assign int16_t value (cast uint16_t (env (segs R_SS selector))))
  | UC_X86_REG_ES =>
      rchk int16_t (assign int16_t value (cast uint16_t (env (segs R_ES selector))))
  | UC_X86_REG_FS =>
      rchk int16_t (assign int16_t value (cast uint16_t (env (segs R_FS selector))))
  | UC_X86_REG_GS =>
      rchk int16_t (assign int16_t value (cast uint16_t (env (segs R_GS selector))))
  | UC_X86_REG_R8 =>
      rchk int64_t (assign int64_t value (READ_QWORD (env (regs 8))))
  | UC_X86_REG_R8D =>
      rchk int32_t (assign int32_t value (READ_DWORD (env (regs 8))))
  | UC_X86_REG_R8W =>
      rchk int16_t (assign int16_t value (READ_WORD (env (regs 8))))
  | UC_X86_REG_R8B =>
      rchk int8_t (assign int8_t value (READ_BYTE_L (env (regs 8))))
  | UC_X86_REG_R9 =>
      rchk int64_t (assign int64_t value (READ_QWORD (env (regs 9))))
  | UC_X86_REG_R9D =>
      rchk int32_t (assign int32_t value (READ_DWORD (env (regs 9))))
  | UC_X86_REG_R9W =>
      rchk int16_t (assign int16_t value (READ_WORD (env (regs 9))))
  | UC_X86_REG_R9B =>
      rchk int8_t (assign int8_t value (READ_BYTE_L (env (regs 9))))
  | UC_X86_REG_R10 =>
      rchk int64_t (assign int64_t value (READ_QWORD (env (regs 10))))
  | UC_X86_REG_R10D =>
      rchk int32_t (assign int32_t value (READ_DWORD (env (regs 10))))
  | UC_X86_REG_R10W =>
      rchk int16_t (assign int16_t value (READ_WORD (env (regs 10))))
  | UC_X86_REG_R10B =>
      rchk int8_t (assign int8_t value (READ_BYTE_L (env (regs 10))))
  | UC_X86_REG_R11 =>
      rchk int64_t (assign int64_t value (READ_QWORD (env (regs 11))))
  | UC_X86_REG_R11D =>
      rchk int32_t (assign int32_t value (READ_DWORD (env (regs 11))))
  | UC_X86_REG_R11W =>
      rchk int16_t (assign int16_t value (READ_WORD (env (regs 11))))
  | UC_X86_REG_R11B =>
      rchk int8_t (assign int8_t value (READ_BYTE_L (env (regs 11))))
  | UC_X86_REG_R12 =>
      rchk int64_t (assign int64_t value (READ_QWORD (env (regs 12))))
  | UC_X86_REG_R12D =>
      rchk int32_t (assign int32_t value (READ_DWORD (env (regs 12))))
  | UC_X86_REG_R12W =>
      rchk int16_t (assign int16_t value (READ_WORD (env (regs 12))))
  | UC_X86_REG_R12B =>
      rchk int8_t (assign int8_t value (READ_BYTE_L (env (regs 12))))
  | UC_X86_REG_R13 =>
      rchk int64_t (assign int64_t value (READ_QWORD (env (regs 13))))
  | UC_X86_REG_R13D =>
      rchk int32_t (assign int32_t value (READ_DWORD (env (regs 13))))
  | UC_X86_REG_R13W =>
      rchk int16_t (assign int16_t value (READ_WORD (env (regs 13))))
  | UC_X86_REG_R13B =>
      rchk int8_t (assign int8_t value (READ_BYTE_L (env (regs 13))))
  | UC_X86_REG_R14 =>
      rchk int64_t (assign int64_t value (READ_QWORD (env (regs 14))))
  | UC_X86_REG_R14D =>
      rchk int32_t (assign int32_t value (READ_DWORD (env (regs 14))))
  | UC_X86_REG_R14W =>
      rchk int16_t (assign int16_t value (READ_WORD (env (regs 14))))
  | UC_X86_REG_R14B =>
      rchk int8_t (assign int8_t value (READ_BYTE_L (env (regs 14))))
  | UC_X86_REG_R15 =>
      rchk int64_t (assign int64_t value (READ_QWORD (env (regs 15))))
  | UC_X86_REG_R15D =>
      rchk int32_t (assign int32_t value (READ_DWORD (env (regs 15))))
  | UC_X86_REG_R15W =>
      rchk int16_t (assign int16_t value (READ_WORD (env (regs 15))))
  | UC_X86_REG_R15B =>
      rchk int8_t (assign int8_t value (READ_BYTE_L (env (regs 15))))
  | UC_X86_REG_IDTR =>
      rchk uc_x86_mmr (
        let value := set_field mmr_limit value (cast uint16_t (env (idt limit))) in
        let value := set_field mmr_base value (env (idt base)) in
        value)
  | UC_X86_REG_GDTR =>
      rchk uc_x86_mmr (
        let value := set_field mmr_limit value (cast uint16_t (env (gdt limit))) in
        let value := set_field mmr_base value (env (gdt base)) in
        value)
  | UC_X86_REG_LDTR =>
      rchk uc_x86_mmr (
        let value := set_field mmr_limit value (env (ldt limit)) in
        let value := set_field mmr_base value (env (ldt base)) in
        let value := set_field mmr_selector value (cast uint16_t (env (ldt selector))) in
        let value := set_field mmr_flags value (env (ldt flags)) in
        value)
  | UC_X86_REG_TR =>
      rchk uc_x86_mmr (
        let value := set_field mmr_limit value (env (tr limit)) in
        let value := set_field mmr_base value (env (tr base)) in
        let value := set_field mmr_selector value (cast uint16_t (env (tr selector))) in
        let value := set_field mmr_flags value (env (tr flags)) in
        value)
  | UC_X86_REG_MSR =>
      CHECK_REG_TYPE size uc_x86_msr bail (fun ret =>
        let (value, env) := x86_msr_read env value in
        Rd ret value env)
  | UC_X86_REG_MXCSR =>
      rchk uint32_t (assign uint32_t value (env mxcsr))
  | UC_X86_REG_XMM8 | UC_X86_REG_XMM9 | UC_X86_REG_XMM10
  | UC_X86_REG_XMM11 | UC_X86_REG_XMM12 | UC_X86_REG_XMM13
  | UC_X86_REG_XMM14 | UC_X86_REG_XMM15 =>
      rchk float64_2 (
        let reg := regid -# UC_X86_REG_XMM0 in
        let value := assign_at uint64_t 0 value (env (xmm_regs reg 0)) in
        let value := assign_at uint64_t 8 value (env (xmm_regs reg 1)) in
        value)
  | UC_X86_REG_FS_BASE =>
      rchk uint64_t (assign uint64_t value (cast uint64_t (env (segs R_FS base))))
  | UC_X86_REG_GS_BASE =>
      rchk uint64_t (assign uint64_t value (cast uint64_t (env (segs R_GS base))))
  | _ => Rd ret value env
  end.

Definition reg_read_mode_16 : rd :=
  match regid with
  | UC_X86_REG_ES =>
      rchk int16_t (assign int16_t value (env (segs R_ES selector)))
  | UC_X86_REG_SS =>
      rchk int16_t (assign int16_t value (env (segs R_SS selector)))
  | UC_X86_REG_DS =>
      rchk int16_t (assign int16_t value (env (segs R_DS selector)))
  | UC_X86_REG_FS =>
      rchk int16_t (assign int16_t value (env (segs R_FS selector)))
  | UC_X86_REG_GS =>
      rchk int16_t (assign int16_t value (env (segs R_GS selector)))
  | UC_X86_REG_FS_BASE =>
      rchk uint32_t (assign uint32_t value (cast uint32_t (env (segs R_FS base))))
  | _ => reg_read_mode_32     (* fall-thru *)
  end.

Definition reg_read (mode : uc_mode) : rd :=
  match regid with
  | UC_X86_REG_FP0 | UC_X86_REG_FP1 | UC_X86_REG_FP2 | UC_X86_REG_FP3
  | UC_X86_REG_FP4 | UC_X86_REG_FP5 | UC_X86_REG_FP6 | UC_X86_REG_FP7 =>
      rchk char_10 (
        let reg_low := env (fpregs (regid -# UC_X86_REG_FP0) low) in
        let reg_high := env (fpregs (regid -# UC_X86_REG_FP0) high) in
        let (mant, exp) := cpu_get_fp80 reg_low reg_high in
        let value := assign_at uint64_t 0 value mant in
        let value := assign_at uint16_t (sizeof uint64_t) value exp in
        value)
  | UC_X86_REG_FPSW =>
      rchk uint16_t (
        let fpus := cast uint16_t (env fpus) in
        let fpus := cast uint16_t (Z.land fpus (Z.lnot 0x3800)) in
        let fpus := cast uint16_t (Z.lor fpus (Z.shiftl (Z.land (env fpstt) 0x7) 11)) in
        assign uint16_t value fpus)
  | UC_X86_REG_FPTAG =>
      rchk uint16_t (
        let fptag := 0 in
        let fptag := fptag_loop env 8 fptag in
        assign uint16_t value fptag)
  | UC_X86_REG_XMM0 | UC_X86_REG_XMM1 | UC_X86_REG_XMM2
  | UC_X86_REG_XMM3 | UC_X86_REG_XMM4 | UC_X86_REG_XMM5
  | UC_X86_REG_XMM6 | UC_X86_REG_XMM7 =>
      rchk float64_2 (
        let reg := regid -# UC_X86_REG_XMM0 in
        let value := assign_at uint64_t 0 value (env (xmm_regs reg 0)) in
        let value := assign_at uint64_t 8 value (env (xmm_regs reg 1)) in
        value)
  | UC_X86_REG_ST0 | UC_X86_REG_ST1 | UC_X86_REG_ST2 | UC_X86_REG_ST3
  | UC_X86_REG_ST4 | UC_X86_REG_ST5 | UC_X86_REG_ST6 | UC_X86_REG_ST7 =>
      rchk char_10 (
        let st := FPST env (regid -# UC_X86_REG_ST0) in
        let value := assign_at uint64_t 0 value (env (fpregs st low)) in
        let value := assign_at uint16_t 8 value (env (fpregs st high)) in
        value)
  | UC_X86_REG_YMM0 | UC_X86_REG_YMM1 | UC_X86_REG_YMM2
  | UC_X86_REG_YMM3 | UC_X86_REG_YMM4 | UC_X86_REG_YMM5
  | UC_X86_REG_YMM6 | UC_X86_REG_YMM7 | UC_X86_REG_YMM8
  | UC_X86_REG_YMM9 | UC_X86_REG_YMM10 | UC_X86_REG_YMM11
  | UC_X86_REG_YMM12 | UC_X86_REG_YMM13 | UC_X86_REG_YMM14
  | UC_X86_REG_YMM15 =>
      rchk float64_4 (
        let lo_reg := regid -# UC_X86_REG_YMM0 in
        let hi_reg := regid -# UC_X86_REG_YMM0 in
        let value := assign_at uint64_t 0 value (env (xmm_regs lo_reg 0)) in
        let value := assign_at uint64_t 8 value (env (xmm_regs lo_reg 1)) in
        let value := assign_at uint64_t 16 value (env (ymmh_regs hi_reg 0)) in
        let value := assign_at uint64_t 24 value (env (ymmh_regs hi_reg 1)) in
        value)
  | UC_X86_REG_FPCW =>
      rchk uint16_t (assign uint16_t value (env fpuc))
  | UC_X86_REG_FIP =>
      rchk uint64_t (assign uint64_t value (env fpip))
  | UC_X86_REG_FCS =>
      rchk uint16_t (assign uint16_t value (env fpcs))
  | UC_X86_REG_FDP =>
      rchk uint64_t (assign uint64_t value (env fpdp))
  | UC_X86_REG_FDS =>
      rchk uint16_t (assign uint16_t value (env fpds))
  | UC_X86_REG_FOP =>
      rchk uint16_t (assign uint16_t value (env fpop))
  | _ =>
      match mode with
      | UC_MODE_16 => reg_read_mode_16
      | UC_MODE_32 => reg_read_mode_32
      | UC_MODE_64 => reg_read_mode_64
      | UC_MODE_other _ => Rd ret value env
      end
  end.
End reg_read.

(** *** [reg_write]

    Given switch by switch like [reg_read]; [setpc] is the value of
    [*setpc] at entry.  [chk t e] is [CHECK_REG_TYPE(t);] followed by
    statements that leave the state as [e]; [chk_setpc] also executes
    [*setpc = 1]; [chk_seg t seg] is
    [CHECK_REG_TYPE(t); ret = uc_check_cpu_x86_load_seg(env, seg, v);
     if (ret) return ret; cpu_x86_load_seg(env, seg, v);]
    with [v = *(uint16_t * )value].  The [return 0] of the two base
    registers of the 64-bit mode is [return ret] after the check. *)
Section reg_write.
Variables (env : CPUX86State) (regid : uc_x86_reg) (value : buffer)
          (size : option Z) (setpc : Z).

Let ret : uc_err := UC_ERR_ARG.
Let bail : wr := Wr UC_ERR_ARG env setpc.
Definition chk (t : ctype) (e : CPUX86State) : wr :=
  CHECK_REG_TYPE size t bail (fun ret => Wr ret e setpc).
Definition chk_setpc (t : ctype) (e : CPUX86State) : wr :=
  CHECK_REG_TYPE size t bail (fun ret => Wr ret e 1).
Definition chk_seg (t : ctype) (seg : Z) : wr :=
  CHECK_REG_TYPE size t bail (fun _ =>
    let ret := uc_check_cpu_x86_load_seg env seg (deref uint16_t value) in
    if is_err ret then Wr ret env setpc
    else Wr ret (cpu_x86_load_seg env seg (deref uint16_t value)) setpc).

Definition reg_write_mode_32 : wr :=
  match regid with
  | UC_X86_REG_CR0 =>
      chk uint32_t (
        let env := cpu_x86_update_cr0 env (deref uint32_t value) in
        (* write_cr: *)
        upd env (cr (regid -# UC_X86_REG_CR0)) (deref uint32_t value))
  | UC_X86_REG_CR1 | UC_X86_REG_CR2 | UC_X86_REG_CR3 =>
      chk uint32_t (
        let env := cpu_x86_update_cr3 env (deref uint32_t value) in
        (* write_cr: *)
        upd env (cr (regid -# UC_X86_REG_CR0)) (deref uint32_t value))
  | UC_X86_REG_CR4 =>
      chk uint32_t (
        let env := cpu_x86_update_cr4 env (deref uint32_t value) in
        (* write_cr: *)
        upd env (cr (regid -# UC_X86_REG_CR0)) (deref uint32_t value))
  | UC_X86_REG_DR0 | UC_X86_REG_DR1 | UC_X86_REG_DR2 | UC_X86_REG_DR3
  | UC_X86_REG_DR4 | UC_X86_REG_DR5 | UC_X86_REG_DR6 | UC_X86_REG_DR7 =>
      chk uint32_t (upd env (dr (regid -# UC_X86_REG_DR0)) (deref uint32_t value))
  | UC_X86_REG_FLAGS =>
      chk uint16_t (cpu_load_eflags env (cast int_t (deref uint16_t value)) (-1))
  | UC_X86_REG_EFLAGS =>
      chk uint32_t (cpu_load_eflags env (cast int_t (deref uint32_t value)) (-1))
  | UC_X86_REG_EAX =>
      chk uint32_t (upd env (regs R_EAX) (deref uint32_t value))
  | UC_X86_REG_AX =>
      chk uint16_t (WRITE_WORD env (regs R_EAX) (deref uint16_t value))
  | UC_X86_REG_AH =>
      chk uint8_t (WRITE_BYTE_H env (regs R_EAX) (deref uint8_t value))
  | UC_X86_REG_AL =>
      chk uint8_t (WRITE_BYTE_L env (regs R_EAX) (deref uint8_t value))
  | UC_X86_REG_EBX =>
      chk uint32_t (upd env (regs R_EBX) (deref uint32_t value))
  | UC_X86_REG_BX =>
      chk uint16_t (WRITE_WORD env (regs R_EBX) (deref uint16_t value))
  | UC_X86_REG_BH =>
      chk uint8_t (WRITE_BYTE_H env (regs R_EBX) (deref uint8_t value))
  | UC_X86_REG_BL =>
      chk uint8_t (WRITE_BYTE_L env (regs R_EBX) (deref uint8_t value))
  | UC_X86_REG_ECX =>
      chk uint32_t (upd env (regs R_ECX) (deref uint32_t value))
  | UC_X86_REG_CX =>
      chk uint16_t (WRITE_WORD env (regs R_ECX) (deref uint16_t value))
  | UC_X86_REG_CH =>
      chk uint8_t (WRITE_BYTE_H env (regs R_ECX) (deref uint8_t value))
  | UC_X86_REG_CL =>
      chk uint8_t (WRITE_BYTE_L env (regs R_ECX) (deref uint8_t value))
  | UC_X86_REG_EDX =>
      chk uint32_t (upd env (regs R_EDX) (deref uint32_t value))
  | UC_X86_REG_DX =>
      chk uint16_t (WRITE_WORD env (regs R_EDX) (deref uint16_t value))
  | UC_X86_REG_DH =>
      chk uint8_t (WRITE_BYTE_H env (regs R_EDX) (deref uint8_t value))
  | UC_X86_REG_DL =>
      chk uint8_t (WRITE_BYTE_L env (regs R_EDX) (deref uint8_t value))
  | UC_X86_REG_ESP =>
      chk uint32_t (upd env (regs R_ESP) (deref uint32_t value))
  | UC_X86_REG_SP =>
      chk uint16_t (WRITE_WORD env (regs R_ESP) (deref uint16_t value))
  | UC_X86_REG_EBP =>
      chk uint32_t (upd env (regs R_EBP) (deref uint32_t value))
  | UC_X86_REG_BP =>
      chk uint16_t (WRITE_WORD env (regs R_EBP) (deref uint16_t value))
  | UC_X86_REG_ESI =>
      chk uint32_t (upd env (regs R_ESI) (deref uint32_t value))
  | UC_X86_REG_SI =>
      chk uint16_t (WRITE_WORD env (regs R_ESI) (deref uint16_t value))
  | UC_X86_REG_EDI =>
      chk uint32_t (upd env (regs R_EDI) (deref uint32_t value))
  | UC_X86_REG_DI =>
      chk uint16_t (WRITE_WORD env (regs R_EDI) (deref uint16_t value))
  | UC_X86_REG_EIP =>
      chk_setpc uint32_t (upd env eip (deref uint32_t value))
  | UC_X86_REG_IP =>
      chk_setpc uint16_t (upd env eip (deref uint16_t value))
  | UC_X86_REG_CS =>
      chk_seg uint16_t R_CS
  | UC_X86_REG_DS =>
      chk_seg uint16_t R_DS
  | UC_X86_REG_SS =>
      chk_seg uint16_t R_SS
  | UC_X86_REG_ES =>
      chk_seg uint16_t R_ES
  | UC_X86_REG_FS =>
      chk_seg uint16_t R_FS
  | UC_X86_REG_GS =>
      chk_seg uint16_t R_GS
  | UC_X86_REG_IDTR =>
      chk uc_x86_mmr (
        let env := upd env (idt limit) (cast uint16_t (get_field mmr_limit value)) in
        let env := upd env (idt base) (cast uint32_t (get_field mmr_base value)) in
        env)
  | UC_X86_REG_GDTR =>
      chk uc_x86_mmr (
        let env := upd env (gdt limit) (cast uint16_t (get_field mmr_limit value)) in
        let env := upd env (gdt base) (cast uint32_t (get_field mmr_base value)) in
        env)
  | UC_X86_REG_LDTR =>
      chk uc_x86_mmr (
        let env := upd env (ldt limit) (get_field mmr_limit value) in
        let env := upd env (ldt base) (cast uint32_t (get_field mmr_base value)) in
        let env := upd env (ldt selector) (cast uint16_t (get_field mmr_selector value)) in
        let env := upd env (ldt flags) (get_field mmr_flags value) in
        env)
  | UC_X86_REG_TR =>
      chk uc_x86_mmr (
        let env := upd env (tr limit) (get_field mmr_limit value) in
        let env := upd env (tr base) (cast uint32_t (get_field mmr_base value)) in
        let env := upd env (tr selector) (cast uint16_t (get_field mmr_selector value)) in
        let env := upd env (tr flags) (get_field mmr_flags value) in
        env)
  | UC_X86_REG_MSR =>
      chk uc_x86_msr (x86_msr_write env value)
  | UC_X86_REG_MXCSR =>
      chk uint32_t (cpu_set_mxcsr env (deref uint32_t value))
  | _ => Wr ret env setpc
  end.

Definition reg_write_mode_64 : wr :=
  match regid with
  | UC_X86_REG_CR0 =>
      chk uint64_t (
        let env := cpu_x86_update_cr0 env (deref uint32_t value) in
        (* write_cr64: *)
        upd env (cr (regid -# UC_X86_REG_CR0)) (deref uint64_t value))
  | UC_X86_REG_CR1 | UC_X86_REG_CR2 | UC_X86_REG_CR3 =>
      chk uint64_t (
        let env := cpu_x86_update_cr3 env (deref uint32_t value) in
        (* write_cr64: *)
        upd env (cr (regid -# UC_X86_REG_CR0)) (deref uint64_t value))
  | UC_X86_REG_CR4 =>
      chk uint64_t (
        let env := cpu_x86_update_cr4 env (deref uint32_t value) in
        (* write_cr64: *)
        upd env (cr (regid -# UC_X86_REG_CR0)) (deref uint64_t value))
  | UC_X86_REG_DR0 | UC_X86_REG_DR1 | UC_X86_REG_DR2 | UC_X86_REG_DR3
  | UC_X86_REG_DR4 | UC_X86_REG_DR5 | UC_X86_REG_DR6 | UC_X86_REG_DR7 =>
      chk uint64_t (upd env (dr (regid -# UC_X86_REG_DR0)) (deref uint64_t value))
  | UC_X86_REG_FLAGS =>
      chk uint16_t (cpu_load_eflags env (cast int_t (deref uint16_t value)) (-1))
  | UC_X86_REG_EFLAGS =>
      chk uint32_t (cpu_load_eflags env (cast int_t (deref uint32_t value)) (-1))
  | UC_X86_REG_RFLAGS =>
      chk uint64_t (cpu_load_eflags env (cast int_t (deref uint64_t value)) (-1))
  | UC_X86_REG_RAX =>
      chk uint64_t (upd env (regs R_EAX) (deref uint64_t value))
  | UC_X86_REG_EAX =>
      chk uint32_t (WRITE_DWORD env (regs R_EAX) (deref uint32_t value))
  | UC_X86_REG_AX =>
      chk uint16_t (WRITE_WORD env (regs R_EAX) (deref uint16_t value))
  | UC_X86_REG_AH =>
      chk uint8_t (WRITE_BYTE_H env (regs R_EAX) (deref uint8_t value))
  | UC_X86_REG_AL =>
      chk uint8_t (WRITE_BYTE_L env (regs R_EAX) (deref uint8_t value))
  | UC_X86_REG_RBX =>
      chk uint64_t (upd env (regs R_EBX) (deref uint64_t value))
  | UC_X86_REG_EBX =>
      chk uint32_t (WRITE_DWORD env (regs R_EBX) (deref uint32_t value))
  | UC_X86_REG_BX =>
      chk uint16_t (WRITE_WORD env (regs R_EBX) (deref uint16_t value))
  | UC_X86_REG_BH =>
      chk uint8_t (WRITE_BYTE_H env (regs R_EBX) (deref uint8_t value))
  | UC_X86_REG_BL =>
      chk uint8_t (WRITE_BYTE_L env (regs R_EBX) (deref uint8_t value))
  | UC_X86_REG_RCX =>
      chk uint64_t (upd env (regs R_ECX) (deref uint64_t value))
  | UC_X86_REG_ECX =>
      chk uint32_t (WRITE_DWORD env (regs R_ECX) (deref uint32_t value))
  | UC_X86_REG_CX =>
      chk uint16_t (WRITE_WORD env (regs R_ECX) (deref uint16_t value))
  | UC_X86_REG_CH =>
      chk uint8_t (WRITE_BYTE_H env (regs R_ECX) (deref uint8_t value))
  | UC_X86_REG_CL =>
      chk uint8_t (WRITE_BYTE_L env (regs R_ECX) (deref uint8_t value))
  | UC_X86_REG_RDX =>
      chk uint64_t (upd env (regs R_EDX) (deref uint64_t value))
  | UC_X86_REG_EDX =>
      chk uint32_t (WRITE_DWORD env (regs R_EDX) (deref uint32_t value))
  | UC_X86_REG_DX =>
      chk uint16_t (WRITE_WORD env (regs R_EDX) (deref uint16_t value))
  | UC_X86_REG_DH =>
      chk uint8_t (WRITE_BYTE_H env (regs R_EDX) (deref uint8_t value))
  | UC_X86_REG_DL =>
      chk uint8_t (WRITE_BYTE_L env (regs R_EDX) (deref uint8_t value))
  | UC_X86_REG_RSP =>
      chk uint64_t (upd env (regs R_ESP) (deref uint64_t value))
  | UC_X86_REG_ESP =>
      chk uint32_t (WRITE_DWORD env (regs R_ESP) (deref uint32_t value))
  | UC_X86_REG_SP =>
      chk uint16_t (WRITE_WORD env (regs R_ESP) (deref uint16_t value))
  | UC_X86_REG_SPL =>
      chk uint8_t (WRITE_BYTE_L env (regs R_ESP) (deref uint8_t value))
  | UC_X86_REG_RBP =>
      chk uint64_t (upd env (regs R_EBP) (deref uint64_t value))
  | UC_X86_REG_EBP =>
      chk uint32_t (WRITE_DWORD env (regs R_EBP) (deref uint32_t value))
  | UC_X86_REG_BP =>
      chk uint16_t (WRITE_WORD env (regs R_EBP) (deref uint16_t value))
  | UC_X86_REG_BPL =>
      chk uint8_t (WRITE_BYTE_L env (regs R_EBP) (deref uint8_t value))
  | UC_X86_REG_RSI =>
      chk uint64_t (upd env (regs R_ESI) (deref uint64_t value))
  | UC_X86_REG_ESI =>
      chk uint32_t (WRITE_DWORD env (regs R_ESI) (deref uint32_t value))
  | UC_X86_REG_SI =>
      chk uint16_t (WRITE_WORD env (regs R_ESI) (deref uint16_t value))
  | UC_X86_REG_SIL =>
      chk uint8_t (WRITE_BYTE_L env (regs R_ESI) (deref uint8_t value))
  | UC_X86_REG_RDI =>
      chk uint64_t (upd env (regs R_EDI) (deref uint64_t value))
  | UC_X86_REG_EDI =>
      chk uint32_t (WRITE_DWORD env (regs R_EDI) (deref uint32_t value))
  | UC_X86_REG_DI =>
      chk uint16_t (WRITE_WORD env (regs R_EDI) (deref uint16_t value))
  | UC_X86_REG_DIL =>
      chk uint8_t (WRITE_BYTE_L env (regs R_EDI) (deref uint8_t value))
  | UC_X86_REG_RIP =>
      chk_setpc uint64_t (upd env eip (deref uint64_t value))
  | UC_X86_REG_EIP =>
      chk_setpc uint32_t (upd env eip (deref uint32_t value))
  | UC_X86_REG_IP =>
      chk_setpc uint16_t (WRITE_WORD env eip (deref uint16_t value))
  | UC_X86_REG_CS =>
      chk uint16_t (upd env (segs R_CS selector) (deref uint16_t value))
  | UC_X86_REG_DS =>
      chk uint16_t (upd env (segs R_DS selector) (deref uint16_t value))
  | UC_X86_REG_SS =>
      chk uint16_t (upd env (segs R_SS selector) (deref uint16_t value))
  | UC_X86_REG_ES =>
      chk uint16_t (upd env (segs R_ES selector) (deref uint16_t value))
  | UC_X86_REG_FS =>
      chk_seg uint16_t R_FS
  | UC_X86_REG_GS =>
      chk_seg uint16_t R_GS
  | UC_X86_REG_R8 =>
      chk uint64_t (upd env (regs 8) (deref uint64_t value))
  | UC_X86_REG_R8D =>
      chk uint32_t (WRITE_DWORD env (regs 8) (deref uint32_t value))
  | UC_X86_REG_R8W =>
      chk uint16_t (WRITE_WORD env (regs 8) (deref uint16_t value))
  | UC_X86_REG_R8B =>
      chk uint8_t (WRITE_BYTE_L env (regs 8) (deref uint8_t value))
  | UC_X86_REG_R9 =>
      chk uint64_t (upd env (regs 9) (deref uint64_t value))
  | UC_X86_REG_R9D =>
      chk uint32_t (WRITE_DWORD env (regs 9) (deref uint32_t value))
  | UC_X86_REG_R9W =>
      chk uint16_t (WRITE_WORD env (regs 9) (deref uint16_t value))
  | UC_X86_REG_R9B =>
      chk uint8_t (WRITE_BYTE_L env (regs 9) (deref uint8_t value))
  | UC_X86_REG_R10 =>
      chk uint64_t (upd env (regs 10) (deref uint64_t value))
  | UC_X86_REG_R10D =>
      chk uint32_t (WRITE_DWORD env (regs 10) (deref uint32_t value))
  | UC_X86_REG_R10W =>
      chk uint16_t (WRITE_WORD env (regs 10) (deref uint16_t value))
  | UC_X86_REG_R10B =>
      chk uint8_t (WRITE_BYTE_L env (regs 10) (deref uint8_t value))
  | UC_X86_REG_R11 =>
      chk uint64_t (upd env (regs 11) (deref uint64_t value))
  | UC_X86_REG_R11D =>
      chk uint32_t (WRITE_DWORD env (regs 11) (deref uint32_t value))
  | UC_X86_REG_R11W =>
      chk uint16_t (WRITE_WORD env (regs 11) (deref uint16_t value))
  | UC_X86_REG_R11B =>
      chk uint8_t (WRITE_BYTE_L env (regs 11) (deref uint8_t value))
  | UC_X86_REG_R12 =>
      chk uint64_t (upd env (regs 12) (deref uint64_t value))
  | UC_X86_REG_R12D =>
      chk uint32_t (WRITE_DWORD env (regs 12) (deref uint32_t value))
  | UC_X86_REG_R12W =>
      chk uint16_t (WRITE_WORD env (regs 12) (deref uint16_t value))
  | UC_X86_REG_R12B =>
      chk uint8_t (WRITE_BYTE_L env (regs 12) (deref uint8_t value))
  | UC_X86_REG_R13 =>
      chk uint64_t (upd env (regs 13) (deref uint64_t value))
  | UC_X86_REG_R13D =>
      chk uint32_t (WRITE_DWORD env (regs 13) (deref uint32_t value))
  | UC_X86_REG_R13W =>
      chk uint16_t (WRITE_WORD env (regs 13) (deref uint16_t value))
  | UC_X86_REG_R13B =>
      chk uint8_t (WRITE_BYTE_L env (regs 13) (deref uint8_t value))
  | UC_X86_REG_R14 =>
      chk uint64_t (upd env (regs 14) (deref uint64_t value))
  | UC_X86_REG_R14D =>
      chk uint32_t (WRITE_DWORD env (regs 14) (deref uint32_t value))
  | UC_X86_REG_R14W =>
      chk uint16_t (WRITE_WORD env (regs 14) (deref uint16_t value))
  | UC_X86_REG_R14B =>
      chk uint8_t (WRITE_BYTE_L env (regs 14) (deref uint8_t value))
  | UC_X86_REG_R15 =>
      chk uint64_t (upd env (regs 15) (deref uint64_t value))
  | UC_X86_REG_R15D =>
      chk uint32_t (WRITE_DWORD env (regs 15) (deref uint32_t value))
  | UC_X86_REG_R15W =>
      chk uint16_t (WRITE_WORD env (regs 15) (deref uint16_t value))
  | UC_X86_REG_R15B =>
      chk uint8_t (WRITE_BYTE_L env (regs 15) (deref uint8_t value))
  | UC_X86_REG_IDTR =>
      chk uc_x86_mmr (
        let env := upd env (idt limit) (cast uint16_t (get_field mmr_limit value)) in
        let env := upd env (idt base) (get_field mmr_base value) in
        env)
  | UC_X86_REG_GDTR =>
      chk uc_x86_mmr (
        let env := upd env (gdt limit) (cast uint16_t (get_field mmr_limit value)) in
        let env := upd env (gdt base) (get_field mmr_base value) in
        env)
  | UC_X86_REG_LDTR =>
      chk uc_x86_mmr (
        let env := upd env (ldt limit) (get_field mmr_limit value) in
        let env := upd env (ldt base) (get_field mmr_base value) in
        let env := upd env (ldt selector) (cast uint16_t (get_field mmr_selector value)) in
        let env := upd env (ldt flags) (get_field mmr_flags value) in
        env)
  | UC_X86_REG_TR =>
      chk uc_x86_mmr (
        let env := upd env (tr limit) (get_field mmr_limit value) in
        let env := upd env (tr base) (get_field mmr_base value) in
        let env := upd env (tr selector) (cast uint16_t (get_field mmr_selector value)) in
        let env := upd env (tr flags) (get_field mmr_flags value) in
        env)
  | UC_X86_REG_MSR =>
      chk uc_x86_msr (x86_msr_write env value)
  | UC_X86_REG_MXCSR =>
      chk uint32_t (cpu_set_mxcsr env (deref uint32_t value))
  | UC_X86_REG_XMM8 | UC_X86_REG_XMM9 | UC_X86_REG_XMM10
  | UC_X86_REG_XMM11 | UC_X86_REG_XMM12 | UC_X86_REG_XMM13
  | UC_X86_REG_XMM14 | UC_X86_REG_XMM15 =>
      chk float64_2 (
        let reg := regid -# UC_X86_REG_XMM0 in
        let env := upd env (xmm_regs reg 0) (deref_at uint64_t 0 value) in
        let env := upd env (xmm_regs reg 1) (deref_at uint64_t 8 value) in
        env)
  | UC_X86_REG_FS_BASE =>
      chk uint64_t (upd env (segs R_FS base) (deref uint64_t value))
  | UC_X86_REG_GS_BASE =>
      chk uint64_t (upd env (segs R_GS base) (deref uint64_t value))
  | _ => Wr ret env setpc
  end.

Definition reg_write_mode_16 : wr :=
  match regid with
  | UC_X86_REG_ES =>
      chk uint16_t (load_seg_16_helper env R_ES (deref uint16_t value))
  | UC_X86_REG_SS =>
      chk uint16_t (load_seg_16_helper env R_SS (deref uint16_t value))
  | UC_X86_REG_DS =>
      chk uint16_t (load_seg_16_helper env R_DS (deref uint16_t value))
  | UC_X86_REG_FS =>
      chk uint16_t (load_seg_16_helper env R_FS (deref uint16_t value))
  | UC_X86_REG_GS =>
      chk uint16_t (load_seg_16_helper env R_GS (deref uint16_t value))
  | _ => reg_write_mode_32     (* fall-thru *)
  end.

Definition reg_write_switch (mode : uc_mode) : wr :=
  match regid with
  | UC_X86_REG_FP0 | UC_X86_REG_FP1 | UC_X86_REG_FP2 | UC_X86_REG_FP3
  | UC_X86_REG_FP4 | UC_X86_REG_FP5 | UC_X86_REG_FP6 | UC_X86_REG_FP7 =>
      chk char_10 (
        let mant := deref uint64_t value in
        let upper := deref_at uint16_t (sizeof uint64_t) value in
        let (d_low, d_high) := cpu_set_fp80 mant upper in
        let env := upd env (fpregs (regid -# UC_X86_REG_FP0) low) d_low in
        let env := upd env (fpregs (regid -# UC_X86_REG_FP0) high) d_high in
        env)
  | UC_X86_REG_FPSW =>
      chk uint16_t (
        let fpus' := deref uint16_t value in
        let env := upd env fpus (cast uint16_t (Z.land fpus' (Z.lnot 0x3800))) in
        let env := upd env fpstt (Z.land (Z.shiftr fpus' 11) 0x7) in
        env)
  | UC_X86_REG_FPCW =>
      chk uint16_t (cpu_set_fpuc env (deref uint16_t value))
  | UC_X86_REG_FPTAG =>
      chk uint16_t (
        let fptag := deref uint16_t value in
        fptag_write_loop 8 0 fptag env)
  | UC_X86_REG_XMM0 | UC_X86_REG_XMM1 | UC_X86_REG_XMM2
  | UC_X86_REG_XMM3 | UC_X86_REG_XMM4 | UC_X86_REG_XMM5
  | UC_X86_REG_XMM6 | UC_X86_REG_XMM7 =>
      chk float64_2 (
        let reg := regid -# UC_X86_REG_XMM0 in
        let env := upd env (xmm_regs reg 0) (deref_at uint64_t 0 value) in
        let env := upd env (xmm_regs reg 1) (deref_at uint64_t 8 value) in
        env)
  | UC_X86_REG_ST0 | UC_X86_REG_ST1 | UC_X86_REG_ST2 | UC_X86_REG_ST3
  | UC_X86_REG_ST4 | UC_X86_REG_ST5 | UC_X86_REG_ST6 | UC_X86_REG_ST7 =>
      chk char_10 (
        let st := FPST env (regid -# UC_X86_REG_ST0) in
        let env := upd env (fpregs st low) (deref_at uint64_t 0 value) in
        let env := upd env (fpregs st high) (deref_at uint16_t 8 value) in
        env)
  | UC_X86_REG_YMM0 | UC_X86_REG_YMM1 | UC_X86_REG_YMM2
  | UC_X86_REG_YMM3 | UC_X86_REG_YMM4 | UC_X86_REG_YMM5
  | UC_X86_REG_YMM6 | UC_X86_REG_YMM7 | UC_X86_REG_YMM8
  | UC_X86_REG_YMM9 | UC_X86_REG_YMM10 | UC_X86_REG_YMM11
  | UC_X86_REG_YMM12 | UC_X86_REG_YMM13 | UC_X86_REG_YMM14
  | UC_X86_REG_YMM15 =>
      chk float64_4 (
        let lo_reg := regid -# UC_X86_REG_YMM0 in
        let hi_reg := regid -# UC_X86_REG_YMM0 in
        let env := upd env (xmm_regs lo_reg 0) (deref_at uint64_t 0 value) in
        let env := upd env (xmm_regs lo_reg 1) (deref_at uint64_t 8 value) in
        let env := upd env (ymmh_regs hi_reg 0) (deref_at uint64_t 16 value) in
        let env := upd env (ymmh_regs hi_reg 1) (deref_at uint64_t 24 value) in
        env)
  | UC_X86_REG_FIP =>
      chk uint64_t (upd env fpip (deref uint64_t value))
  | UC_X86_REG_FCS =>
      chk uint16_t (upd env fpcs (deref uint16_t value))
  | UC_X86_REG_FDP =>
      chk uint64_t (upd env fpdp (deref uint64_t value))
  | UC_X86_REG_FDS =>
      chk uint16_t (upd env fpds (deref uint16_t value))
  | UC_X86_REG_FOP =>
      chk uint16_t (upd env fpop (deref uint16_t value))
  | _ =>
      match mode with
      | UC_MODE_16 => reg_write_mode_16
      | UC_MODE_32 => reg_write_mode_32
      | UC_MODE_64 => reg_write_mode_64
      | UC_MODE_other _ => Wr ret env setpc
      end
  end.
End reg_write.

(** [reg_write] with its parameters in the order of the C function. *)
Definition reg_write (env : CPUX86State) (regid : uc_x86_reg)
    (value : buffer) (size : option Z) (mode : uc_mode) (setpc : Z) : wr :=
  reg_write_switch env regid value size setpc mode.

(** The loop of [reg_write_batch] from element [i] on; the three lists
    are the remaining parts of [regs], [vals] and [sizes]. *)
Fixpoint reg_write_batch (env : CPUX86State) (regs : list uc_x86_reg)
    (vals : list buffer) (sizes : option (list Z)) (mode : uc_mode)
    (setpc : Z) : wr :=
  match regs, vals with
  | regid :: regs', value :: vals' =>
      let r := reg_write env regid value (size_ptr sizes) mode setpc in
      if is_err (wr_ret r) then r
      else reg_write_batch (wr_env r) regs' vals' (sizes_next sizes) mode
             (wr_setpc r)
  | _, _ => Wr UC_ERR_OK env setpc
  end.

Definition x86_reg_write (uc : uc_struct CPUX86State)
    (regs : list uc_x86_reg) (vals : list buffer) (sizes : option (list Z))
  : uc_err * uc_struct CPUX86State :=
  let env := env_ptr uc in
  let setpc := 0 in
  let r := reg_write_batch env regs vals sizes (mode uc) setpc in
  let uc := set_env uc (wr_env r) in
  if is_err (wr_ret r) then (wr_ret r, uc)
  else
    let uc :=
      if negb (wr_setpc r =? 0)
      then break_translation_loop (set_quit_request uc true)
      else uc in
    (UC_ERR_OK, uc).

Definition x86_context_reg_write (ctx : uc_context CPUX86State)
    (regs : list uc_x86_reg) (vals : list buffer) (sizes : option (list Z))
  : uc_err * uc_context CPUX86State :=
  let env := data ctx in
  let setpc := 0 in
  let r := reg_write_batch env regs vals sizes (ctx_mode ctx) setpc in
  (wr_ret r, mk_ctx (wr_env r) (ctx_mode ctx)).

(** The loop of [reg_read_batch] from element [i] on.  The result is the
    return code, what the call leaves in the objects the elements of
    [vals] point to (taken to be distinct objects), and the state, which
    a read of [UC_X86_REG_MSR] passes to [helper_rdmsr]. *)
Fixpoint reg_read_batch (env : CPUX86State) (regs : list uc_x86_reg)
    (vals : list buffer) (sizes : option (list Z)) (mode : uc_mode)
  : uc_err * list buffer * CPUX86State :=
  match regs, vals with
  | regid :: regs', value :: vals' =>
      let r := reg_read env regid value (size_ptr sizes) mode in
      if is_err (rd_ret r) then (rd_ret r, rd_value r :: vals', rd_env r)
      else
        let '(err, vals', env) :=
          reg_read_batch (rd_env r) regs' vals' (sizes_next sizes) mode in
        (err, rd_value r :: vals', env)
  | _, _ => (UC_ERR_OK, vals, env)
  end.

Definition x86_reg_read (uc : uc_struct CPUX86State)
    (regs : list uc_x86_reg) (vals : list buffer) (sizes : option (list Z))
  : uc_err * list buffer * uc_struct CPUX86State :=
  let env := env_ptr uc in
  let '(err, vals, env) := reg_read_batch env regs vals sizes (mode uc) in
  (err, vals, set_env uc env).

Definition x86_context_reg_read (ctx : uc_context CPUX86State)
    (regs : list uc_x86_reg) (vals : list buffer) (sizes : option (list Z))
  : uc_err * list buffer * uc_context CPUX86State :=
  let env := data ctx in
  let '(err, vals, env) := reg_read_batch env regs vals sizes (ctx_mode ctx) in
  (err, vals, mk_ctx env (ctx_mode ctx)).

End Accessors.

(** An instance for evaluating the accessors on concrete states: the
    register numbers and bit masks of the architecture, the enumerators
    numbered in the order unicorn/x86.h declares them, and small
    stand-ins for the helpers.  [sample_check] is the part of the
    legality pre-check that rejects a null selector for SS in protected
    mode; [sample_rdmsr] and [sample_wrmsr] know EFER only. *)
Definition sample_reg_value (r : uc_x86_reg) : Z :=
  match r with
    | UC_X86_REG_FP0 => 62 | UC_X86_REG_FP1 => 63 | UC_X86_REG_FP2 => 64
    | UC_X86_REG_FP3 => 65 | UC_X86_REG_FP4 => 66 | UC_X86_REG_FP5 => 67
    | UC_X86_REG_FP6 => 68 | UC_X86_REG_FP7 => 69 | UC_X86_REG_FPSW => 30
    | UC_X86_REG_FPCW => 226 | UC_X86_REG_FPTAG => 227
    | UC_X86_REG_XMM0 => 102 | UC_X86_REG_XMM1 => 103
    | UC_X86_REG_XMM2 => 104 | UC_X86_REG_XMM3 => 105
    | UC_X86_REG_XMM4 => 106 | UC_X86_REG_XMM5 => 107
    | UC_X86_REG_XMM6 => 108 | UC_X86_REG_XMM7 => 109
    | UC_X86_REG_ST0 => 94 | UC_X86_REG_ST1 => 95 | UC_X86_REG_ST2 => 96
    | UC_X86_REG_ST3 => 97 | UC_X86_REG_ST4 => 98 | UC_X86_REG_ST5 => 99
    | UC_X86_REG_ST6 => 100 | UC_X86_REG_ST7 => 101
    | UC_X86_REG_YMM0 => 134 | UC_X86_REG_YMM1 => 135
    | UC_X86_REG_YMM2 => 136 | UC_X86_REG_YMM3 => 137
    | UC_X86_REG_YMM4 => 138 | UC_X86_REG_YMM5 => 139
    | UC_X86_REG_YMM6 => 140 | UC_X86_REG_YMM7 => 141
    | UC_X86_REG_YMM8 => 142 | UC_X86_REG_YMM9 => 143
    | UC_X86_REG_YMM10 => 144 | UC_X86_REG_YMM11 => 145
    | UC_X86_REG_YMM12 => 146 | UC_X86_REG_YMM13 => 147
    | UC_X86_REG_YMM14 => 148 | UC_X86_REG_YMM15 => 149
    | UC_X86_REG_FIP => 234 | UC_X86_REG_FCS => 235 | UC_X86_REG_FDP => 236
    | UC_X86_REG_FDS => 237 | UC_X86_REG_FOP => 238 | UC_X86_REG_ES => 27
    | UC_X86_REG_SS => 47 | UC_X86_REG_DS => 17 | UC_X86_REG_FS => 31
    | UC_X86_REG_GS => 32 | UC_X86_REG_FS_BASE => 230
    | UC_X86_REG_CR0 => 48 | UC_X86_REG_CR1 => 49 | UC_X86_REG_CR2 => 50
    | UC_X86_REG_CR3 => 51 | UC_X86_REG_CR4 => 52 | UC_X86_REG_DR0 => 54
    | UC_X86_REG_DR1 => 55 | UC_X86_REG_DR2 => 56 | UC_X86_REG_DR3 => 57
    | UC_X86_REG_DR4 => 58 | UC_X86_REG_DR5 => 59 | UC_X86_REG_DR6 => 60
    | UC_X86_REG_DR7 => 61 | UC_X86_REG_FLAGS => 232
    | UC_X86_REG_EFLAGS => 25 | UC_X86_REG_EAX => 19 | UC_X86_REG_AX => 3
    | UC_X86_REG_AH => 1 | UC_X86_REG_AL => 2 | UC_X86_REG_EBX => 21
    | UC_X86_REG_BX => 8 | UC_X86_REG_BH => 4 | UC_X86_REG_BL => 5
    | UC_X86_REG_ECX => 22 | UC_X86_REG_CX => 12 | UC_X86_REG_CH => 9
    | UC_X86_REG_CL => 10 | UC_X86_REG_EDX => 24 | UC_X86_REG_DX => 18
    | UC_X86_REG_DH => 13 | UC_X86_REG_DL => 16 | UC_X86_REG_ESP => 29
    | UC_X86_REG_SP => 45 | UC_X86_REG_EBP => 20 | UC_X86_REG_BP => 6
    | UC_X86_REG_ESI => 28 | UC_X86_REG_SI => 43 | UC_X86_REG_EDI => 23
    | UC_X86_REG_DI => 14 | UC_X86_REG_EIP => 26 | UC_X86_REG_IP => 33
    | UC_X86_REG_CS => 11 | UC_X86_REG_IDTR => 222 | UC_X86_REG_GDTR => 223
    | UC_X86_REG_LDTR => 224 | UC_X86_REG_TR => 225 | UC_X86_REG_MSR => 228
    | UC_X86_REG_MXCSR => 229 | UC_X86_REG_RFLAGS => 233
    | UC_X86_REG_RAX => 34 | UC_X86_REG_RBX => 36 | UC_X86_REG_RCX => 37
    | UC_X86_REG_RDX => 39 | UC_X86_REG_RSP => 42 | UC_X86_REG_SPL => 46
    | UC_X86_REG_RBP => 35 | UC_X86_REG_BPL => 7 | UC_X86_REG_RSI => 41
    | UC_X86_REG_SIL => 44 | UC_X86_REG_RDI => 38 | UC_X86_REG_DIL => 15
    | UC_X86_REG_RIP => 40 | UC_X86_REG_R8 => 86 | UC_X86_REG_R8D => 206
    | UC_X86_REG_R8W => 214 | UC_X86_REG_R8B => 198 | UC_X86_REG_R9 => 87
    | UC_X86_REG_R9D => 207 | UC_X86_REG_R9W => 215 | UC_X86_REG_R9B => 199
    | UC_X86_REG_R10 => 88 | UC_X86_REG_R10D => 208
    | UC_X86_REG_R10W => 216 | UC_X86_REG_R10B => 200
    | UC_X86_REG_R11 => 89 | UC_X86_REG_R11D => 209
    | UC_X86_REG_R11W => 217 | UC_X86_REG_R11B => 201
    | UC_X86_REG_R12 => 90 | UC_X86_REG_R12D => 210
    | UC_X86_REG_R12W => 218 | UC_X86_REG_R12B => 202
    | UC_X86_REG_R13 => 91 | UC_X86_REG_R13D => 211
    | UC_X86_REG_R13W => 219 | UC_X86_REG_R13B => 203
    | UC_X86_REG_R14 => 92 | UC_X86_REG_R14D => 212
    | UC_X86_REG_R14W => 220 | UC_X86_REG_R14B => 204
    | UC_X86_REG_R15 => 93 | UC_X86_REG_R15D => 213
    | UC_X86_REG_R15W => 221 | UC_X86_REG_R15B => 205
    | UC_X86_REG_XMM8 => 110 | UC_X86_REG_XMM9 => 111
    | UC_X86_REG_XMM10 => 112 | UC_X86_REG_XMM11 => 113
    | UC_X86_REG_XMM12 => 114 | UC_X86_REG_XMM13 => 115
    | UC_X86_REG_XMM14 => 116 | UC_X86_REG_XMM15 => 117
    | UC_X86_REG_GS_BASE => 231
  | UC_X86_REG_other n => n
  end.

Definition sample_load_seg_cache (env : CPUX86State)
    (seg_reg sel b lim fl : Z) : CPUX86State :=
  let env := upd env (segs seg_reg selector) sel in
  let env := upd env (segs seg_reg base) b in
  let env := upd env (segs seg_reg limit) lim in
  let env := upd env (segs seg_reg flags) fl in
  env.

Definition sample_check (env : CPUX86State) (seg_reg sel : Z) : uc_err :=
  if negb (Z.land (env (cr 0)) 1 =? 0)
     && (Z.land sel 0xfffc =? 0) && (seg_reg =? 2)
  then UC_ERR_EXCEPTION else UC_ERR_OK.

Definition MSR_EFER : Z := 0xc0000080.

Definition sample_rdmsr (env : CPUX86State) : CPUX86State :=
  let val := if cast uint32_t (env (regs 1)) =? MSR_EFER then env efer else 0 in
  let env := upd env (regs 0) (cast uint32_t val) in
  let env := upd env (regs 2) (cast uint32_t (Z.shiftr val 32)) in
  env.

Definition sample_wrmsr (env : CPUX86State) : CPUX86State :=
  let val := Z.lor (cast uint32_t (env (regs 0)))
                   (Z.shiftl (cast uint32_t (env (regs 2))) 32) in
  if cast uint32_t (env (regs 1)) =? MSR_EFER then upd env efer val else env.

Definition sample_cpu_h : cpu_h := {|
  R_EAX := 0; R_ECX := 1; R_EDX := 2; R_EBX := 3;
  R_ESP := 4; R_EBP := 5; R_ESI := 6; R_EDI := 7;
  R_ES := 0; R_CS := 1; R_SS := 2; R_DS := 3; R_FS := 4; R_GS := 5;
  DESC_P_MASK := 0x8000; DESC_S_MASK := 0x1000; DESC_W_MASK := 0x200;
  DESC_A_MASK := 0x100; DESC_CS_MASK := 0x800; DESC_R_MASK := 0x200;
  HF_CS32_MASK := 0x10; HF_SS32_MASK := 0x20; HF_OSFXSR_MASK := 0x400000;
  HF_CS64_MASK := 0x8000; HF_LMA_MASK := 0x4000; HF_ADDSEG_MASK := 0x40;
  CR0_PE_MASK := 1; MSR_EFER_LMA := 0x400; MSR_EFER_LME := 0x100;
  FEAT_8000_0001_EDX := 6; CPUID_EXT2_LM := 0x20000000; CC_OP_EFLAGS := 1;
  reg_value := sample_reg_value;
  cpu_x86_load_seg_cache := sample_load_seg_cache;
  cpu_x86_load_seg := fun env seg_reg sel =>
    sample_load_seg_cache env seg_reg (Z.land sel 0xffff)
      (Z.shiftl (Z.land sel 0xffff) 4) 0xffff 0x9300;
  uc_check_cpu_x86_load_seg := sample_check;
  cpu_load_eflags := fun env eflags update_mask =>
    upd env (other_field 0)
      (Z.lor (Z.lor (Z.land (env (other_field 0)) (Z.lnot update_mask))
                    (Z.land eflags update_mask)) 2);
  cpu_compute_eflags := fun env => env (other_field 0);
  cpu_x86_update_cr0 := fun env new_cr0 => upd env (cr 0) (Z.lor new_cr0 0x10);
  cpu_x86_update_cr3 := fun env new_cr3 => upd env (cr 3) new_cr3;
  cpu_x86_update_cr4 := fun env new_cr4 => upd env (cr 4) new_cr4;
  cpu_set_mxcsr := fun env v => upd env mxcsr v;
  cpu_set_fpuc := fun env v => upd env fpuc v;
  cpu_get_fp80 := fun f_low f_high => (f_low, f_high);
  cpu_set_fp80 := fun mant upper => (mant, upper);
  helper_rdmsr := sample_rdmsr;
  helper_wrmsr := sample_wrmsr
|}.

(** The all-zero state. *)
Definition env0 : CPUX86State := fun _ => 0.

End X86.

(** * Vocabulary of the properties *)

(** A caller's buffer filled with zero bytes. *)
Definition zero_buffer : buffer := fun _ => 0.

(** ** Failing accesses *)

Module AccessSpec.

(** [UC_SPARC_REG_PC] is a pseudo register: it lies in none of the four
    ranges tested before the [switch]. *)
Definition pc_outside_ranges {H : Sparc.sparc_h} : Prop :=
  Sparc.in_range Sparc.UC_SPARC_REG_G0 Sparc.UC_SPARC_REG_G7 Sparc.UC_SPARC_REG_PC = false /\
  Sparc.in_range Sparc.UC_SPARC_REG_O0 Sparc.UC_SPARC_REG_O7 Sparc.UC_SPARC_REG_PC = false /\
  Sparc.in_range Sparc.UC_SPARC_REG_L0 Sparc.UC_SPARC_REG_L7 Sparc.UC_SPARC_REG_PC = false /\
  Sparc.in_range Sparc.UC_SPARC_REG_I0 Sparc.UC_SPARC_REG_I7 Sparc.UC_SPARC_REG_PC = false.

(** What a failing x86 write is: the state and [*setpc] are as before. *)
Definition unchanged_on_error (env : X86.CPUX86State) (setpc : Z) (r : X86.wr)
  : Prop :=
  X86.wr_ret r <> UC_ERR_OK -> X86.wr_env r = env /\ X86.wr_setpc r = setpc.

(** What a failing x86 read is: nothing copied, nothing changed. *)
Definition untouched_on_error (env : X86.CPUX86State) (value : buffer) (r : X86.rd)
  : Prop :=
  X86.rd_ret r <> UC_ERR_OK -> X86.rd_value r = value /\ X86.rd_env r = env.

End AccessSpec.

(** ** Batches *)

(** The (identifier, buffer, size) triples a batch call walks through:
    element [i] is [regs[i]], [vals[i]] and [sizes ? sizes + i : NULL]. *)
Fixpoint elements {R : Type} (regs : list R) (vals : list buffer)
    (sizes : option (list Z)) : list (R * buffer * option Z) :=
  match regs, vals with
  | regid :: regs', value :: vals' =>
      (regid, value, size_ptr sizes) :: elements regs' vals' (sizes_next sizes)
  | _, _ => []
  end.

Section Applied.
Context {S E : Type} (step : S -> E -> uc_err * S).

(** [applied s l s']: the elements of [l], taken in order from state [s],
    all succeed and leave state [s']. *)
Inductive applied : S -> list E -> S -> Prop :=
| applied_nil s : applied s [] s
| applied_cons s x l s1 s' :
    step s x = (UC_ERR_OK, s1) -> applied s1 l s' -> applied s (x :: l) s'.
End Applied.

Module BatchSpec.

(** One element of an x86 batch write, on the pair of the state and
    [*setpc]. *)
Definition x86_step {H : X86.cpu_h} (mode : uc_mode)
    (s : X86.CPUX86State * Z) (x : X86.uc_x86_reg * buffer * option Z)
  : uc_err * (X86.CPUX86State * Z) :=
  let '(regid, value, size) := x in
  let r := X86.reg_write (fst s) regid value size mode (snd s) in
  (X86.wr_ret r, (X86.wr_env r, X86.wr_setpc r)).

(** One element of a SPARC batch write on the live CPU: the register
    write, then the request when the identifier is the PC. *)
Definition sparc_step {H : Sparc.sparc_h} (uc : uc_struct Sparc.CPUSPARCState)
    (x : Z * buffer * option Z) : uc_err * uc_struct Sparc.CPUSPARCState :=
  let '(regid, value, size) := x in
  let (err, env) := Sparc.reg_write (env_ptr uc) regid value size in
  let uc := set_env uc env in
  if is_err err then (err, uc)
  else (UC_ERR_OK,
        if regid =? Sparc.UC_SPARC_REG_PC
        then break_translation_loop (set_quit_request uc true)
        else uc).

End BatchSpec.

(** ** Requests to the execution engine *)

Module RequestSpec.

(** The identifiers whose write sets [*setpc] in [reg_write]. *)
Definition is_pc_reg (regid : X86.uc_x86_reg) : bool :=
  match regid with
  | X86.UC_X86_REG_RIP | X86.UC_X86_REG_EIP | X86.UC_X86_REG_IP => true
  | _ => false
  end.

(** What a successful write does to [*setpc]. *)
Definition setpc_after (regid : X86.uc_x86_reg) (setpc : Z) (r : X86.wr) : Prop :=
  X86.wr_ret r = UC_ERR_OK ->
  X86.wr_setpc r = if is_pc_reg regid then 1 else setpc.

(** The identifiers of the elements a batch call walks through. *)
Definition ids {R : Type} (regs : list R) (vals : list buffer) : list R :=
  map (fun x => fst (fst x)) (elements regs vals None).

(** Number of elements of a SPARC batch that name the PC. *)
Definition sparc_pc_elements {H : Sparc.sparc_h} (l : list Z) : nat :=
  count_occ Z.eq_dec l Sparc.UC_SPARC_REG_PC.

(** Number of elements of an x86 batch that name the PC. *)
Definition x86_pc_elements (l : list X86.uc_x86_reg) : nat :=
  length (filter is_pc_reg l).

(** The live x86 CPU and the live SPARC CPU used in the examples: all
    registers zero, no request pending. *)
Definition x86_uc0 : uc_struct X86.CPUX86State :=
  mk_uc X86.env0 UC_MODE_32 false 0.
Definition sparc_uc0 : uc_struct Sparc.CPUSPARCState :=
  mk_uc (fun _ => 0) UC_MODE_32 false 0.

(** Detached contexts holding the same states. *)
Definition x86_ctx0 : uc_context X86.CPUX86State := mk_ctx X86.env0 UC_MODE_32.
Definition sparc_ctx0 : uc_context Sparc.CPUSPARCState :=
  mk_ctx (fun _ => 0) UC_MODE_32.

End RequestSpec.

(** ** Segment registers *)

Module SegmentSpec.
Import X86.

(** The segment a general-purpose segment identifier names. *)
Definition seg_of {H : cpu_h} (regid : uc_x86_reg) : option Z :=
  match regid with
  | UC_X86_REG_CS => Some R_CS
  | UC_X86_REG_DS => Some R_DS
  | UC_X86_REG_SS => Some R_SS
  | UC_X86_REG_ES => Some R_ES
  | UC_X86_REG_FS => Some R_FS
  | UC_X86_REG_GS => Some R_GS
  | _ => None
  end.

(** The (mode, identifier) pairs whose selector write goes through the
    legality pre-check. *)
Definition prechecked (mode : uc_mode) (regid : uc_x86_reg) : bool :=
  match mode, regid with
  | UC_MODE_32, (UC_X86_REG_CS | UC_X86_REG_DS | UC_X86_REG_SS
                 | UC_X86_REG_ES | UC_X86_REG_FS | UC_X86_REG_GS) => true
  | UC_MODE_16, UC_X86_REG_CS => true
  | UC_MODE_64, (UC_X86_REG_FS | UC_X86_REG_GS) => true
  | _, _ => false
  end.

(** A state in protected mode (CR0.PE set) whose SS selector is 0x10. *)
Definition env_protected : CPUX86State :=
  upd (upd env0 (cr 0) 1) (segs 2 selector) 0x10.

End SegmentSpec.

(** ** Reset *)

Module ResetSpec.
Import X86.

(** A state whose physical floating-point register 0 holds 1.0
    (mantissa 0x8000000000000000, sign and exponent 0x3fff). *)
Definition env_fp_one : CPUX86State :=
  upd (upd env0 (fpregs 0 low) 0x8000000000000000) (fpregs 0 high) 0x3fff.

(** The helpers [x86_reg_reset] calls leave the floating-point data
    registers alone. *)
Definition helpers_keep_fpregs {H : cpu_h} : Prop :=
  (forall env eflags mask i f,
      cpu_load_eflags env eflags mask (fpregs i f) = env (fpregs i f)) /\
  (forall env new_cr0 i f,
      cpu_x86_update_cr0 env new_cr0 (fpregs i f) = env (fpregs i f)) /\
  (forall env seg_reg sel b lim fl i f,
      cpu_x86_load_seg_cache env seg_reg sel b lim fl (fpregs i f)
        = env (fpregs i f)).

(** [cpu_x86_load_seg_cache] stores base and limit in the segment it is
    given and leaves the other segments as they are. *)
Definition load_seg_cache_stores {H : cpu_h} : Prop :=
  forall env seg_reg sel b lim fl,
    let env' := cpu_x86_load_seg_cache env seg_reg sel b lim fl in
    env' (segs seg_reg base) = b /\
    env' (segs seg_reg limit) = lim /\
    forall seg' f, seg' <> seg_reg -> env' (segs seg' f) = env (segs seg' f).

(** What the reset in mode [m] leaves of a state whose physical
    floating-point register 0 holds 1.0 and whose accumulator holds 5: the
    accumulator, the stack top and the tag are cleared, the register is
    not, and a read of [UC_X86_REG_FP0] still returns 1.0. *)
Definition reset_keeps_fp_one (m : uc_mode) : Prop :=
  let H := sample_cpu_h in
  let uc := mk_uc (upd env_fp_one (regs R_EAX) 5) m false 0 in
  let env' := env_ptr (x86_reg_reset uc) in
  env' (regs R_EAX) = 0 /\ env' fpstt = 0 /\ env' (fptags 0) = 0 /\
  env' (fpregs 0 low) = 0x8000000000000000 /\
  env' (fpregs 0 high) = 0x3fff /\
  (let r := reg_read env' UC_X86_REG_FP0 (fun _ => 0) (Some 10) m in
   rd_ret r = UC_ERR_OK /\
   deref uint64_t (rd_value r) = 0x8000000000000000 /\
   deref_at uint16_t 8 (rd_value r) = 0x3fff).

End ResetSpec.

(** ** The size check *)

Module SizeCheckSpec.
Import Sparc.

(** A SPARC state whose register window starts at [regbase] and whose
    first in-register (slot 16 of the window) holds 0xdeadbeef. *)
Definition env_window : CPUSPARCState :=
  upd (fun _ => 0) (regbase 16) 0xdeadbeef.

End SizeCheckSpec.

(** ** The floating-point tag word *)

Module FpTagSpec.
Import X86.

Inductive fp_class : Type := fp_valid | fp_zero | fp_special | fp_empty.

(** The two-bit tag of a class. *)
Definition tag_code (c : fp_class) : Z :=
  match c with
  | fp_valid => 0
  | fp_zero => 1
  | fp_special => 2
  | fp_empty => 3
  end.

(** The tag of physical slot [i] in the tag word [w]. *)
Definition tag_field (w : Z) (i : Z) : Z := Z.land (Z.shiftr w (2 * i)) 3.

(** Exponent and mantissa of the 80-bit value in physical slot [i]. *)
Definition exponent (env : CPUX86State) (i : Z) : Z :=
  Z.land (env (fpregs i high)) 0x7fff.
Definition mantissa (env : CPUX86State) (i : Z) : Z := env (fpregs i low).

(** The classification as the claim words it: empty when the empty bit is
    set; zero when exponent and mantissa are zero; special when the
    exponent is the maximum biased exponent; valid for all remaining
    slots. *)
Definition claimed_class (env : CPUX86State) (i : Z) : fp_class :=
  if negb (env (fptags i) =? 0) then fp_empty
  else if (exponent env i =? 0) && (mantissa env i =? 0) then fp_zero
  else if exponent env i =? 0x7fff then fp_special
  else fp_valid.

(** The classification with the two further special cases: exponent zero
    with a non-zero mantissa (denormal) and a mantissa whose explicit
    integer bit, bit 63, is clear. *)
Definition slot_class (env : CPUX86State) (i : Z) : fp_class :=
  if negb (env (fptags i) =? 0) then fp_empty
  else if (exponent env i =? 0) && (mantissa env i =? 0) then fp_zero
  else if (exponent env i =? 0) || (exponent env i =? 0x7fff)
          || negb (Z.testbit (mantissa env i) 63)
  then fp_special
  else fp_valid.

(** A state whose physical slot 0 holds the smallest denormal (exponent
    0, mantissa 1) and whose slot 1 holds a value with a normal exponent
    and the integer bit clear; no slot is marked empty. *)
Definition env_denormal : CPUX86State :=
  upd (upd (upd env0 (fpregs 0 low) 1) (fpregs 1 low) 1) (fpregs 1 high) 0x3fff.

End FpTagSpec.

(** ** Sub-register views *)

Module SubRegisterSpec.
Import X86.

Inductive view : Type := low_byte | high_byte | low_word | low_dword.

(** First bit, number of bits and C type of a view. *)
Definition view_lo (v : view) : Z :=
  match v with high_byte => 8 | _ => 0 end.
Definition view_width (v : view) : Z :=
  match v with low_byte | high_byte => 8 | low_word => 16 | low_dword => 32 end.
Definition view_type (v : view) : ctype :=
  match v with low_byte | high_byte => uint8_t | low_word => uint16_t
          | low_dword => uint32_t end.

(** The 8- and 16-bit views of the eight legacy registers, sub-registers
    in every mode. *)
Definition legacy_view {H : cpu_h} (regid : uc_x86_reg) : option (Z * view) :=
  match regid with
  | UC_X86_REG_AL => Some (R_EAX, low_byte)
  | UC_X86_REG_AH => Some (R_EAX, high_byte)
  | UC_X86_REG_AX => Some (R_EAX, low_word)
  | UC_X86_REG_BL => Some (R_EBX, low_byte)
  | UC_X86_REG_BH => Some (R_EBX, high_byte)
  | UC_X86_REG_BX => Some (R_EBX, low_word)
  | UC_X86_REG_CL => Some (R_ECX, low_byte)
  | UC_X86_REG_CH => Some (R_ECX, high_byte)
  | UC_X86_REG_CX => Some (R_ECX, low_word)
  | UC_X86_REG_DL => Some (R_EDX, low_byte)
  | UC_X86_REG_DH => Some (R_EDX, high_byte)
  | UC_X86_REG_DX => Some (R_EDX, low_word)
  | UC_X86_REG_SP => Some (R_ESP, low_word)
  | UC_X86_REG_BP => Some (R_EBP, low_word)
  | UC_X86_REG_SI => Some (R_ESI, low_word)
  | UC_X86_REG_DI => Some (R_EDI, low_word)
  | _ => None
  end.

(** The views that exist in the 64-bit mode only: the 32-bit halves of the
    sixteen registers, the low bytes of SP, BP, SI and DI, and the 8- and
    16-bit views of R8 to R15. *)
Definition long_view {H : cpu_h} (regid : uc_x86_reg) : option (Z * view) :=
  match regid with
  | UC_X86_REG_EAX => Some (R_EAX, low_dword)
  | UC_X86_REG_EBX => Some (R_EBX, low_dword)
  | UC_X86_REG_ECX => Some (R_ECX, low_dword)
  | UC_X86_REG_EDX => Some (R_EDX, low_dword)
  | UC_X86_REG_ESP => Some (R_ESP, low_dword)
  | UC_X86_REG_EBP => Some (R_EBP, low_dword)
  | UC_X86_REG_ESI => Some (R_ESI, low_dword)
  | UC_X86_REG_EDI => Some (R_EDI, low_dword)
  | UC_X86_REG_SPL => Some (R_ESP, low_byte)
  | UC_X86_REG_BPL => Some (R_EBP, low_byte)
  | UC_X86_REG_SIL => Some (R_ESI, low_byte)
  | UC_X86_REG_DIL => Some (R_EDI, low_byte)
  | UC_X86_REG_R8B => Some (8, low_byte)
  | UC_X86_REG_R8W => Some (8, low_word)
  | UC_X86_REG_R8D => Some (8, low_dword)
  | UC_X86_REG_R9B => Some (9, low_byte)
  | UC_X86_REG_R9W => Some (9, low_word)
  | UC_X86_REG_R9D => Some (9, low_dword)
  | UC_X86_REG_R10B => Some (10, low_byte)
  | UC_X86_REG_R10W => Some (10, low_word)
  | UC_X86_REG_R10D => Some (10, low_dword)
  | UC_X86_REG_R11B => Some (11, low_byte)
  | UC_X86_REG_R11W => Some (11, low_word)
  | UC_X86_REG_R11D => Some (11, low_dword)
  | UC_X86_REG_R12B => Some (12, low_byte)
  | UC_X86_REG_R12W => Some (12, low_word)
  | UC_X86_REG_R12D => Some (12, low_dword)
  | UC_X86_REG_R13B => Some (13, low_byte)
  | UC_X86_REG_R13W => Some (13, low_word)
  | UC_X86_REG_R13D => Some (13, low_dword)
  | UC_X86_REG_R14B => Some (14, low_byte)
  | UC_X86_REG_R14W => Some (14, low_word)
  | UC_X86_REG_R14D => Some (14, low_dword)
  | UC_X86_REG_R15B => Some (15, low_byte)
  | UC_X86_REG_R15W => Some (15, low_word)
  | UC_X86_REG_R15D => Some (15, low_dword)
  | _ => None
  end.

(** [sub_register mode regid = Some (slot, v)]: in [mode] the identifier
    is the narrow view [v] of the wider register kept in [regs[slot]].  In
    the 16- and 32-bit modes the 32-bit identifiers are the full
    registers of the mode and are no sub-registers. *)
Definition sub_register {H : cpu_h} (mode : uc_mode) (regid : uc_x86_reg)
  : option (Z * view) :=
  match mode with
  | UC_MODE_16 | UC_MODE_32 => legacy_view regid
  | UC_MODE_64 =>
      match legacy_view regid with
      | Some x => Some x
      | None => long_view regid
      end
  | UC_MODE_other _ => None
  end.

(** The 32-bit identifiers of the eight legacy registers in the 16- and
    32-bit modes, where they name the whole register. *)
Definition full_register {H : cpu_h} (mode : uc_mode) (regid : uc_x86_reg)
  : option Z :=
  match mode with
  | UC_MODE_16 | UC_MODE_32 =>
      match regid with
      | UC_X86_REG_EAX => Some R_EAX
      | UC_X86_REG_EBX => Some R_EBX
      | UC_X86_REG_ECX => Some R_ECX
      | UC_X86_REG_EDX => Some R_EDX
      | UC_X86_REG_ESP => Some R_ESP
      | UC_X86_REG_EBP => Some R_EBP
      | UC_X86_REG_ESI => Some R_ESI
      | UC_X86_REG_EDI => Some R_EDI
      | _ => None
      end
  | _ => None
  end.

(** [env'] is [env] with the bits of view [v] of location [x] replaced by
    the low bits of [b], and nothing else changed. *)
Definition writes_view (env : CPUX86State) (x : loc) (v : view) (b : Z)
    (env' : CPUX86State) : Prop :=
  (forall l, l <> x -> env' l = env l) /\
  (forall n, 0 <= n -> ~ (view_lo v <= n < view_lo v + view_width v) ->
             Z.testbit (env' x) n = Z.testbit (env x) n) /\
  (forall n, view_lo v <= n < view_lo v + view_width v ->
             Z.testbit (env' x) n = Z.testbit b (n - view_lo v)).

(** A state whose accumulator holds 0x11223344. *)
Definition env_eax : CPUX86State := upd env0 (regs 0) 0x11223344.

End SubRegisterSpec.

(** ** The SPARC register file *)

Module WindowSpec.
Import Sparc.

(** The identifiers that reach the branch of I0..I7: [reg_read] and
    [reg_write] test the ranges G, O, L, I in this order. *)
Definition in_register {H : sparc_h} (regid : Z) : bool :=
  negb (in_range UC_SPARC_REG_G0 UC_SPARC_REG_G7 regid)
  && negb (in_range UC_SPARC_REG_O0 UC_SPARC_REG_O7 regid)
  && negb (in_range UC_SPARC_REG_L0 UC_SPARC_REG_L7 regid)
  && in_range UC_SPARC_REG_I0 UC_SPARC_REG_I7 regid.

(** The ranges O and L name at most eight registers each, so that the
    offsets the three window ranges index [regwptr] with do not meet. *)
Definition windows_of_eight {H : sparc_h} : Prop :=
  UC_SPARC_REG_O7 - UC_SPARC_REG_O0 <= 7 /\
  UC_SPARC_REG_L7 - UC_SPARC_REG_L0 <= 7.

(** A state with a shifted register window and arbitrary contents. *)
Definition env_shifted : CPUSPARCState :=
  fun l => match l with
           | regwptr => 16
           | gregs i => 100 + i
           | regbase i => 200 + i
           | pc => 0x4000
           | npc => 0x4004
           | fpr i => i
           end.

End WindowSpec.

(** ** Batches of reads *)

Section Reads.
Context {S E : Type} (read : S -> E -> uc_err * buffer * S).

(** [reads s l outs s']: the elements of [l], read in order from state
    [s], all succeed, fill their buffers as [outs] and leave state [s']. *)
Inductive reads : S -> list E -> list buffer -> S -> Prop :=
| reads_nil s : reads s [] [] s
| reads_cons s x l v s1 outs s' :
    read s x = (UC_ERR_OK, v, s1) -> reads s1 l outs s' ->
    reads s (x :: l) (v :: outs) s'.
End Reads.

Module ReadBatchSpec.

(** The buffer of an element as the caller passed it. *)
Definition passed {R : Type} (x : R * buffer * option Z) : buffer := snd (fst x).

(** One element of an x86 batch read. *)
Definition x86_read {H : X86.cpu_h} (mode : uc_mode) (env : X86.CPUX86State)
    (x : X86.uc_x86_reg * buffer * option Z)
  : uc_err * buffer * X86.CPUX86State :=
  let '(regid, value, size) := x in
  let r := X86.reg_read env regid value size mode in
  (X86.rd_ret r, X86.rd_value r, X86.rd_env r).

(** One element of a SPARC batch read. *)
Definition sparc_read {H : Sparc.sparc_h} (env : Sparc.CPUSPARCState)
    (x : Z * buffer * option Z) : uc_err * buffer * Sparc.CPUSPARCState :=
  let '(regid, value, size) := x in
  let (err, value) := Sparc.reg_read env regid value size in
  (err, value, env).

End ReadBatchSpec.

(** ** Reading back what was written (x86) *)

Module RoundTripSpec.
Import X86.

(** [reads_back n value buf out]: the first [n] bytes of [out] are the
    bytes of [value], the others are as they were in [buf]. *)
Definition reads_back (n : Z) (value buf out : buffer) : Prop :=
  (forall i, 0 <= i < n -> out i = value i mod 256) /\
  (forall i, ~ 0 <= i < n -> out i = buf i).

(** The identifiers whose value [reg_write] stores in the state as the
    caller gave it and [reg_read] copies back from there, in the switch
    that comes before the mode: the status word, the vector registers,
    the stack registers and the x87 pointers.  The others of that switch
    go through [cpu_set_fp80], [cpu_get_fp80] and [cpu_set_fpuc], or keep
    a part of the value only (the tag word). *)
Definition verbatim_any (regid : uc_x86_reg) : bool :=
  match regid with
  | UC_X86_REG_FPSW
  | UC_X86_REG_XMM0 | UC_X86_REG_XMM1 | UC_X86_REG_XMM2 | UC_X86_REG_XMM3
  | UC_X86_REG_XMM4 | UC_X86_REG_XMM5 | UC_X86_REG_XMM6 | UC_X86_REG_XMM7
  | UC_X86_REG_ST0 | UC_X86_REG_ST1 | UC_X86_REG_ST2 | UC_X86_REG_ST3
  | UC_X86_REG_ST4 | UC_X86_REG_ST5 | UC_X86_REG_ST6 | UC_X86_REG_ST7
  | UC_X86_REG_YMM0 | UC_X86_REG_YMM1 | UC_X86_REG_YMM2 | UC_X86_REG_YMM3
  | UC_X86_REG_YMM4 | UC_X86_REG_YMM5 | UC_X86_REG_YMM6 | UC_X86_REG_YMM7
  | UC_X86_REG_YMM8 | UC_X86_REG_YMM9 | UC_X86_REG_YMM10 | UC_X86_REG_YMM11
  | UC_X86_REG_YMM12 | UC_X86_REG_YMM13 | UC_X86_REG_YMM14
  | UC_X86_REG_YMM15
  | UC_X86_REG_FIP | UC_X86_REG_FCS | UC_X86_REG_FDP | UC_X86_REG_FDS
  | UC_X86_REG_FOP => true
  | _ => false
  end.

(** The same for the switch of the 32-bit mode, which the 16-bit mode
    falls through to: control and debug registers, the general-purpose
    registers and their views, the instruction pointer.  The segment
    registers, the flags, the descriptor tables, MSR and MXCSR go
    through helpers. *)
Definition verbatim_32 (regid : uc_x86_reg) : bool :=
  match regid with
  | UC_X86_REG_CR0 | UC_X86_REG_CR1 | UC_X86_REG_CR2 | UC_X86_REG_CR3
  | UC_X86_REG_CR4
  | UC_X86_REG_DR0 | UC_X86_REG_DR1 | UC_X86_REG_DR2 | UC_X86_REG_DR3
  | UC_X86_REG_DR4 | UC_X86_REG_DR5 | UC_X86_REG_DR6 | UC_X86_REG_DR7
  | UC_X86_REG_EAX | UC_X86_REG_AX | UC_X86_REG_AH | UC_X86_REG_AL
  | UC_X86_REG_EBX | UC_X86_REG_BX | UC_X86_REG_BH | UC_X86_REG_BL
  | UC_X86_REG_ECX | UC_X86_REG_CX | UC_X86_REG_CH | UC_X86_REG_CL
  | UC_X86_REG_EDX | UC_X86_REG_DX | UC_X86_REG_DH | UC_X86_REG_DL
  | UC_X86_REG_ESP | UC_X86_REG_SP | UC_X86_REG_EBP | UC_X86_REG_BP
  | UC_X86_REG_ESI | UC_X86_REG_SI | UC_X86_REG_EDI | UC_X86_REG_DI
  | UC_X86_REG_EIP | UC_X86_REG_IP => true
  | _ => false
  end.

(** The same for the switch of the 64-bit mode, where the selectors of
    CS, DS, SS and ES and the bases of FS and GS are plain stores too. *)
Definition verbatim_64 (regid : uc_x86_reg) : bool :=
  match regid with
  | UC_X86_REG_CR0 | UC_X86_REG_CR1 | UC_X86_REG_CR2 | UC_X86_REG_CR3
  | UC_X86_REG_CR4
  | UC_X86_REG_DR0 | UC_X86_REG_DR1 | UC_X86_REG_DR2 | UC_X86_REG_DR3
  | UC_X86_REG_DR4 | UC_X86_REG_DR5 | UC_X86_REG_DR6 | UC_X86_REG_DR7
  | UC_X86_REG_RAX | UC_X86_REG_EAX | UC_X86_REG_AX | UC_X86_REG_AH
  | UC_X86_REG_AL
  | UC_X86_REG_RBX | UC_X86_REG_EBX | UC_X86_REG_BX | UC_X86_REG_BH
  | UC_X86_REG_BL
  | UC_X86_REG_RCX | UC_X86_REG_ECX | UC_X86_REG_CX | UC_X86_REG_CH
  | UC_X86_REG_CL
  | UC_X86_REG_RDX | UC_X86_REG_EDX | UC_X86_REG_DX | UC_X86_REG_DH
  | UC_X86_REG_DL
  | UC_X86_REG_RSP | UC_X86_REG_ESP | UC_X86_REG_SP | UC_X86_REG_SPL
  | UC_X86_REG_RBP | UC_X86_REG_EBP | UC_X86_REG_BP | UC_X86_REG_BPL
  | UC_X86_REG_RSI | UC_X86_REG_ESI | UC_X86_REG_SI | UC_X86_REG_SIL
  | UC_X86_REG_RDI | UC_X86_REG_EDI | UC_X86_REG_DI | UC_X86_REG_DIL
  | UC_X86_REG_RIP | UC_X86_REG_EIP | UC_X86_REG_IP
  | UC_X86_REG_CS | UC_X86_REG_DS | UC_X86_REG_SS | UC_X86_REG_ES
  | UC_X86_REG_R8 | UC_X86_REG_R8D | UC_X86_REG_R8W | UC_X86_REG_R8B
  | UC_X86_REG_R9 | UC_X86_REG_R9D | UC_X86_REG_R9W | UC_X86_REG_R9B
  | UC_X86_REG_R10 | UC_X86_REG_R10D | UC_X86_REG_R10W | UC_X86_REG_R10B
  | UC_X86_REG_R11 | UC_X86_REG_R11D | UC_X86_REG_R11W | UC_X86_REG_R11B
  | UC_X86_REG_R12 | UC_X86_REG_R12D | UC_X86_REG_R12W | UC_X86_REG_R12B
  | UC_X86_REG_R13 | UC_X86_REG_R13D | UC_X86_REG_R13W | UC_X86_REG_R13B
  | UC_X86_REG_R14 | UC_X86_REG_R14D | UC_X86_REG_R14W | UC_X86_REG_R14B
  | UC_X86_REG_R15 | UC_X86_REG_R15D | UC_X86_REG_R15W | UC_X86_REG_R15B
  | UC_X86_REG_XMM8 | UC_X86_REG_XMM9 | UC_X86_REG_XMM10
  | UC_X86_REG_XMM11 | UC_X86_REG_XMM12 | UC_X86_REG_XMM13
  | UC_X86_REG_XMM14 | UC_X86_REG_XMM15
  | UC_X86_REG_FS_BASE | UC_X86_REG_GS_BASE => true
  | _ => false
  end.

Definition verbatim (mode : uc_mode) (regid : uc_x86_reg) : bool :=
  verbatim_any regid ||
  match mode with
  | UC_MODE_16 | UC_MODE_32 => verbatim_32 regid
  | UC_MODE_64 => verbatim_64 regid
  | UC_MODE_other _ => false
  end.

(** [round_trip value buf size w r]: when the write [w size] of the bytes
    of [value] succeeds, the read [r] from the state it leaves succeeds,
    changes no state, and fills [buf] with the bytes that were written;
    their number [n] is the one declared size the write accepts. *)
Definition round_trip (value buf : buffer) (size : option Z)
    (w : option Z -> wr) (r : CPUX86State -> rd) : Prop :=
  wr_ret (w size) = UC_ERR_OK ->
  let out := r (wr_env (w size)) in
  rd_ret out = UC_ERR_OK /\
  rd_env out = wr_env (w size) /\
  exists n, 0 < n /\
    (forall sz, wr_ret (w (Some sz)) = UC_ERR_OK <-> sz = n) /\
    reads_back n value buf (rd_value out).

End RoundTripSpec.

(** ** The x87 register stack *)

Module FpStackSpec.
Import X86.

(** The stack slot an identifier ST0..ST7 names. *)
Definition st_index (regid : uc_x86_reg) : option Z :=
  match regid with
  | UC_X86_REG_ST0 => Some 0 | UC_X86_REG_ST1 => Some 1
  | UC_X86_REG_ST2 => Some 2 | UC_X86_REG_ST3 => Some 3
  | UC_X86_REG_ST4 => Some 4 | UC_X86_REG_ST5 => Some 5
  | UC_X86_REG_ST6 => Some 6 | UC_X86_REG_ST7 => Some 7
  | _ => None
  end.

(** A state whose eight physical registers hold eight distinct values and
    whose stack top is 0. *)
Definition env_fp_numbered : CPUX86State :=
  fun l => match l with
           | fpregs i low => 0x8000000000000000 + i
           | fpregs i high => 0x4000 + i
           | _ => 0
           end.

End FpStackSpec.

(** ** Reader and writer side by side (x86) *)

Module AgreeSpec.
Import X86.

(** [accepts_alike env' setpc size r w]: for the identifier and declared
    size of the read [r], the write [w size] is refused with
    [UC_ERR_ARG] and no effect when the read is refused, and does not
    stop at its size check when the read succeeds ([w None] is the same
    write without a declared size). *)
Definition accepts_alike (env' : CPUX86State) (setpc : Z) (size : option Z)
    (r : rd) (w : option Z -> wr) : Prop :=
  (rd_ret r <> UC_ERR_OK -> w size = Wr UC_ERR_ARG env' setpc) /\
  (rd_ret r = UC_ERR_OK -> w size = w None).

End AgreeSpec.

(** ** Descriptor-table registers *)

Module TableSpec.
Import X86.

(** The table register an identifier names, and whether [reg_read] and
    [reg_write] transfer its limit and base only (IDTR, GDTR) or all four
    members of [uc_x86_mmr] (LDTR, TR). *)
Definition table_of (regid : uc_x86_reg) : option ((seg_field -> loc) * bool) :=
  match regid with
  | UC_X86_REG_IDTR => Some (idt, true)
  | UC_X86_REG_GDTR => Some (gdt, true)
  | UC_X86_REG_LDTR => Some (ldt, false)
  | UC_X86_REG_TR => Some (tr, false)
  | _ => None
  end.

(** Width of the base the mode transfers. *)
Definition base_bits (mode : uc_mode) : Z :=
  match mode with UC_MODE_64 => 64 | _ => 32 end.

Definition x86_mode (mode : uc_mode) : bool :=
  match mode with UC_MODE_other _ => false | _ => true end.

(** A descriptor-table value with a limit and a base wider than the code
    keeps: selector 0x28, base 0x1_0000_2000, limit 0x1ffff, flags
    0x8b00. *)
Definition wide_mmr : buffer :=
  set_field mmr_flags
    (set_field mmr_limit
       (set_field mmr_base (set_field mmr_selector zero_buffer 0x28) 0x100002000)
       0x1ffff)
    0x8b00.

End TableSpec.

(** ** Real-mode segments *)

Module RealModeSpec.
Import X86.

(** The data segments whose write in the 16-bit mode goes through
    [load_seg_16_helper]. *)
Definition real_mode_seg {H : cpu_h} (regid : uc_x86_reg) : option Z :=
  match regid with
  | UC_X86_REG_ES => Some R_ES
  | UC_X86_REG_SS => Some R_SS
  | UC_X86_REG_DS => Some R_DS
  | UC_X86_REG_FS => Some R_FS
  | UC_X86_REG_GS => Some R_GS
  | _ => None
  end.

(** [cpu_x86_load_seg_cache] stores the four values it is given in the
    segment it is given (what else it updates, the hidden flags, is left
    open). *)
Definition load_seg_cache_assigns {H : cpu_h} : Prop :=
  forall env seg_reg sel b lim fl,
    let env' := cpu_x86_load_seg_cache env seg_reg sel b lim fl in
    env' (segs seg_reg selector) = sel /\
    env' (segs seg_reg base) = b /\
    env' (segs seg_reg limit) = lim /\
    env' (segs seg_reg flags) = fl.

End RealModeSpec.

(** ** Vector registers *)

Module VectorSpec.
Import X86.

(** The identifiers XMM0..XMM15 [mode] knows: the first eight belong to
    the switch that comes before the mode, the others to the 64-bit
    mode. *)
Definition is_xmm (mode : uc_mode) (regid : uc_x86_reg) : bool :=
  match regid with
  | UC_X86_REG_XMM0 | UC_X86_REG_XMM1 | UC_X86_REG_XMM2 | UC_X86_REG_XMM3
  | UC_X86_REG_XMM4 | UC_X86_REG_XMM5 | UC_X86_REG_XMM6
  | UC_X86_REG_XMM7 => true
  | UC_X86_REG_XMM8 | UC_X86_REG_XMM9 | UC_X86_REG_XMM10
  | UC_X86_REG_XMM11 | UC_X86_REG_XMM12 | UC_X86_REG_XMM13
  | UC_X86_REG_XMM14 | UC_X86_REG_XMM15 =>
      match mode with UC_MODE_64 => true | _ => false end
  | _ => false
  end.

Definition is_ymm (regid : uc_x86_reg) : bool :=
  match regid with
  | UC_X86_REG_YMM0 | UC_X86_REG_YMM1 | UC_X86_REG_YMM2 | UC_X86_REG_YMM3
  | UC_X86_REG_YMM4 | UC_X86_REG_YMM5 | UC_X86_REG_YMM6 | UC_X86_REG_YMM7
  | UC_X86_REG_YMM8 | UC_X86_REG_YMM9 | UC_X86_REG_YMM10 | UC_X86_REG_YMM11
  | UC_X86_REG_YMM12 | UC_X86_REG_YMM13 | UC_X86_REG_YMM14
  | UC_X86_REG_YMM15 => true
  | _ => false
  end.

End VectorSpec.

(** ** Reset of the general registers *)

Module ResetRegsSpec.
Import X86.

(** The general registers and the instruction pointer. *)
Definition general (l : loc) : bool :=
  match l with regs _ | eip => true | _ => false end.

(** The helpers [x86_reg_reset] calls leave the general registers and the
    instruction pointer alone. *)
Definition helpers_keep_general {H : cpu_h} : Prop :=
  (forall env eflags mask l, general l = true ->
      cpu_load_eflags env eflags mask l = env l) /\
  (forall env new_cr0 l, general l = true ->
      cpu_x86_update_cr0 env new_cr0 l = env l) /\
  (forall env seg_reg sel b lim fl l, general l = true ->
      cpu_x86_load_seg_cache env seg_reg sel b lim fl l = env l).

(** A state whose general registers and instruction pointer hold the
    value 0x1234. *)
Definition env_busy : CPUX86State :=
  fun l => match l with regs _ | eip => 0x1234 | _ => 0 end.

End ResetRegsSpec.

(** ** General-purpose registers, one slot each *)

Module GprSpec.
Import X86 SubRegisterSpec.

(** The 64-bit identifiers of the sixteen registers. *)
Definition wide_register {H : cpu_h} (regid : uc_x86_reg) : option Z :=
  match regid with
  | UC_X86_REG_RAX => Some R_EAX
  | UC_X86_REG_RBX => Some R_EBX
  | UC_X86_REG_RCX => Some R_ECX
  | UC_X86_REG_RDX => Some R_EDX
  | UC_X86_REG_RSP => Some R_ESP
  | UC_X86_REG_RBP => Some R_EBP
  | UC_X86_REG_RSI => Some R_ESI
  | UC_X86_REG_RDI => Some R_EDI
  | UC_X86_REG_R8 => Some 8
  | UC_X86_REG_R9 => Some 9
  | UC_X86_REG_R10 => Some 10
  | UC_X86_REG_R11 => Some 11
  | UC_X86_REG_R12 => Some 12
  | UC_X86_REG_R13 => Some 13
  | UC_X86_REG_R14 => Some 14
  | UC_X86_REG_R15 => Some 15
  | _ => None
  end.

(** [gpr_slot mode regid = Some slot]: in [mode] the identifier names the
    general-purpose register kept in [regs[slot]], as a whole or through
    one of its narrow views. *)
Definition gpr_slot {H : cpu_h} (mode : uc_mode) (regid : uc_x86_reg)
  : option Z :=
  match sub_register mode regid with
  | Some (slot, _) => Some slot
  | None =>
      match full_register mode regid with
      | Some slot => Some slot
      | None =>
          match mode with
          | UC_MODE_64 => wide_register regid
          | _ => None
          end
      end
  end.

(** A state whose sixteen general-purpose registers hold sixteen
    distinct values. *)
Definition env_numbered : CPUX86State :=
  fun l => match l with regs i => 0x1111111111111100 + i | _ => 0 end.

End GprSpec.

(** ** The narrow identifiers of the instruction pointer *)

Module IpSpec.
Import X86 SubRegisterSpec.

(** The two narrow identifiers of the instruction pointer and the view
    each one names. *)
Definition ip_view (regid : uc_x86_reg) : option view :=
  match regid with
  | UC_X86_REG_IP => Some low_word
  | UC_X86_REG_EIP => Some low_dword
  | _ => None
  end.

(** Whether a write through the identifier keeps the bits of [eip] above
    the view. *)
Definition ip_keeps_rest (mode : uc_mode) (regid : uc_x86_reg) : bool :=
  match mode, regid with
  | UC_MODE_64, UC_X86_REG_IP => true
  | _, _ => false
  end.

(** A state whose instruction pointer has bits set in every word. *)
Definition env_far : CPUX86State :=
  fun l => match l with eip => 0x1122334455667788 | _ => 0 end.

End IpSpec.

(** ** Model-specific registers *)

Module MsrSpec.
Import X86.

(** The 64-bit value the micro-operations exchange in [EDX:EAX]. *)
Definition msr_pair {H : cpu_h} (env : CPUX86State) : Z :=
  Z.lor (cast uint32_t (env (regs R_EAX)))
        (Z.shiftl (cast uint32_t (env (regs R_EDX))) 32).

(** The three registers the MSR functions borrow are three registers. *)
Definition borrowed_distinct {H : cpu_h} : Prop :=
  R_EAX <> R_ECX /\ R_EAX <> R_EDX /\ R_ECX <> R_EDX.

(** [msr_bank rid bank]: for the index [rid] in [ECX], [helper_wrmsr]
    stores [EDX:EAX] in a 64-bit cell [bank] of the state, and
    [helper_rdmsr] loads the cell into [EDX:EAX]; the cell is none of the
    general-purpose registers. *)
Definition msr_bank {H : cpu_h} (rid : Z) (bank : CPUX86State -> Z) : Prop :=
  (forall env, env (regs R_ECX) = rid ->
     bank (helper_wrmsr env) = msr_pair env) /\
  (forall env, env (regs R_ECX) = rid ->
     msr_pair (helper_rdmsr env) = cast uint64_t (bank env)) /\
  (forall env i v, bank (upd env (regs i) v) = bank env).

(** An MSR structure for the index [rid] and the value [v]. *)
Definition msr_of (rid v : Z) : buffer :=
  set_field msr_value (set_field msr_rid zero_buffer rid) v.

End MsrSpec.

(** * Properties *)

(** ** Arithmetic of conversions and buffers *)

Lemma mod_2_64_mod_2_32 (x : Z) : (x mod 2 ^ 64) mod 2 ^ 32 = x mod 2 ^ 32.
Proof.
  apply Z.mod_mod_divide. exists (2 ^ 32). reflexivity.
Qed.

Lemma cast_uint32_add_uint64 (a : Z) :
  cast uint32_t (cast uint64_t (a + 4)) = cast uint32_t (cast uint32_t a + 4).
Proof.
  unfold cast; cbn [is_signed sizeof].
  change (8 * 8) with 64. change (8 * 4) with 32.
  rewrite mod_2_64_mod_2_32.
  now rewrite Z.add_mod_idemp_l by lia.
Qed.

Lemma CHECK_REG_TYPE_bail {A} (size : option Z) (t : ctype) (bail : A) k :
  CHECK_REG_TYPE size t bail k = bail \/ CHECK_REG_TYPE size t bail k = k UC_ERR_OK.
Proof.
  unfold CHECK_REG_TYPE. destruct size as [sz|]; [destruct (sz =? sizeof t)|]; auto.
Qed.

Lemma CHECK_REG_TYPE_pass {A} (size : option Z) (t : ctype) (bail : A) k :
  size = None \/ size = Some (sizeof t) ->
  CHECK_REG_TYPE size t bail k = k UC_ERR_OK.
Proof.
  intros [-> | ->]; unfold CHECK_REG_TYPE; [reflexivity|].
  now rewrite Z.eqb_refl.
Qed.

Lemma load_le_store_le_inside (k : nat) : forall off off0 n x b,
  off0 <= off -> off + Z.of_nat k <= off0 + n ->
  load_le k off (store_le n off0 x b)
    = (x / 2 ^ (8 * (off - off0))) mod 2 ^ (8 * Z.of_nat k).
Proof.
  induction k as [|k IH]; intros off off0 n x b Hlo Hhi.
  - cbn [load_le]. change (8 * Z.of_nat 0) with 0. now rewrite Z.mod_1_r.
  - cbn [load_le]. rewrite IH by lia.
    unfold store_le at 1.
    replace ((off0 <=? off) && (off <? off0 + n)) with true
      by (symmetry; apply andb_true_iff; split; [apply Z.leb_le | apply Z.ltb_lt]; lia).
    rewrite Z.mod_mod by lia.
    set (y := x / 2 ^ (8 * (off - off0))).
    replace (x / 2 ^ (8 * (off + 1 - off0))) with (y / 256).
    2:{ subst y. replace (8 * (off + 1 - off0)) with (8 * (off - off0) + 8) by lia.
        rewrite Z.pow_add_r by lia. rewrite Z.div_div by lia. reflexivity. }
    replace (8 * Z.of_nat (S k)) with (8 + 8 * Z.of_nat k) by lia.
    rewrite Z.pow_add_r by lia. change (2 ^ 8) with 256.
    rewrite Z.rem_mul_r by lia. reflexivity.
Qed.

Lemma load_le_store_le (k : nat) off x b :
  load_le k off (store_le (Z.of_nat k) off x b) = x mod 2 ^ (8 * Z.of_nat k).
Proof.
  rewrite load_le_store_le_inside by lia.
  now rewrite Z.sub_diag, Z.mul_0_r, Z.div_1_r.
Qed.

(** Reading back through an unsigned type what was assigned. *)
Lemma deref_assign_unsigned t value x :
  is_signed t = false -> 0 < sizeof t ->
  deref t (assign t value x) = x mod 2 ^ (8 * sizeof t).
Proof.
  intros Hu Hs. unfold deref, assign, deref_at, assign_at, cast. rewrite Hu.
  rewrite <- (Z2Nat.id (sizeof t)) at 2 by lia.
  rewrite load_le_store_le, Z2Nat.id by lia.
  now rewrite Z.mod_mod by lia.
Qed.

(** ** SPARC *)

Module SparcProofs.
Import Sparc AccessSpec.

Lemma sparc_upd_same (env : CPUSPARCState) l v : upd env l v l = v.
Proof. unfold upd, store_upd. destruct (loc_eq_dec l l); congruence. Qed.

Lemma sparc_upd_other (env : CPUSPARCState) l l' v : l <> l' -> upd env l v l' = env l'.
Proof. intros. unfold upd, store_upd. destruct (loc_eq_dec l l'); congruence. Qed.

Section WithHeader.
Context {H : sparc_h}.

(** A failing [reg_write] leaves the state as it was: every branch
    checks the size before its assignment. *)
Lemma sparc_reg_write_error_no_effect env regid value size :
  fst (reg_write env regid value size) <> UC_ERR_OK ->
  snd (reg_write env regid value size) = env.
Proof.
  unfold reg_write.
  repeat match goal with
         | |- context [if ?c then _ else _] => destruct c
         end;
    try reflexivity;
    match goal with
    | |- context [CHECK_REG_TYPE ?s ?t ?b ?k] =>
        destruct (CHECK_REG_TYPE_bail s t b k) as [-> | ->]
    end; cbn; congruence.
Qed.

Lemma reg_write_pc env value size :
  pc_outside_ranges ->
  size = None \/ size = Some 4 ->
  reg_write env UC_SPARC_REG_PC value size =
    (UC_ERR_OK,
     upd (upd env pc (deref uint32_t value))
         npc (cast uint32_t (deref uint32_t value + 4))).
Proof.
  intros (HG & HO & HL & HI) Hsz. unfold reg_write.
  rewrite HG, HO, HL, HI, Z.eqb_refl.
  now rewrite CHECK_REG_TYPE_pass.
Qed.
End WithHeader.

End SparcProofs.

(** ** x86 *)

Create HintDb x86_write discriminated.

Module X86Proofs.
Import X86 AccessSpec.

Lemma x86_upd_same (env : CPUX86State) l v : upd env l v l = v.
Proof. unfold upd, store_upd. destruct (loc_eq_dec l l); congruence. Qed.

Lemma x86_upd_other (env : CPUX86State) l l' v : l <> l' -> upd env l v l' = env l'.
Proof. intros. unfold upd, store_upd. destruct (loc_eq_dec l l'); congruence. Qed.

Section WithHelpers.
Context {H : cpu_h}.

Lemma chk_unchanged env size setpc t e :
  unchanged_on_error env setpc (chk env size setpc t e).
Proof.
  unfold chk, unchanged_on_error.
  destruct (CHECK_REG_TYPE_bail size t (Wr UC_ERR_ARG env setpc)
              (fun ret => Wr ret e setpc)) as [-> | ->]; cbn; intuition congruence.
Qed.

Lemma chk_setpc_unchanged env size setpc t e :
  unchanged_on_error env setpc (chk_setpc env size setpc t e).
Proof.
  unfold chk_setpc, unchanged_on_error.
  destruct (CHECK_REG_TYPE_bail size t (Wr UC_ERR_ARG env setpc)
              (fun ret => Wr ret e 1)) as [-> | ->]; cbn; intuition congruence.
Qed.

Lemma chk_seg_unchanged env value size setpc t seg :
  unchanged_on_error env setpc (chk_seg env value size setpc t seg).
Proof.
  unfold chk_seg, unchanged_on_error.
  match goal with
  | |- context [CHECK_REG_TYPE ?s ?t ?b ?k] =>
      destruct (CHECK_REG_TYPE_bail s t b k) as [-> | ->]
  end; cbn zeta; [cbn; intuition congruence|].
  destruct (uc_check_cpu_x86_load_seg env seg _); cbn; intuition congruence.
Qed.

Lemma default_unchanged env setpc :
  unchanged_on_error env setpc (Wr UC_ERR_ARG env setpc).
Proof. unfold unchanged_on_error; cbn; auto. Qed.

Hint Resolve chk_unchanged chk_setpc_unchanged chk_seg_unchanged
  default_unchanged : x86_write.

Lemma reg_write_mode_32_unchanged env regid value size setpc :
  unchanged_on_error env setpc (reg_write_mode_32 env regid value size setpc).
Proof. unfold reg_write_mode_32; destruct regid; auto with x86_write. Qed.

Lemma reg_write_mode_64_unchanged env regid value size setpc :
  unchanged_on_error env setpc (reg_write_mode_64 env regid value size setpc).
Proof. unfold reg_write_mode_64; destruct regid; auto with x86_write. Qed.

Lemma reg_write_mode_16_unchanged env regid value size setpc :
  unchanged_on_error env setpc (reg_write_mode_16 env regid value size setpc).
Proof.
  unfold reg_write_mode_16; destruct regid;
    auto using reg_write_mode_32_unchanged with x86_write.
Qed.

(** A failing [reg_write] leaves the state and [*setpc] as they were:
    the size check and the segment pre-check both precede the first
    assignment of their case. *)
Lemma x86_reg_write_error_no_effect env regid value size mode setpc :
  unchanged_on_error env setpc (reg_write env regid value size mode setpc).
Proof.
  unfold reg_write, reg_write_switch.
  destruct regid; auto with x86_write;
    destruct mode;
    auto using reg_write_mode_16_unchanged, reg_write_mode_32_unchanged,
               reg_write_mode_64_unchanged with x86_write.
Qed.
(** The checks that pass. *)
Lemma chk_seg_pass env value size setpc seg :
  size = None \/ size = Some 2 ->
  chk_seg env value size setpc uint16_t seg =
    let v := deref uint16_t value in
    let ret := uc_check_cpu_x86_load_seg env seg v in
    if is_err ret then Wr ret env setpc
    else Wr ret (cpu_x86_load_seg env seg v) setpc.
Proof. intros Hsz. unfold chk_seg. now rewrite CHECK_REG_TYPE_pass. Qed.

Lemma chk_pass env size setpc t e :
  size = None \/ size = Some (sizeof t) ->
  chk env size setpc t e = Wr UC_ERR_OK e setpc.
Proof. intros Hsz. unfold chk. now rewrite CHECK_REG_TYPE_pass. Qed.

Lemma chk_setpc_pass env size setpc t e :
  size = None \/ size = Some (sizeof t) ->
  chk_setpc env size setpc t e = Wr UC_ERR_OK e 1.
Proof. intros Hsz. unfold chk_setpc. now rewrite CHECK_REG_TYPE_pass. Qed.

End WithHelpers.
End X86Proofs.

(** ** The size check *)

Module SizeCheckProofs.
Import SizeCheckSpec AccessSpec.

Section X86Read.
Context {H : X86.cpu_h}.
Import X86.

Lemma rchk_untouched env value size t v :
  untouched_on_error env value (rchk env value size t v).
Proof.
  unfold rchk, untouched_on_error.
  destruct (CHECK_REG_TYPE_bail size t (Rd UC_ERR_ARG value env)
              (fun ret => Rd ret v env)) as [-> | ->]; cbn; intuition congruence.
Qed.

Lemma msr_read_untouched env value size :
  untouched_on_error env value
    (CHECK_REG_TYPE size uc_x86_msr (Rd UC_ERR_ARG value env)
       (fun ret => let (value, env) := x86_msr_read env value in Rd ret value env)).
Proof.
  unfold untouched_on_error.
  match goal with
  | |- context [CHECK_REG_TYPE ?s ?t ?b ?k] =>
      destruct (CHECK_REG_TYPE_bail s t b k) as [-> | ->]
  end; [cbn; intuition congruence|].
  destruct (x86_msr_read env value); cbn; intuition congruence.
Qed.

Lemma default_untouched env value :
  untouched_on_error env value (Rd UC_ERR_ARG value env).
Proof. unfold untouched_on_error; cbn; auto. Qed.

Hint Resolve rchk_untouched msr_read_untouched default_untouched : x86_write.

Lemma reg_read_mode_32_untouched env regid value size :
  untouched_on_error env value (reg_read_mode_32 env regid value size).
Proof. unfold reg_read_mode_32; destruct regid; auto with x86_write. Qed.

Lemma reg_read_mode_64_untouched env regid value size :
  untouched_on_error env value (reg_read_mode_64 env regid value size).
Proof. unfold reg_read_mode_64; destruct regid; auto with x86_write. Qed.

Lemma reg_read_mode_16_untouched env regid value size :
  untouched_on_error env value (reg_read_mode_16 env regid value size).
Proof.
  unfold reg_read_mode_16; destruct regid;
    auto using reg_read_mode_32_untouched with x86_write.
Qed.

(** The x86 [reg_read] copies nothing and changes nothing when it fails:
    every case checks the declared size first. *)
Lemma x86_reg_read_error_no_copy env regid value size mode :
  untouched_on_error env value (reg_read env regid value size mode).
Proof.
  unfold reg_read.
  destruct regid; auto with x86_write;
    destruct mode;
    auto using reg_read_mode_16_untouched, reg_read_mode_32_untouched,
               reg_read_mode_64_untouched with x86_write.
Qed.
End X86Read.

Section SparcRead.
Context {H : Sparc.sparc_h}.
Import Sparc.

(** The SPARC [reg_read] copies nothing when it fails, for every
    identifier outside the range I0..I7. *)
Lemma sparc_reg_read_error_no_copy env regid value size :
  in_range UC_SPARC_REG_I0 UC_SPARC_REG_I7 regid = false ->
  fst (reg_read env regid value size) <> UC_ERR_OK ->
  snd (reg_read env regid value size) = value.
Proof.
  intros HI. unfold reg_read. rewrite HI.
  repeat match goal with
         | |- context [if ?c then _ else _] => destruct c
         end;
    try reflexivity;
    match goal with
    | |- context [CHECK_REG_TYPE ?s ?t ?b ?k] =>
        destruct (CHECK_REG_TYPE_bail s t b k) as [-> | ->]
    end; cbn; congruence.
Qed.

(** In the range I0..I7 it copies the register and returns
    [UC_ERR_ARG], whatever the declared size. *)
Lemma sparc_reg_read_in_register env regid value size :
  in_range UC_SPARC_REG_G0 UC_SPARC_REG_G7 regid = false ->
  in_range UC_SPARC_REG_O0 UC_SPARC_REG_O7 regid = false ->
  in_range UC_SPARC_REG_L0 UC_SPARC_REG_L7 regid = false ->
  in_range UC_SPARC_REG_I0 UC_SPARC_REG_I7 regid = true ->
  reg_read env regid value size =
    (UC_ERR_ARG,
     assign uint32_t value
       (env (regwptr_at env (16 + regid - UC_SPARC_REG_I0)))).
Proof. intros HG HO HL HI. unfold reg_read. now rewrite HG, HO, HL, HI. Qed.
End SparcRead.

#[local] Existing Instance Sparc.sparc_header.

(** C1 fails on the code for the SPARC in-registers: [reg_read] has no
    size check in the branch of I0..I7.  A read of I0 with a declared size
    of 1 copies the four bytes of the register into the caller's buffer
    and reports [UC_ERR_ARG]; with the right size, 4, it does the same.
    [reg_write] of I0 with the declared size 1 stops at the check. *)
Theorem sparc_reg_read_in_register_unchecked :
  deref uint32_t zero_buffer = 0 /\
  (let r := Sparc.reg_read env_window Sparc.UC_SPARC_REG_I0 zero_buffer (Some 1) in
   fst r = UC_ERR_ARG /\ deref uint32_t (snd r) = 0xdeadbeef) /\
  (let r := Sparc.reg_read env_window Sparc.UC_SPARC_REG_I0 zero_buffer (Some 4) in
   fst r = UC_ERR_ARG /\ deref uint32_t (snd r) = 0xdeadbeef) /\
  Sparc.reg_write env_window Sparc.UC_SPARC_REG_I0 zero_buffer (Some 1)
    = (UC_ERR_ARG, env_window).
Proof. repeat split. Qed.

End SizeCheckProofs.

(** ** Batches: the first failure *)

Module BatchProofs.
Import BatchSpec.

Lemma is_err_true e : e <> UC_ERR_OK -> is_err e = true.
Proof. destruct e; cbn; congruence. Qed.

(** Every list of elements either succeeds as a whole or has a first
    failing element. *)
Lemma applied_or_first_failure {S E : Type} (step : S -> E -> uc_err * S) :
  forall l s,
    (exists s', applied step s l s') \/
    (exists pre x post s_j,
        l = pre ++ x :: post /\ applied step s pre s_j /\
        fst (step s_j x) <> UC_ERR_OK).
Proof.
  induction l as [|x l IH]; intros s.
  - left. exists s. constructor.
  - destruct (step s x) as [e s1] eqn:Hstep. destruct e.
    + destruct (IH s1) as [[s' Hall] | (pre & y & post & s_j & -> & Hpre & Hy)].
      * left. exists s'. econstructor; eassumption.
      * right. exists (x :: pre), y, post, s_j.
        repeat split; [econstructor; eassumption | assumption].
    + right. exists [], x, l, s. repeat split; [constructor|].
      rewrite Hstep. discriminate.
    + right. exists [], x, l, s. repeat split; [constructor|].
      rewrite Hstep. discriminate.
Qed.

Section X86Batch.
Context {H : X86.cpu_h}.
Import X86.

Lemma x86_batch_all mode regs : forall vals sizes env setpc s',
  applied (x86_step mode) (env, setpc) (elements regs vals sizes) s' ->
  reg_write_batch env regs vals sizes mode setpc = Wr UC_ERR_OK (fst s') (snd s').
Proof.
  induction regs as [|regid regs IH]; intros vals sizes env setpc s' Happ.
  - cbn in Happ. inversion Happ; subst. reflexivity.
  - destruct vals as [|value vals]; cbn in Happ.
    + inversion Happ; subst. reflexivity.
    + inversion Happ as [|? ? ? s1 ? Hstep Hrest]; subst.
      unfold x86_step in Hstep; cbn [fst snd] in Hstep.
      injection Hstep as Hret Hs1. subst s1.
      cbn [reg_write_batch]. rewrite Hret. cbn [is_err].
      apply IH. exact Hrest.
Qed.

Lemma x86_batch_first_failure mode regs : forall vals sizes env setpc pre x post s_j e,
  elements regs vals sizes = pre ++ x :: post ->
  applied (x86_step mode) (env, setpc) pre s_j ->
  fst (x86_step mode s_j x) = e ->
  e <> UC_ERR_OK ->
  reg_write_batch env regs vals sizes mode setpc = Wr e (fst s_j) (snd s_j).
Proof.
  induction regs as [|regid regs IH];
    intros vals sizes env setpc pre x post s_j e Hel Hpre Hx He.
  - cbn in Hel. destruct pre; discriminate.
  - destruct vals as [|value vals]; cbn in Hel; [destruct pre; discriminate|].
    destruct pre as [|y pre]; cbn in Hel; inversion Hel; subst; clear Hel.
    + inversion Hpre; subst. cbn [reg_write_batch].
      unfold x86_step in He |- *; cbn [fst snd] in He |- *.
      rewrite (is_err_true _ He).
      destruct (X86Proofs.x86_reg_write_error_no_effect env regid value
                  (size_ptr sizes) mode setpc He) as [Henv Hpc].
      destruct (reg_write env regid value (size_ptr sizes) mode setpc);
        cbn in *; congruence.
    + inversion Hpre as [|? ? ? s1 ? Hstep Hrest]; subst.
      unfold x86_step in Hstep; cbn [fst snd] in Hstep.
      injection Hstep as Hret Hs1. subst s1.
      cbn [reg_write_batch]. rewrite Hret. cbn [is_err].
      eapply IH; eauto.
Qed.
End X86Batch.

Section SparcBatch.
Context {H : Sparc.sparc_h}.
Import Sparc.

Lemma set_env_same (uc : uc_struct CPUSPARCState) : set_env uc (env_ptr uc) = uc.
Proof. destruct uc; reflexivity. Qed.

Lemma sparc_batch_all regs : forall vals sizes uc uc',
  applied sparc_step uc (elements regs vals sizes) uc' ->
  sparc_reg_write uc regs vals sizes = (UC_ERR_OK, uc').
Proof.
  unfold sparc_reg_write.
  induction regs as [|regid regs IH]; intros vals sizes uc uc' Happ.
  - cbn in Happ. inversion Happ; subst. reflexivity.
  - destruct vals as [|value vals]; cbn in Happ.
    + inversion Happ; subst. reflexivity.
    + inversion Happ as [|? ? ? s1 ? Hstep Hrest]; subst.
      cbv [sparc_step] in Hstep. cbn [sparc_reg_write_loop].
      destruct (reg_write (env_ptr uc) regid value (size_ptr sizes)) as [err env].
      destruct err; cbn [is_err] in Hstep |- *; try discriminate.
      inversion Hstep; subst. now apply IH.
Qed.

Lemma sparc_batch_first_failure regs : forall vals sizes uc pre x post uc_j e,
  elements regs vals sizes = pre ++ x :: post ->
  applied sparc_step uc pre uc_j ->
  fst (sparc_step uc_j x) = e ->
  e <> UC_ERR_OK ->
  sparc_reg_write uc regs vals sizes = (e, uc_j).
Proof.
  unfold sparc_reg_write.
  induction regs as [|regid regs IH];
    intros vals sizes uc pre x post uc_j e Hel Hpre Hx He.
  - cbn in Hel. destruct pre; discriminate.
  - destruct vals as [|value vals]; cbn in Hel; [destruct pre; discriminate|].
    destruct pre as [|y pre]; cbn in Hel; inversion Hel; subst; clear Hel.
    + inversion Hpre; subst. cbn [sparc_reg_write_loop].
      cbv [sparc_step] in He |- *.
      pose proof (SparcProofs.sparc_reg_write_error_no_effect (env_ptr uc_j) regid
                    value (size_ptr sizes)) as Hno.
      destruct (reg_write (env_ptr uc_j) regid value (size_ptr sizes))
        as [err env]; cbn [fst snd] in Hno.
      destruct (is_err err) eqn:Herr; cbn [fst] in He |- *.
      * rewrite Hno by exact He. now rewrite set_env_same.
      * congruence.
    + inversion Hpre as [|? ? ? s1 ? Hstep Hrest]; subst.
      cbv [sparc_step] in Hstep. cbn [sparc_reg_write_loop].
      destruct (reg_write (env_ptr uc) regid value (size_ptr sizes)) as [err env].
      destruct err; cbn [is_err] in Hstep |- *; try discriminate.
      inversion Hstep; subst. eapply IH; eauto.
Qed.
End SparcBatch.

(** C2: a batch write evaluates its elements in list order.  If element
    [j] (the one after the prefix [pre]) is the first that fails, with
    error [e], the call returns [e] and leaves exactly the state the
    elements before [j] produced: their effects stay, element [j] and
    the elements after it have none.  If every element succeeds, the
    call returns success with the state left by all of them.  One of the
    two cases always applies.  This holds for [reg_write_batch] of the
    x86 target and for [sparc_reg_write]. *)
Theorem batch_write_first_failure :
  (forall (H : X86.cpu_h) mode env setpc regs vals sizes,
      (forall pre x post s_j e,
          elements regs vals sizes = pre ++ x :: post ->
          applied (x86_step mode) (env, setpc) pre s_j ->
          fst (x86_step mode s_j x) = e ->
          e <> UC_ERR_OK ->
          X86.reg_write_batch env regs vals sizes mode setpc
            = X86.Wr e (fst s_j) (snd s_j)) /\
      (forall s',
          applied (x86_step mode) (env, setpc) (elements regs vals sizes) s' ->
          X86.reg_write_batch env regs vals sizes mode setpc
            = X86.Wr UC_ERR_OK (fst s') (snd s')) /\
      ((exists s',
           applied (x86_step mode) (env, setpc) (elements regs vals sizes) s') \/
       (exists pre x post s_j,
           elements regs vals sizes = pre ++ x :: post /\
           applied (x86_step mode) (env, setpc) pre s_j /\
           fst (x86_step mode s_j x) <> UC_ERR_OK))) /\
  (forall (H : Sparc.sparc_h) uc regs vals sizes,
      (forall pre x post uc_j e,
          elements regs vals sizes = pre ++ x :: post ->
          applied sparc_step uc pre uc_j ->
          fst (sparc_step uc_j x) = e ->
          e <> UC_ERR_OK ->
          Sparc.sparc_reg_write uc regs vals sizes = (e, uc_j)) /\
      (forall uc',
          applied sparc_step uc (elements regs vals sizes) uc' ->
          Sparc.sparc_reg_write uc regs vals sizes = (UC_ERR_OK, uc')) /\
      ((exists uc', applied sparc_step uc (elements regs vals sizes) uc') \/
       (exists pre x post uc_j,
           elements regs vals sizes = pre ++ x :: post /\
           applied sparc_step uc pre uc_j /\
           fst (sparc_step uc_j x) <> UC_ERR_OK))).
Proof.
  split; intros; (split; [|split]); intros.
  - eapply x86_batch_first_failure; eauto.
  - now apply x86_batch_all.
  - apply applied_or_first_failure.
  - eapply sparc_batch_first_failure; eauto.
  - now apply sparc_batch_all.
  - apply applied_or_first_failure.
Qed.

Lemma batch_write_first_failure_witness :
  (@X86.reg_write_batch X86.sample_cpu_h X86.env0
     [X86.UC_X86_REG_EAX; X86.UC_X86_REG_other 0; X86.UC_X86_REG_EBX]
     [bytes_of 1; bytes_of 2; bytes_of 3] (Some [4; 4; 4]) UC_MODE_32 0
   = X86.Wr UC_ERR_ARG (X86.upd X86.env0 (X86.regs 0) 1) 0) /\
  (@X86.reg_write_batch X86.sample_cpu_h X86.env0
     [X86.UC_X86_REG_EAX; X86.UC_X86_REG_EIP]
     [bytes_of 1; bytes_of 2] (Some [4; 4]) UC_MODE_32 0
   = X86.Wr UC_ERR_OK
       (X86.upd (X86.upd X86.env0 (X86.regs 0) 1) X86.eip 2) 1) /\
  (@Sparc.sparc_reg_write Sparc.sparc_header
     (mk_uc (fun _ => 0) UC_MODE_32 false 0)
     [88; 53; 0] [bytes_of 8; bytes_of 1; bytes_of 2] (Some [4; 2; 4])
   = (UC_ERR_ARG,
      mk_uc (Sparc.upd (Sparc.upd (fun _ => 0) Sparc.pc 8) Sparc.npc 12)
        UC_MODE_32 true 1)).
Proof.
  destruct batch_write_first_failure as [Hx86 Hsparc].
  split; [|split].
  - destruct (Hx86 X86.sample_cpu_h UC_MODE_32 X86.env0 0
                [X86.UC_X86_REG_EAX; X86.UC_X86_REG_other 0; X86.UC_X86_REG_EBX]
                [bytes_of 1; bytes_of 2; bytes_of 3] (Some [4; 4; 4])) as [Hfail _].
    apply (Hfail [(X86.UC_X86_REG_EAX, bytes_of 1, Some 4)]
                 (X86.UC_X86_REG_other 0, bytes_of 2, Some 4)
                 [(X86.UC_X86_REG_EBX, bytes_of 3, Some 4)]
                 (X86.upd X86.env0 (X86.regs 0) 1, 0) UC_ERR_ARG).
    + reflexivity.
    + eapply applied_cons; [reflexivity | apply applied_nil].
    + reflexivity.
    + discriminate.
  - destruct (Hx86 X86.sample_cpu_h UC_MODE_32 X86.env0 0
                [X86.UC_X86_REG_EAX; X86.UC_X86_REG_EIP]
                [bytes_of 1; bytes_of 2] (Some [4; 4])) as [_ [Hall _]].
    apply (Hall (X86.upd (X86.upd X86.env0 (X86.regs 0) 1) X86.eip 2, 1)).
    eapply applied_cons; [reflexivity|].
    eapply applied_cons; [reflexivity | apply applied_nil].
  - destruct (Hsparc Sparc.sparc_header (mk_uc (fun _ => 0) UC_MODE_32 false 0)
                [88; 53; 0] [bytes_of 8; bytes_of 1; bytes_of 2] (Some [4; 2; 4]))
      as [Hfail _].
    apply (Hfail [(88, bytes_of 8, Some 4)] (53, bytes_of 1, Some 2)
                 [(0, bytes_of 2, Some 4)]
                 (mk_uc (Sparc.upd (Sparc.upd (fun _ => 0) Sparc.pc 8) Sparc.npc 12)
                    UC_MODE_32 true 1) UC_ERR_ARG).
    + reflexivity.
    + eapply applied_cons; [reflexivity | apply applied_nil].
    + reflexivity.
    + discriminate.
Defined.

End BatchProofs.

(** ** Requests to abandon the current translated unit *)

Module RequestProofs.
Import BatchSpec RequestSpec.

Section X86Requests.
Context {H : X86.cpu_h}.
Import X86.

Lemma chk_setpc_after env size setpc t e :
  wr_ret (chk env size setpc t e) = UC_ERR_OK ->
  wr_setpc (chk env size setpc t e) = setpc.
Proof.
  unfold chk.
  destruct (CHECK_REG_TYPE_bail size t (Wr UC_ERR_ARG env setpc)
              (fun ret => Wr ret e setpc)) as [-> | ->]; cbn; congruence.
Qed.

Lemma chk_setpc_setpc_after env size setpc t e :
  wr_ret (chk_setpc env size setpc t e) = UC_ERR_OK ->
  wr_setpc (chk_setpc env size setpc t e) = 1.
Proof.
  unfold chk_setpc.
  destruct (CHECK_REG_TYPE_bail size t (Wr UC_ERR_ARG env setpc)
              (fun ret => Wr ret e 1)) as [-> | ->]; cbn; congruence.
Qed.

Lemma chk_seg_setpc_after env value size setpc t seg :
  wr_ret (chk_seg env value size setpc t seg) = UC_ERR_OK ->
  wr_setpc (chk_seg env value size setpc t seg) = setpc.
Proof.
  unfold chk_seg.
  match goal with
  | |- context [CHECK_REG_TYPE ?s ?t ?b ?k] =>
      destruct (CHECK_REG_TYPE_bail s t b k) as [-> | ->]
  end; cbn zeta; [cbn; congruence|].
  destruct (uc_check_cpu_x86_load_seg env seg _); cbn; congruence.
Qed.

Lemma default_setpc_after env setpc (x : Z) :
  wr_ret (Wr UC_ERR_ARG env setpc) = UC_ERR_OK ->
  wr_setpc (Wr UC_ERR_ARG env setpc) = x.
Proof. cbn; discriminate. Qed.

Hint Resolve chk_setpc_after chk_setpc_setpc_after chk_seg_setpc_after
  default_setpc_after : x86_write.

Lemma reg_write_mode_32_setpc env regid value size setpc :
  setpc_after regid setpc (reg_write_mode_32 env regid value size setpc).
Proof.
  unfold setpc_after, reg_write_mode_32; destruct regid; cbn [is_pc_reg];
    auto with x86_write.
Qed.

Lemma reg_write_mode_64_setpc env regid value size setpc :
  setpc_after regid setpc (reg_write_mode_64 env regid value size setpc).
Proof.
  unfold setpc_after, reg_write_mode_64; destruct regid; cbn [is_pc_reg];
    auto with x86_write.
Qed.

Lemma reg_write_mode_16_setpc env regid value size setpc :
  setpc_after regid setpc (reg_write_mode_16 env regid value size setpc).
Proof.
  pose proof (reg_write_mode_32_setpc env regid value size setpc) as H32.
  unfold setpc_after, reg_write_mode_16 in *; destruct regid; cbn [is_pc_reg] in *;
    auto with x86_write.
Qed.

Lemma reg_write_setpc env regid value size mode setpc :
  setpc_after regid setpc (reg_write env regid value size mode setpc).
Proof.
  pose proof (reg_write_mode_16_setpc env regid value size setpc) as H16.
  pose proof (reg_write_mode_32_setpc env regid value size setpc) as H32.
  pose proof (reg_write_mode_64_setpc env regid value size setpc) as H64.
  unfold setpc_after, reg_write, reg_write_switch in *.
  destruct regid; cbn [is_pc_reg] in *; auto with x86_write;
    destruct mode; auto with x86_write.
Qed.

(** [*setpc] after a successful batch: 1 as soon as one element named the
    PC, its initial value otherwise. *)
Lemma reg_write_batch_setpc mode regs : forall vals sizes env setpc,
  wr_ret (reg_write_batch env regs vals sizes mode setpc) = UC_ERR_OK ->
  wr_setpc (reg_write_batch env regs vals sizes mode setpc)
    = if existsb is_pc_reg (ids regs vals) then 1 else setpc.
Proof.
  induction regs as [|regid regs IH]; intros vals sizes env setpc Hok.
  - reflexivity.
  - destruct vals as [|value vals]; [reflexivity|].
    cbn [reg_write_batch] in Hok |- *.
    pose proof (reg_write_setpc env regid value (size_ptr sizes) mode setpc) as Hs.
    unfold setpc_after in Hs.
    destruct (reg_write env regid value (size_ptr sizes) mode setpc)
      as [ret env1 setpc1]; cbn [wr_ret wr_env wr_setpc] in *.
    destruct ret; cbn [is_err] in *; try discriminate.
    rewrite (IH vals (sizes_next sizes) env1 setpc1 Hok), (Hs eq_refl).
    unfold ids; cbn [elements map existsb fst].
    fold (ids regs vals).
    destruct (is_pc_reg regid); cbn [orb]; [|reflexivity].
    now destruct (existsb is_pc_reg (ids regs vals)).
Qed.

Lemma x86_reg_write_requests uc regs vals sizes uc' :
  x86_reg_write uc regs vals sizes = (UC_ERR_OK, uc') ->
  tb_exit_requests uc' =
    (tb_exit_requests uc + if existsb is_pc_reg (ids regs vals) then 1 else 0)%nat.
Proof.
  unfold x86_reg_write. cbv zeta.
  pose proof (reg_write_batch_setpc (mode uc) regs vals sizes (env_ptr uc) 0) as Hs.
  destruct (reg_write_batch (env_ptr uc) regs vals sizes (mode uc) 0)
    as [ret env1 setpc1]; cbn [wr_ret wr_env wr_setpc] in *.
  destruct ret; cbn [is_err]; try discriminate.
  rewrite (Hs eq_refl).
  destruct (existsb is_pc_reg (ids regs vals)); cbn;
    intros Heq; injection Heq as <-; cbn; lia.
Qed.

Lemma x86_context_same_effect uc ctx regs vals sizes :
  data ctx = env_ptr uc -> ctx_mode ctx = mode uc ->
  fst (x86_context_reg_write ctx regs vals sizes)
    = fst (x86_reg_write uc regs vals sizes) /\
  data (snd (x86_context_reg_write ctx regs vals sizes))
    = env_ptr (snd (x86_reg_write uc regs vals sizes)).
Proof.
  intros Hd Hm. unfold x86_context_reg_write, x86_reg_write. cbv zeta.
  rewrite Hd, Hm.
  destruct (reg_write_batch (env_ptr uc) regs vals sizes (mode uc) 0)
    as [ret env1 setpc1]; cbn [wr_ret wr_env wr_setpc fst snd data].
  destruct ret; cbn [is_err fst snd]; try (split; reflexivity).
  destruct (negb (setpc1 =? 0)); split; reflexivity.
Qed.
End X86Requests.

Section SparcRequests.
Context {H : Sparc.sparc_h}.
Import Sparc.

Lemma sparc_reg_write_requests regs : forall vals sizes uc uc',
  sparc_reg_write uc regs vals sizes = (UC_ERR_OK, uc') ->
  tb_exit_requests uc' =
    (tb_exit_requests uc + sparc_pc_elements (ids regs vals))%nat.
Proof.
  unfold sparc_reg_write, sparc_pc_elements.
  induction regs as [|regid regs IH]; intros vals sizes uc uc' Hok.
  - cbn in Hok |- *. injection Hok as <-. lia.
  - destruct vals as [|value vals].
    + cbn in Hok |- *. injection Hok as <-. lia.
    + cbn [sparc_reg_write_loop] in Hok.
      destruct (reg_write (env_ptr uc) regid value (size_ptr sizes)) as [err env].
      destruct err; cbn [is_err] in Hok; try discriminate.
      apply IH in Hok. rewrite Hok.
      unfold ids; cbn [elements map fst count_occ sizes_next]. fold (ids regs vals).
      destruct (Z.eqb_spec regid UC_SPARC_REG_PC) as [-> | Hne].
      * destruct (Z.eq_dec UC_SPARC_REG_PC UC_SPARC_REG_PC); [|contradiction].
        cbn. lia.
      * destruct (Z.eq_dec regid UC_SPARC_REG_PC); [contradiction|].
        cbn. lia.
Qed.

Lemma sparc_context_same_effect regs : forall vals sizes uc env,
  env = env_ptr uc ->
  fst (sparc_context_reg_write_loop env regs vals sizes)
    = fst (sparc_reg_write uc regs vals sizes) /\
  snd (sparc_context_reg_write_loop env regs vals sizes)
    = env_ptr (snd (sparc_reg_write uc regs vals sizes)).
Proof.
  unfold sparc_reg_write.
  induction regs as [|regid regs IH]; intros vals sizes uc env ->.
  - split; reflexivity.
  - destruct vals as [|value vals]; [split; reflexivity|].
    cbn [sparc_reg_write_loop sparc_context_reg_write_loop].
    destruct (reg_write (env_ptr uc) regid value (size_ptr sizes)) as [err env].
    destruct (is_err err); [split; reflexivity|].
    apply IH. now destruct (regid =? UC_SPARC_REG_PC).
Qed.
End SparcRequests.

(** C3, as amended: a successful register-write call on the live CPU
    raises the request to abandon the current translated unit when, and
    only when, one of its elements names the program counter.  The x86
    entry point raises it once for the call, whatever the number of such
    elements; the SPARC entry point raises it once for each such element.
    The same call on a detached context returns the same code and leaves
    the same register state as on the live CPU, and its result is the
    context alone: it has no engine handle to signal. *)
Theorem write_requests :
  (forall (H : X86.cpu_h) uc regs vals sizes uc',
      X86.x86_reg_write uc regs vals sizes = (UC_ERR_OK, uc') ->
      tb_exit_requests uc' =
        (tb_exit_requests uc
         + if existsb is_pc_reg (ids regs vals) then 1 else 0)%nat) /\
  (forall (H : Sparc.sparc_h) uc regs vals sizes uc',
      Sparc.sparc_reg_write uc regs vals sizes = (UC_ERR_OK, uc') ->
      tb_exit_requests uc' =
        (tb_exit_requests uc + sparc_pc_elements (ids regs vals))%nat) /\
  (forall (H : X86.cpu_h) uc ctx regs vals sizes,
      data ctx = env_ptr uc -> ctx_mode ctx = mode uc ->
      fst (X86.x86_context_reg_write ctx regs vals sizes)
        = fst (X86.x86_reg_write uc regs vals sizes) /\
      data (snd (X86.x86_context_reg_write ctx regs vals sizes))
        = env_ptr (snd (X86.x86_reg_write uc regs vals sizes))) /\
  (forall (H : Sparc.sparc_h) uc ctx regs vals sizes,
      data ctx = env_ptr uc ->
      fst (Sparc.sparc_context_reg_write ctx regs vals sizes)
        = fst (Sparc.sparc_reg_write uc regs vals sizes) /\
      data (snd (Sparc.sparc_context_reg_write ctx regs vals sizes))
        = env_ptr (snd (Sparc.sparc_reg_write uc regs vals sizes))).
Proof.
  split; [|split; [|split]].
  - intros H. apply x86_reg_write_requests.
  - intros H uc regs vals sizes uc'. apply sparc_reg_write_requests.
  - intros H. apply x86_context_same_effect.
  - intros H uc ctx regs vals sizes Hd.
    unfold Sparc.sparc_context_reg_write.
    destruct (sparc_context_same_effect regs vals sizes uc (data ctx) Hd) as [Hf Hs].
    destruct (Sparc.sparc_context_reg_write_loop (data ctx) regs vals sizes).
    split; assumption.
Qed.

Lemma write_requests_witness :
  (exists uc',
      @X86.x86_reg_write X86.sample_cpu_h x86_uc0
        [X86.UC_X86_REG_EAX; X86.UC_X86_REG_EIP] [bytes_of 1; bytes_of 2]
        (Some [4; 4]) = (UC_ERR_OK, uc') /\
      tb_exit_requests uc' = 1%nat) /\
  (exists uc',
      @Sparc.sparc_reg_write Sparc.sparc_header sparc_uc0
        [53; 88] [bytes_of 1; bytes_of 8] None = (UC_ERR_OK, uc') /\
      tb_exit_requests uc' = 1%nat) /\
  (data x86_ctx0 = env_ptr x86_uc0 /\ ctx_mode x86_ctx0 = mode x86_uc0 /\
   data (snd (@X86.x86_context_reg_write X86.sample_cpu_h x86_ctx0
                [X86.UC_X86_REG_EIP] [bytes_of 2] (Some [4])))
     = env_ptr (snd (@X86.x86_reg_write X86.sample_cpu_h x86_uc0
                       [X86.UC_X86_REG_EIP] [bytes_of 2] (Some [4])))) /\
  (data sparc_ctx0 = env_ptr sparc_uc0 /\
   data (snd (@Sparc.sparc_context_reg_write Sparc.sparc_header sparc_ctx0
                [88] [bytes_of 8] (Some [4])))
     = env_ptr (snd (@Sparc.sparc_reg_write Sparc.sparc_header sparc_uc0
                       [88] [bytes_of 8] (Some [4])))).
Proof.
  destruct write_requests as (Hx & Hs & Hxc & Hsc).
  split; [|split; [|split]].
  - eexists. split; [reflexivity|].
    exact (Hx X86.sample_cpu_h x86_uc0
             [X86.UC_X86_REG_EAX; X86.UC_X86_REG_EIP] [bytes_of 1; bytes_of 2]
             (Some [4; 4]) _ eq_refl).
  - eexists. split; [reflexivity|].
    exact (Hs Sparc.sparc_header sparc_uc0 [53; 88] [bytes_of 1; bytes_of 8]
             None _ eq_refl).
  - split; [reflexivity|]. split; [reflexivity|].
    exact (proj2 (Hxc X86.sample_cpu_h x86_uc0 x86_ctx0 [X86.UC_X86_REG_EIP]
                    [bytes_of 2] (Some [4]) eq_refl eq_refl)).
  - split; [reflexivity|].
    exact (proj2 (Hsc Sparc.sparc_header sparc_uc0 sparc_ctx0 [88] [bytes_of 8]
                    (Some [4]) eq_refl)).
Defined.

(** C3 as stated fails on batches: a call of the x86 entry point whose two
    elements both write the program counter raises one request, not one
    per write, and a call of the SPARC entry point with two such elements
    raises two. *)
Lemma write_requests_counterexample :
  (let r := @X86.x86_reg_write X86.sample_cpu_h x86_uc0
              [X86.UC_X86_REG_EIP; X86.UC_X86_REG_EIP]
              [bytes_of 0x1000; bytes_of 0x2000] (Some [4; 4]) in
   fst r = UC_ERR_OK /\
   x86_pc_elements [X86.UC_X86_REG_EIP; X86.UC_X86_REG_EIP] = 2%nat /\
   env_ptr (snd r) X86.eip = 0x2000 /\
   tb_exit_requests (snd r) = 1%nat) /\
  (let r := @Sparc.sparc_reg_write Sparc.sparc_header sparc_uc0
              [88; 88] [bytes_of 0x1000; bytes_of 0x2000] (Some [4; 4]) in
   fst r = UC_ERR_OK /\
   env_ptr (snd r) Sparc.pc = 0x2000 /\
   tb_exit_requests (snd r) = 2%nat).
Proof. repeat split. Qed.

End RequestProofs.

(** ** The program counter in the 16-bit mode *)

Module PcProofs.
Import X86.

Section WithHelpers.
Context {H : cpu_h}.

Lemma cast_int16_of_uint16 (sel : Z) :
  0 <= sel < 0x10000 ->
  cast int16_t (cast uint16_t sel) = if sel <? 0x8000 then sel else sel - 0x10000.
Proof.
  intros Hsel. unfold cast; cbn [is_signed sizeof].
  change (2 ^ (8 * 2)) with 65536. change (65536 / 2) with 32768.
  rewrite (Z.mod_small sel) by lia.
  destruct (Z.ltb_spec sel 0x8000).
  - rewrite Z.mod_small by lia. lia.
  - replace (sel + 32768) with (sel - 32768 + 1 * 65536) by lia.
    rewrite Z.mod_add by lia. rewrite Z.mod_small by lia. lia.
Qed.

(** [x86_set_pc] followed by [x86_get_pc] in the 16-bit mode: exact when
    the CS selector is below 0x8000, off by 0x100000 otherwise. *)
Lemma x86_set_pc_get_pc_16 (uc : uc_struct CPUX86State) address :
  mode uc = UC_MODE_16 ->
  0 <= env_ptr uc (segs R_CS selector) < 0x10000 ->
  0 <= address < 2 ^ 64 ->
  x86_get_pc (x86_set_pc uc address) =
    if env_ptr uc (segs R_CS selector) <? 0x8000 then address
    else (address + 0x100000) mod 2 ^ 64.
Proof.
  intros Hm Hsel Ha. unfold x86_set_pc. rewrite Hm.
  unfold x86_get_pc, set_env; cbn [env_ptr mode]. rewrite Hm.
  rewrite X86Proofs.x86_upd_same, X86Proofs.x86_upd_other by discriminate.
  rewrite cast_int16_of_uint16 by exact Hsel.
  set (sel := env_ptr uc (segs R_CS selector)) in *.
  unfold cast, target_ulong, int_t; cbn [is_signed sizeof].
  change (2 ^ (8 * 8)) with (2 ^ 64). change (2 ^ (8 * 4)) with 4294967296.
  change (4294967296 / 2) with 2147483648.
  rewrite (Z.mod_small (sel * 16)) by lia.
  destruct (Z.ltb_spec sel 0x8000).
  - rewrite (Z.mod_small (sel * 16 + 2147483648)) by lia.
    rewrite Z.add_mod_idemp_r by lia.
    replace (sel * 16 + (address - (sel * 16 + 2147483648 - 2147483648))) with address by lia.
    apply Z.mod_small; lia.
  - replace ((sel - 65536) * 16 + 2147483648) with (sel * 16 + 2146435072) by lia.
    rewrite (Z.mod_small (sel * 16 + 2146435072)) by lia.
    rewrite Z.add_mod_idemp_r by lia.
    f_equal. lia.
Qed.
End WithHelpers.

#[local] Existing Instance sample_cpu_h.

(** C4 fails on the code for selectors with bit 15 set: [x86_set_pc] keeps
    the selector in an [int16_t], so 0xf000 becomes -4096 and the offset
    it stores is the address plus 0x10000; [x86_get_pc] then returns the
    address plus 0x100000.  With CS = 0xf000, setting the PC to 0x1000
    reads back as 0x101000. *)
Theorem x86_set_pc_get_pc_high_selector :
  let uc := mk_uc (upd env0 (segs R_CS selector) 0xf000) UC_MODE_16 false 0 in
  env_ptr (x86_set_pc uc 0x1000) eip = 0x11000 /\
  x86_get_pc (x86_set_pc uc 0x1000) = 0x101000.
Proof. split; reflexivity. Qed.

(** For selectors below 0x8000 the round trip is exact. *)
Example x86_set_pc_get_pc_low_selector :
  let uc := mk_uc (upd env0 (segs R_CS selector) 0x7000) UC_MODE_16 false 0 in
  env_ptr (x86_set_pc uc 0x71000) eip = 0x1000 /\
  x86_get_pc (x86_set_pc uc 0x71000) = 0x71000.
Proof. split; reflexivity. Qed.

End PcProofs.

(** ** Sub-register views *)

Module SubRegisterProofs.
Import X86 SubRegisterSpec.

Lemma testbit_field_mask (lo w n : Z) :
  0 <= lo -> 0 <= w -> 0 <= n ->
  Z.testbit (Z.shiftl (Z.ones w) lo) n = (lo <=? n) && (n <? lo + w).
Proof.
  intros Hlo Hw Hn. rewrite Z.shiftl_spec by lia.
  destruct (Z.leb_spec lo n); cbn [andb].
  - rewrite Z.testbit_ones_nonneg by lia.
    destruct (Z.ltb_spec (n - lo) w), (Z.ltb_spec n (lo + w)); lia || reflexivity.
  - apply Z.testbit_neg_r. lia.
Qed.

(** The masked update all four write macros perform. *)
Lemma insert_field_bits (x b lo w n : Z) :
  0 <= lo -> 0 <= w -> 0 <= n ->
  Z.testbit (Z.lor (Z.land x (Z.lnot (Z.shiftl (Z.ones w) lo)))
                   (Z.shiftl (Z.land b (Z.ones w)) lo)) n
    = if (lo <=? n) && (n <? lo + w) then Z.testbit b (n - lo) else Z.testbit x n.
Proof.
  intros Hlo Hw Hn.
  rewrite Z.lor_spec, Z.land_spec, Z.lnot_spec, testbit_field_mask by lia.
  rewrite Z.shiftl_spec by lia.
  destruct (Z.leb_spec lo n); cbn [andb negb].
  - rewrite Z.land_spec, Z.testbit_ones_nonneg by lia.
    destruct (Z.ltb_spec (n - lo) w), (Z.ltb_spec n (lo + w)); try lia; cbn [negb].
    + now rewrite andb_false_r, andb_true_r.
    + now rewrite andb_true_r, andb_false_r, orb_false_r.
  - rewrite (Z.testbit_neg_r _ (n - lo)) by lia.
    now rewrite andb_true_r, orb_false_r.
Qed.

Lemma insert_field_view env x v b :
  writes_view env x v b
    (upd env x (Z.lor (Z.land (env x)
                         (Z.lnot (Z.shiftl (Z.ones (view_width v)) (view_lo v))))
                      (Z.shiftl (Z.land b (Z.ones (view_width v))) (view_lo v)))).
Proof.
  assert (Hlo : 0 <= view_lo v) by (destruct v; cbn; lia).
  assert (Hw : 0 <= view_width v) by (destruct v; cbn; lia).
  repeat split.
  - intros l Hl. apply X86Proofs.x86_upd_other. congruence.
  - intros n Hn Hout. rewrite X86Proofs.x86_upd_same, insert_field_bits by lia.
    destruct (Z.leb_spec (view_lo v) n), (Z.ltb_spec n (view_lo v + view_width v));
      cbn [andb]; lia || reflexivity.
  - intros n Hin. rewrite X86Proofs.x86_upd_same, insert_field_bits by lia.
    destruct (Z.leb_spec (view_lo v) n), (Z.ltb_spec n (view_lo v + view_width v));
      cbn [andb]; lia || reflexivity.
Qed.

Lemma WRITE_BYTE_L_view env x b : writes_view env x low_byte b (WRITE_BYTE_L env x b).
Proof. exact (insert_field_view env x low_byte b). Qed.

Lemma WRITE_BYTE_H_view env x b : writes_view env x high_byte b (WRITE_BYTE_H env x b).
Proof. exact (insert_field_view env x high_byte b). Qed.

Lemma WRITE_WORD_view env x w : writes_view env x low_word w (WRITE_WORD env x w).
Proof. exact (insert_field_view env x low_word w). Qed.

Lemma WRITE_DWORD_view env x w : writes_view env x low_dword w (WRITE_DWORD env x w).
Proof. exact (insert_field_view env x low_dword w). Qed.

(** C5: in every mode, a write through a narrow view of a general-purpose
    register (low byte, high byte, low word, and in the 64-bit mode low
    dword) succeeds when the size passes the check, replaces the bits of
    the view in the wider backing slot by the value written, and changes
    nothing else: every other bit of the slot, every other location of the
    state and [*setpc] are as before.  In the 16- and 32-bit modes the
    32-bit identifier is the whole register: its write assigns the slot
    and changes no other location. *)
Theorem narrow_write_changes_only_its_bytes {H : cpu_h}
    mode regid env value size setpc :
  let r := reg_write env regid value size mode setpc in
  (forall slot v,
      sub_register mode regid = Some (slot, v) ->
      size = None \/ size = Some (sizeof (view_type v)) ->
      wr_ret r = UC_ERR_OK /\ wr_setpc r = setpc /\
      writes_view env (regs slot) v (deref (view_type v) value) (wr_env r)) /\
  (forall slot,
      full_register mode regid = Some slot ->
      size = None \/ size = Some 4 ->
      wr_ret r = UC_ERR_OK /\ wr_setpc r = setpc /\
      wr_env r (regs slot) = deref uint32_t value /\
      forall l, l <> regs slot -> wr_env r l = env l).
Proof.
  intros r. subst r. split.
  - intros slot v Hsub Hsz.
    destruct mode; cbn [sub_register] in Hsub; try discriminate Hsub;
      destruct regid; cbn [legacy_view long_view] in Hsub; try discriminate Hsub;
      injection Hsub as <- <-;
      unfold reg_write, reg_write_switch, reg_write_mode_16, reg_write_mode_32,
        reg_write_mode_64;
      rewrite X86Proofs.chk_pass by exact Hsz;
      cbn [wr_ret wr_env wr_setpc];
      (split; [reflexivity|]); (split; [reflexivity|]);
      first [ apply WRITE_BYTE_L_view | apply WRITE_BYTE_H_view
            | apply WRITE_WORD_view | apply WRITE_DWORD_view ].
  - intros slot Hfull Hsz.
    destruct mode; cbn [full_register] in Hfull; try discriminate Hfull;
      destruct regid; try discriminate Hfull;
      injection Hfull as <-;
      unfold reg_write, reg_write_switch, reg_write_mode_16, reg_write_mode_32;
      rewrite X86Proofs.chk_pass by exact Hsz;
      cbn [wr_ret wr_env wr_setpc];
      (split; [reflexivity|]); (split; [reflexivity|]);
      (split; [apply X86Proofs.x86_upd_same
              | intros l Hl; apply X86Proofs.x86_upd_other; congruence]).
Qed.

#[local] Existing Instance sample_cpu_h.

Lemma narrow_write_changes_only_its_bytes_witness :
  sub_register UC_MODE_32 UC_X86_REG_AL = Some (0, low_byte) /\
  (Some 1 = None \/ Some 1 = Some (sizeof (view_type low_byte))) /\
  wr_ret (reg_write env_eax UC_X86_REG_AL (bytes_of 0xff) (Some 1) UC_MODE_32 0)
    = UC_ERR_OK /\
  writes_view env_eax (regs 0) low_byte (deref uint8_t (bytes_of 0xff))
    (wr_env (reg_write env_eax UC_X86_REG_AL (bytes_of 0xff) (Some 1) UC_MODE_32 0)) /\
  full_register UC_MODE_32 UC_X86_REG_EAX = Some 0 /\
  (Some 4 = None \/ Some 4 = Some 4) /\
  wr_env (reg_write env_eax UC_X86_REG_EAX (bytes_of 0xff) (Some 4) UC_MODE_32 0)
    (regs 0) = 0xff.
Proof.
  assert (Hsub : sub_register UC_MODE_32 UC_X86_REG_AL = Some (0, low_byte))
    by reflexivity.
  assert (Hsz : Some 1 = None \/ Some 1 = Some (sizeof (view_type low_byte)))
    by (right; reflexivity).
  assert (Hfull : full_register UC_MODE_32 UC_X86_REG_EAX = Some 0) by reflexivity.
  assert (Hsz4 : Some 4 = None \/ Some 4 = Some 4) by (right; reflexivity).
  split; [exact Hsub|]. split; [exact Hsz|].
  destruct (narrow_write_changes_only_its_bytes UC_MODE_32 UC_X86_REG_AL
              env_eax (bytes_of 0xff) (Some 1) 0) as [Hnarrow _].
  destruct (Hnarrow 0 low_byte Hsub Hsz) as (Hret & _ & Hview).
  split; [exact Hret|]. split; [exact Hview|].
  split; [exact Hfull|]. split; [exact Hsz4|].
  destruct (narrow_write_changes_only_its_bytes UC_MODE_32 UC_X86_REG_EAX
              env_eax (bytes_of 0xff) (Some 4) 0) as [_ Hwhole].
  destruct (Hwhole 0 Hfull Hsz4) as (_ & _ & Hslot & _).
  rewrite Hslot. reflexivity.
Defined.

(** The example of the claim: with 0x11223344 in the accumulator, writing
    0xff to its low byte and reading the 32-bit accumulator gives
    0x112233ff; writing 0xee to its high byte gives 0x1122ee44; in the
    64-bit mode, writing the low dword leaves the upper half of RAX. *)
Example write_al_read_eax :
  (forall m, In m [UC_MODE_16; UC_MODE_32; UC_MODE_64] ->
     let env' := wr_env (reg_write env_eax UC_X86_REG_AL (bytes_of 0xff) (Some 1) m 0) in
     deref uint32_t (rd_value (reg_read env' UC_X86_REG_EAX zero_buffer (Some 4) m))
       = 0x112233ff) /\
  (forall m, In m [UC_MODE_16; UC_MODE_32; UC_MODE_64] ->
     let env' := wr_env (reg_write env_eax UC_X86_REG_AH (bytes_of 0xee) (Some 1) m 0) in
     deref uint32_t (rd_value (reg_read env' UC_X86_REG_EAX zero_buffer (Some 4) m))
       = 0x1122ee44) /\
  (let env := upd env0 (regs 0) 0x5566778811223344 in
   let env' := wr_env (reg_write env UC_X86_REG_EAX (bytes_of 0xaabbccdd) (Some 4)
                         UC_MODE_64 0) in
   deref uint64_t (rd_value (reg_read env' UC_X86_REG_RAX zero_buffer (Some 8)
                               UC_MODE_64))
     = 0x55667788aabbccdd).
Proof.
  split; [|split]; try reflexivity;
    intros m Hm; cbn [In] in Hm;
    destruct Hm as [<- | [<- | [<- | []]]]; reflexivity.
Qed.

(** In the 16- and 32-bit modes a write of the 32-bit identifier is the
    assignment of the whole slot. *)
Example write_eax_mode_32 :
  let env := upd env0 (regs 0) 0x5566778811223344 in
  wr_env (reg_write env UC_X86_REG_EAX (bytes_of 0xaabbccdd) (Some 4) UC_MODE_32 0)
    (regs 0) = 0xaabbccdd.
Proof. reflexivity. Qed.

End SubRegisterProofs.

(** ** Selector writes and the legality pre-check *)

Module SegmentProofs.
Import X86 SegmentSpec.

(** C6, as amended: a selector-only write of CS in the 16-bit mode, of any
    of the six segment registers in the 32-bit mode and of FS or GS in the
    64-bit mode is validated by the legality pre-check before any
    mutation; when the check rejects the selector the call returns the
    check's error and the whole state, so the register's selector, base,
    limit and flags, is unchanged; when it accepts, the segment is loaded.
    The other writes do not consult the check: in the 16-bit mode DS, ES,
    SS, FS and GS are loaded through [load_seg_16_helper], and in the
    64-bit mode CS, DS, SS and ES store the selector. *)
Theorem segment_write_precheck {H : cpu_h} mode regid seg env value size setpc :
  seg_of regid = Some seg ->
  size = None \/ size = Some 2 ->
  let v := deref uint16_t value in
  let r := reg_write env regid value size mode setpc in
  (prechecked mode regid = true ->
     (uc_check_cpu_x86_load_seg env seg v <> UC_ERR_OK ->
        r = Wr (uc_check_cpu_x86_load_seg env seg v) env setpc) /\
     (uc_check_cpu_x86_load_seg env seg v = UC_ERR_OK ->
        r = Wr UC_ERR_OK (cpu_x86_load_seg env seg v) setpc)) /\
  (prechecked mode regid = false ->
     match mode with
     | UC_MODE_16 => r = Wr UC_ERR_OK (load_seg_16_helper env seg v) setpc
     | UC_MODE_64 => r = Wr UC_ERR_OK (upd env (segs seg selector) v) setpc
     | _ => r = Wr UC_ERR_ARG env setpc
     end).
Proof.
  intros Hseg Hsz v r. subst v r.
  destruct regid; try discriminate Hseg;
    cbn [seg_of] in Hseg; injection Hseg as <-;
    destruct mode; cbn [prechecked];
    unfold reg_write, reg_write_switch, reg_write_mode_16, reg_write_mode_32,
      reg_write_mode_64;
    rewrite ?X86Proofs.chk_seg_pass, ?X86Proofs.chk_pass by exact Hsz; cbv zeta;
    (split; [intros Hp; try discriminate Hp | intros Hp; try discriminate Hp; try reflexivity]);
    (split; [intros Hc; destruct (uc_check_cpu_x86_load_seg _ _ _);
             try contradiction; reflexivity
            | intros ->; reflexivity]).
Qed.

#[local] Existing Instance sample_cpu_h.

Lemma segment_write_precheck_witness :
  seg_of UC_X86_REG_SS = Some 2 /\
  (uc_check_cpu_x86_load_seg env_protected 2 0 <> UC_ERR_OK /\
   reg_write env_protected UC_X86_REG_SS (bytes_of 0) (Some 2) UC_MODE_32 0
     = Wr UC_ERR_EXCEPTION env_protected 0) /\
  reg_write env_protected UC_X86_REG_SS (bytes_of 0) (Some 2) UC_MODE_16 0
     = Wr UC_ERR_OK (load_seg_16_helper env_protected 2 0) 0.
Proof.
  assert (Hseg : seg_of UC_X86_REG_SS = Some 2) by reflexivity.
  assert (Hsz : Some 2 = None \/ Some 2 = Some 2) by (right; reflexivity).
  assert (Hrej : uc_check_cpu_x86_load_seg env_protected 2 0 <> UC_ERR_OK)
    by (cbn; discriminate).
  split; [exact Hseg|]. split; [split; [exact Hrej|]|].
  - destruct (segment_write_precheck UC_MODE_32 UC_X86_REG_SS 2 env_protected
                (bytes_of 0) (Some 2) 0 Hseg Hsz) as [Hchk _].
    destruct (Hchk eq_refl) as [Hfail _].
    exact (Hfail Hrej).
  - destruct (segment_write_precheck UC_MODE_16 UC_X86_REG_SS 2 env_protected
                (bytes_of 0) (Some 2) 0 Hseg Hsz) as [_ Hno].
    exact (Hno eq_refl).
Defined.

(** C6 as stated fails outside the pairs above: in a protected-mode state
    the pre-check rejects the null selector for SS, yet in the 16-bit mode
    the write succeeds and reloads the segment (its limit changes), and in
    the 64-bit mode it succeeds and replaces the selector. *)
Lemma segment_write_precheck_counterexample :
  uc_check_cpu_x86_load_seg env_protected R_SS 0 = UC_ERR_EXCEPTION /\
  (let r := reg_write env_protected UC_X86_REG_SS (bytes_of 0) (Some 2) UC_MODE_16 0 in
   wr_ret r = UC_ERR_OK /\
   env_protected (segs R_SS limit) = 0 /\ wr_env r (segs R_SS limit) = 0xffff /\
   env_protected (segs R_SS selector) = 0x10 /\ wr_env r (segs R_SS selector) = 0) /\
  (let r := reg_write env_protected UC_X86_REG_SS (bytes_of 0) (Some 2) UC_MODE_64 0 in
   wr_ret r = UC_ERR_OK /\
   env_protected (segs R_SS selector) = 0x10 /\ wr_env r (segs R_SS selector) = 0).
Proof. repeat split. Qed.

End SegmentProofs.

(** ** The floating-point tag word *)

Module FpTagProofs.
Import X86 FpTagSpec.

Lemma lor_shiftl_2 (f t : Z) : 0 <= t < 4 -> Z.lor (Z.shiftl f 2) t = 4 * f + t.
Proof.
  intros Ht. rewrite Z.shiftl_mul_pow2 by lia. change (2 ^ 2) with 4.
  rewrite <- Z.lxor_lor, <- Z.add_nocarry_lxor; try lia;
    apply Z.bits_inj'; intros n Hn; rewrite Z.land_spec, Z.bits_0;
    destruct (Z.lt_ge_cases n 2).
  1,3: change 4 with (2 ^ 2); rewrite Z.mul_pow2_bits_low by lia; reflexivity.
  1,2: replace (Z.testbit t n) with false; [apply andb_false_r|];
       symmetry; apply (Z.bits_above_log2 t n); [lia|];
       destruct (Z.eq_dec t 0) as [-> | Hne]; [cbn; lia|];
       apply Z.log2_lt_pow2; [lia|];
       apply Z.lt_le_trans with (2 ^ 2); [cbn; lia | apply Z.pow_le_mono_r; lia].
Qed.

Lemma tag_code_range c : 0 <= tag_code c < 4.
Proof. destruct c; cbn; lia. Qed.

Lemma bit63_clear (mant : Z) :
  (Z.land mant (Z.shiftl 1 63) =? 0) = negb (Z.testbit mant 63).
Proof.
  change (Z.shiftl 1 63) with (2 ^ 63).
  destruct (Z.testbit mant 63) eqn:Hb; cbn [negb].
  - apply Z.eqb_neq. intros Hz.
    assert (Ht : Z.testbit (Z.land mant (2 ^ 63)) 63 = true)
      by (rewrite Z.land_spec, Hb, Z.pow2_bits_true by lia; reflexivity).
    rewrite Hz, Z.bits_0 in Ht. discriminate.
  - apply Z.eqb_eq. apply Z.bits_inj'. intros n Hn.
    rewrite Z.land_spec, Z.bits_0.
    destruct (Z.eq_dec n 63) as [-> | Hne].
    + now rewrite Hb.
    + rewrite Z.pow2_bits_false by lia. apply andb_false_r.
Qed.

(** One iteration of the loop appends the tag of slot [i]. *)
Lemma fptag_step_value env i f :
  fptag_step env i f = 4 * f + tag_code (slot_class env i).
Proof.
  unfold fptag_step, slot_class, exponent, mantissa, MAXEXPD.
  rewrite bit63_clear.
  destruct (negb (env (fptags i) =? 0));
    [apply lor_shiftl_2; cbn; lia|].
  destruct ((Z.land (env (fpregs i high)) 32767 =? 0) && (env (fpregs i low) =? 0));
    [apply lor_shiftl_2; cbn; lia|].
  destruct ((Z.land (env (fpregs i high)) 32767 =? 0)
            || (Z.land (env (fpregs i high)) 32767 =? 32767)
            || negb (Z.testbit (env (fpregs i low)) 63));
    [apply lor_shiftl_2; cbn; lia|].
  cbn [tag_code]. rewrite Z.shiftl_mul_pow2 by lia. lia.
Qed.

Lemma tag_field_div (w i : Z) : 0 <= i -> tag_field w i = (w / 2 ^ (2 * i)) mod 4.
Proof.
  intros Hi. unfold tag_field. rewrite Z.shiftr_div_pow2 by lia.
  change 3 with (Z.ones 2). now rewrite Z.land_ones by lia.
Qed.

(** The word the loop builds carries the tag of slot [i] in bits [2i] and
    [2i + 1]. *)
Lemma fptag_loop_fields env i :
  0 <= i < 8 ->
  0 <= fptag_loop env 8 0 < 2 ^ 16 /\
  tag_field (fptag_loop env 8 0) i = tag_code (slot_class env i).
Proof.
  intros Hi. cbn [fptag_loop]. rewrite !fptag_step_value.
  change (Z.of_nat 0) with 0. change (Z.of_nat 1) with 1.
  change (Z.of_nat 2) with 2. change (Z.of_nat 3) with 3.
  change (Z.of_nat 4) with 4. change (Z.of_nat 5) with 5.
  change (Z.of_nat 6) with 6. change (Z.of_nat 7) with 7.
  pose proof (tag_code_range (slot_class env 0)).
  pose proof (tag_code_range (slot_class env 1)).
  pose proof (tag_code_range (slot_class env 2)).
  pose proof (tag_code_range (slot_class env 3)).
  pose proof (tag_code_range (slot_class env 4)).
  pose proof (tag_code_range (slot_class env 5)).
  pose proof (tag_code_range (slot_class env 6)).
  pose proof (tag_code_range (slot_class env 7)).
  split; [change (2 ^ 16) with 65536; lia|].
  rewrite tag_field_div by lia.
  assert (Hcases : i = 0 \/ i = 1 \/ i = 2 \/ i = 3 \/ i = 4 \/ i = 5 \/ i = 6 \/ i = 7)
    by lia.
  repeat (destruct Hcases as [-> | Hcases]); [.. | subst i];
    match goal with
    | |- (_ / 2 ^ ?e) mod 4 = _ =>
        let p := eval cbv in (2 ^ e) in change (2 ^ e) with p
    end;
    Z.div_mod_to_equations; lia.
Qed.

(** C7, as amended: the read of the tag word synthesizes the two-bit tag
    of each of the eight physical slots from the register contents.  A
    slot whose empty bit is set is empty.  Otherwise a slot whose exponent
    and mantissa are both zero is zero; a slot whose exponent is zero (with
    a non-zero mantissa), whose exponent is the maximum biased exponent
    (whatever the mantissa), or whose mantissa has the explicit integer bit
    clear is special; every remaining slot is valid. *)
Theorem fptag_read_classifies {H : cpu_h} env value size mode :
  size = None \/ size = Some 2 ->
  let r := reg_read env UC_X86_REG_FPTAG value size mode in
  rd_ret r = UC_ERR_OK /\ rd_env r = env /\
  forall i, 0 <= i < 8 ->
    tag_field (deref uint16_t (rd_value r)) i = tag_code (slot_class env i).
Proof.
  intros Hsz r. subst r. unfold reg_read, rchk.
  rewrite CHECK_REG_TYPE_pass by exact Hsz. cbn [rd_ret rd_env rd_value].
  split; [reflexivity|]. split; [reflexivity|]. intros i Hi.
  destruct (fptag_loop_fields env i Hi) as [Hrange Hfield].
  rewrite deref_assign_unsigned by (cbn; lia || reflexivity).
  change (2 ^ (8 * sizeof uint16_t)) with (2 ^ 16).
  rewrite Z.mod_small by exact Hrange. exact Hfield.
Qed.

#[local] Existing Instance sample_cpu_h.

Lemma fptag_read_classifies_witness :
  (Some 2 = None \/ Some 2 = Some 2) /\ 0 <= 1 < 8 /\
  tag_field
    (deref uint16_t
       (rd_value (reg_read env_denormal UC_X86_REG_FPTAG zero_buffer (Some 2)
                    UC_MODE_32))) 1
    = tag_code fp_special.
Proof.
  assert (Hsz : Some 2 = None \/ Some 2 = Some 2) by (right; reflexivity).
  assert (Hi : 0 <= 1 < 8) by lia.
  split; [exact Hsz|]. split; [exact Hi|].
  destruct (fptag_read_classifies env_denormal zero_buffer (Some 2) UC_MODE_32 Hsz)
    as (_ & _ & Hfields).
  exact (Hfields 1 Hi).
Defined.

(** C7 as stated fails on the remaining slots: a slot that holds a
    denormal (exponent 0, mantissa 1), and a slot with a normal exponent
    whose integer bit is clear, are valid in the claim's classification
    and special in the tag word the read returns. *)
Lemma fptag_read_classifies_counterexample :
  let w := deref uint16_t
             (rd_value (reg_read env_denormal UC_X86_REG_FPTAG zero_buffer
                          (Some 2) UC_MODE_32)) in
  env_denormal (fptags 0) = 0 /\ exponent env_denormal 0 = 0 /\
  mantissa env_denormal 0 = 1 /\
  claimed_class env_denormal 0 = fp_valid /\
  tag_field w 0 = tag_code fp_special /\
  tag_field w 0 <> tag_code (claimed_class env_denormal 0) /\
  claimed_class env_denormal 1 = fp_valid /\
  tag_field w 1 = tag_code fp_special.
Proof. cbv zeta. repeat split. discriminate. Qed.

End FpTagProofs.

(** ** Model-specific registers *)

Module MsrProofs.
Import X86.

Section WithHelpers.
Context {H : cpu_h}.

(** Restoring three saved slots, in either order the file uses, gives
    each of them its saved value, whether or not the slots are distinct. *)
Lemma restore_three (env env2 : CPUX86State) (a b c l : loc) :
  l = a \/ l = b \/ l = c ->
  upd (upd (upd env2 a (env a)) b (env b)) c (env c) l = env l.
Proof.
  intros Hl. unfold upd, store_upd.
  destruct (loc_eq_dec c l) as [<- | Hc]; [reflexivity|].
  destruct (loc_eq_dec b l) as [<- | Hb]; [reflexivity|].
  destruct (loc_eq_dec a l) as [<- | Ha]; [reflexivity|].
  destruct Hl as [-> | [-> | ->]]; contradiction.
Qed.

Lemma x86_msr_read_restores env msr l :
  l = regs R_EAX \/ l = regs R_ECX \/ l = regs R_EDX ->
  snd (x86_msr_read env msr) l = env l.
Proof. intros Hl. unfold x86_msr_read; cbn [snd]. now apply restore_three. Qed.

Lemma x86_msr_write_restores env msr l :
  l = regs R_EAX \/ l = regs R_ECX \/ l = regs R_EDX ->
  x86_msr_write env msr l = env l.
Proof.
  intros Hl. unfold x86_msr_write. apply restore_three.
  destruct Hl as [-> | [-> | ->]]; auto.
Qed.

End WithHelpers.

(** C8: for every MSR index, every starting state and every behaviour of
    the native read and write micro-operations, after [x86_msr_read] and
    after [x86_msr_write] the accumulator, counter and data registers hold
    their pre-call values; the same holds for a read or a write of
    [UC_X86_REG_MSR] through the accessors, in every mode and with every
    declared size. *)
Theorem msr_access_restores_registers {H : cpu_h} :
  forall env msr,
    (snd (x86_msr_read env msr) (regs R_EAX) = env (regs R_EAX) /\
     snd (x86_msr_read env msr) (regs R_ECX) = env (regs R_ECX) /\
     snd (x86_msr_read env msr) (regs R_EDX) = env (regs R_EDX)) /\
    (x86_msr_write env msr (regs R_EAX) = env (regs R_EAX) /\
     x86_msr_write env msr (regs R_ECX) = env (regs R_ECX) /\
     x86_msr_write env msr (regs R_EDX) = env (regs R_EDX)) /\
    (forall size mode l,
        l = regs R_EAX \/ l = regs R_ECX \/ l = regs R_EDX ->
        rd_env (reg_read env UC_X86_REG_MSR msr size mode) l = env l /\
        forall setpc,
          wr_env (reg_write env UC_X86_REG_MSR msr size mode setpc) l = env l).
Proof.
  intros env msr. split; [|split].
  - repeat split; apply x86_msr_read_restores; auto.
  - repeat split; apply x86_msr_write_restores; auto.
  - intros size mode l Hl. split; [|intros setpc].
    + unfold reg_read, reg_read_mode_16, reg_read_mode_32, reg_read_mode_64.
      pose proof (x86_msr_read_restores env msr l Hl) as Hr.
      destruct mode; try reflexivity;
        match goal with
        | |- context [CHECK_REG_TYPE ?s ?t ?b ?k] =>
            destruct (CHECK_REG_TYPE_bail s t b k) as [-> | ->]
        end; try reflexivity;
        destruct (x86_msr_read env msr); exact Hr.
    + unfold reg_write, reg_write_switch, reg_write_mode_16, reg_write_mode_32,
        reg_write_mode_64, chk.
      pose proof (x86_msr_write_restores env msr l Hl) as Hw.
      destruct mode; try reflexivity;
        match goal with
        | |- context [CHECK_REG_TYPE ?s ?t ?b ?k] =>
            destruct (CHECK_REG_TYPE_bail s t b k) as [-> | ->]
        end; try reflexivity; exact Hw.
Qed.

#[local] Existing Instance sample_cpu_h.

(** On the sample helpers the micro-operation does clobber the borrowed
    registers: reading EFER through it returns the value and leaves the
    three registers as they were. *)
Example msr_read_efer :
  let env := upd (upd (upd (upd env0 efer 0x500) (regs 0) 7) (regs 1) 8) (regs 2) 9 in
  let msr := set_field msr_rid (fun _ => 0) MSR_EFER in
  helper_rdmsr (upd env (regs R_ECX) MSR_EFER) (regs R_EAX) = 0x500 /\
  get_field msr_value (fst (x86_msr_read env msr)) = 0x500 /\
  snd (x86_msr_read env msr) (regs 0) = 7 /\
  snd (x86_msr_read env msr) (regs 1) = 8 /\
  snd (x86_msr_read env msr) (regs 2) = 9.
Proof. repeat split. Qed.

End MsrProofs.

(** ** Reset *)

Module ResetProofs.
Import X86 ResetSpec.

Lemma land_lor_absorb (x m : Z) : Z.land (Z.lor x m) m = m.
Proof.
  apply Z.bits_inj'. intros n _.
  rewrite Z.land_spec, Z.lor_spec.
  destruct (Z.testbit x n), (Z.testbit m n); reflexivity.
Qed.

Section WithHelpers.
Context {H : cpu_h}.

(** [x86_reg_reset] has no assignment to [env->fpregs]: whatever the
    mode, the eight data registers of the x87 stack survive the reset. *)
Lemma x86_reg_reset_keeps_fpregs (uc : uc_struct CPUX86State) i f :
  helpers_keep_fpregs ->
  env_ptr (x86_reg_reset uc) (fpregs i f) = env_ptr uc (fpregs i f).
Proof.
  intros (Hfl & Hcr & Hseg).
  unfold x86_reg_reset, set_env; cbn [env_ptr].
  destruct (mode uc); unfold load_seg_16_helper;
    repeat first [ rewrite Hseg | rewrite Hcr | rewrite Hfl
                 | rewrite X86Proofs.x86_upd_other by discriminate
                 | progress (unfold memset0, store_memset0 at 1) ];
    reflexivity.
Qed.

(** In the 64-bit mode the reset leaves the long-mode bits of EFER set,
    provided [cpu_x86_update_cr0] does not touch EFER. *)
Lemma x86_reg_reset_mode_64_efer (uc : uc_struct CPUX86State) :
  (forall env new_cr0, cpu_x86_update_cr0 env new_cr0 efer = env efer) ->
  mode uc = UC_MODE_64 ->
  Z.land (env_ptr (x86_reg_reset uc) efer) (Z.lor MSR_EFER_LMA MSR_EFER_LME)
    = Z.lor MSR_EFER_LMA MSR_EFER_LME.
Proof.
  intros Hcr Hm. unfold x86_reg_reset, set_env; cbn [env_ptr]. rewrite Hm.
  rewrite X86Proofs.x86_upd_other by discriminate.
  rewrite Hcr, X86Proofs.x86_upd_same.
  apply land_lor_absorb.
Qed.

(** In the 16-bit mode the reset leaves the six segments with base 0 and
    limit 0xffff. *)
Lemma x86_reg_reset_mode_16_segs (uc : uc_struct CPUX86State) seg :
  load_seg_cache_stores ->
  mode uc = UC_MODE_16 ->
  In seg [R_CS; R_DS; R_ES; R_SS; R_FS; R_GS] ->
  env_ptr (x86_reg_reset uc) (segs seg base) = 0 /\
  env_ptr (x86_reg_reset uc) (segs seg limit) = 0xffff.
Proof.
  intros Hload Hm Hin. unfold x86_reg_reset, set_env; cbn [env_ptr]. rewrite Hm.
  unfold load_seg_16_helper.
  change (cast target_ulong (cast uint32_t (Z.shiftl 0 4))) with 0.
  assert (Hkeep : forall env s sel fl,
             (env (segs seg base) = 0 /\ env (segs seg limit) = 0xffff) \/ s = seg ->
             cpu_x86_load_seg_cache env s sel 0 0xffff fl (segs seg base) = 0 /\
             cpu_x86_load_seg_cache env s sel 0 0xffff fl (segs seg limit) = 0xffff).
  { intros env s sel fl Hor.
    destruct (Hload env s sel 0 0xffff fl) as (Hb & Hl & Hother).
    destruct (Z.eq_dec seg s) as [-> | Hne]; [split; assumption|].
    destruct Hor as [[Hb0 Hl0] | ->]; [|contradiction].
    rewrite !Hother by exact Hne. split; assumption. }
  cbn [In] in Hin.
  repeat match goal with
         | Hin : _ \/ _ |- _ => destruct Hin as [<- | Hin]
         | Hin : False |- _ => contradiction
         end;
    repeat (apply Hkeep; first [right; reflexivity | left]).
Qed.

End WithHelpers.

(** [sparc_reg_reset] clears the global, floating-point and windowed
    registers, the program counter and the next program counter. *)
Lemma sparc_reg_reset_zeroes (uc : uc_struct Sparc.CPUSPARCState) i :
  let env' := env_ptr (Sparc.sparc_reg_reset uc) in
  env' (Sparc.gregs i) = 0 /\ env' (Sparc.fpr i) = 0 /\
  env' (Sparc.regbase i) = 0 /\ env' Sparc.pc = 0 /\ env' Sparc.npc = 0 /\
  env' Sparc.regwptr = 0.
Proof.
  unfold Sparc.sparc_reg_reset, set_env; cbn [env_ptr].
  repeat split;
    repeat first [ rewrite SparcProofs.sparc_upd_same
                 | rewrite SparcProofs.sparc_upd_other by discriminate ];
    reflexivity.
Qed.

#[local] Existing Instance sample_cpu_h.

Lemma sample_helpers_keep_fpregs : helpers_keep_fpregs.
Proof.
  repeat split; intros; cbn;
    unfold sample_load_seg_cache;
    repeat rewrite X86Proofs.x86_upd_other by discriminate; reflexivity.
Qed.

(** C9 fails on the code for the floating-point data registers: a state
    whose physical register 0 holds 1.0 still holds it after
    [x86_reg_reset], in each of the three modes, while the general
    registers, the control words and the tags around it are cleared; a
    read of [UC_X86_REG_FP0] after the reset returns the old value. *)
Theorem x86_reg_reset_leaves_fpregs :
  reset_keeps_fp_one UC_MODE_16 /\ reset_keeps_fp_one UC_MODE_32 /\
  reset_keeps_fp_one UC_MODE_64.
Proof. repeat split. Qed.

End ResetProofs.

(** ** The next program counter *)

Module NextPcProofs.
Import Sparc AccessSpec SparcProofs.

(** C10: on the SPARC target a write to the program counter, through
    [reg_write] with a size that passes the check or through
    [sparc_set_pc], stores the written value in [pc] and that value plus 4
    (as a 32-bit word) in [npc], so [npc = pc + 4] holds afterwards. *)
Theorem sparc_pc_write_sets_npc {H : sparc_h} :
  pc_outside_ranges ->
  (forall env value size,
      size = None \/ size = Some 4 ->
      exists env',
        reg_write env UC_SPARC_REG_PC value size = (UC_ERR_OK, env') /\
        env' pc = deref uint32_t value /\
        env' npc = cast uint32_t (deref uint32_t value + 4) /\
        env' npc = cast target_ulong (env' pc + 4)) /\
  (forall uc address,
      let env' := env_ptr (sparc_set_pc uc address) in
      env' pc = cast target_ulong address /\
      env' npc = cast target_ulong (address + 4) /\
      env' npc = cast target_ulong (env' pc + 4)).
Proof.
  intros Hpc. split.
  - intros env value size Hsz. eexists. split.
    + now apply reg_write_pc.
    + rewrite sparc_upd_same, sparc_upd_other, sparc_upd_same by discriminate. auto.
  - intros uc address env'. subst env'.
    unfold sparc_set_pc, set_env; cbn [env_ptr].
    rewrite sparc_upd_same, sparc_upd_other, sparc_upd_same by discriminate.
    unfold target_ulong. rewrite cast_uint32_add_uint64.
    repeat split; try reflexivity.
    unfold cast; cbn [is_signed sizeof]. now rewrite Z.add_mod_idemp_l by lia.
Qed.

Lemma sparc_header_pc_outside_ranges : @pc_outside_ranges sparc_header.
Proof. repeat split. Qed.

Lemma sparc_pc_write_sets_npc_witness :
  @pc_outside_ranges sparc_header /\
  exists env',
    @reg_write sparc_header (fun _ => 0) 88 (bytes_of 0xfffffffc) (Some 4)
      = (UC_ERR_OK, env') /\
    env' pc = 0xfffffffc /\ env' npc = 0.
Proof.
  split; [exact sparc_header_pc_outside_ranges|].
  destruct (@sparc_pc_write_sets_npc sparc_header sparc_header_pc_outside_ranges)
    as [Hw _].
  destruct (Hw (fun _ => 0) (bytes_of 0xfffffffc) (Some 4) (or_intror eq_refl))
    as (env' & He & Hp & Hn & _).
  exists env'. split; [exact He|]. split; [rewrite Hp | rewrite Hn]; reflexivity.
Defined.

End NextPcProofs.

(** * Further properties of the accessors

    Properties of the two files beyond the statements of the
    specification: reading back what was written, aliasing between
    identifiers, batches of reads, requests of failing calls, reset. *)

(** ** Bytes of a buffer and of a value *)

Lemma load_le_range (k : nat) : forall off b,
  0 <= load_le k off b < 2 ^ (8 * Z.of_nat k).
Proof.
  induction k as [|k IH]; intros off b.
  - cbn. lia.
  - cbn [load_le]. specialize (IH (off + 1) b).
    replace (8 * Z.of_nat (S k)) with (8 + 8 * Z.of_nat k) by lia.
    rewrite Z.pow_add_r by lia. change (2 ^ 8) with 256.
    pose proof (Z.mod_pos_bound (b off) 256 eq_refl). nia.
Qed.

Lemma load_le_byte (k : nat) : forall off b i,
  off <= i < off + Z.of_nat k ->
  (load_le k off b / 2 ^ (8 * (i - off))) mod 256 = b i mod 256.
Proof.
  induction k as [|k IH]; intros off b i Hi; [lia|].
  cbn [load_le].
  destruct (Z.eq_dec i off) as [-> | Hne].
  - rewrite Z.sub_diag, Z.mul_0_r, Z.div_1_r.
    rewrite (Z.mul_comm 256), Z.mod_add by lia.
    apply Z.mod_mod. lia.
  - replace (8 * (i - off)) with (8 + 8 * (i - (off + 1))) by lia.
    rewrite Z.pow_add_r by lia. change (2 ^ 8) with 256.
    rewrite <- Z.div_div by lia.
    rewrite (Z.mul_comm 256), Z.div_add by lia.
    rewrite (Z.div_small (b off mod 256)) by (apply Z.mod_pos_bound; lia).
    rewrite Z.add_0_l. apply IH. lia.
Qed.

(** The little-endian bytes of what an unsigned type reads from a
    buffer are the bytes of the buffer. *)
Lemma deref_at_byte t off value i :
  is_signed t = false -> off <= i < off + sizeof t ->
  (deref_at t off value / 2 ^ (8 * (i - off))) mod 256 = value i mod 256.
Proof.
  intros Hu Hi. unfold deref_at, cast. rewrite Hu.
  pose proof (load_le_range (Z.to_nat (sizeof t)) off value) as Hr.
  rewrite Z2Nat.id in Hr by lia.
  rewrite (Z.mod_small (load_le _ _ _)) by exact Hr.
  apply load_le_byte. rewrite Z2Nat.id by lia. exact Hi.
Qed.

Lemma deref_at_range t off value :
  is_signed t = false -> 0 <= sizeof t ->
  0 <= deref_at t off value < 2 ^ (8 * sizeof t).
Proof.
  intros Hu Hs. unfold deref_at, cast. rewrite Hu.
  apply Z.mod_pos_bound. apply Z.pow_pos_nonneg; lia.
Qed.

Lemma assign_at_inside t off buf x i :
  off <= i < off + sizeof t ->
  assign_at t off buf x i = (x / 2 ^ (8 * (i - off))) mod 256.
Proof.
  intros Hi. unfold assign_at, store_le.
  replace ((off <=? i) && (i <? off + sizeof t)) with true; [reflexivity|].
  symmetry. apply andb_true_iff. split; [apply Z.leb_le | apply Z.ltb_lt]; lia.
Qed.

Lemma assign_at_outside t off buf x i :
  ~ off <= i < off + sizeof t -> assign_at t off buf x i = buf i.
Proof.
  intros Hi. unfold assign_at, store_le.
  destruct (off <=? i) eqn:H0; destruct (i <? off + sizeof t) eqn:H1;
    cbn [andb]; try reflexivity.
  apply Z.leb_le in H0. apply Z.ltb_lt in H1. lia.
Qed.

(** A byte below [n] of a value does not depend on the bits from [8 n]
    on. *)
Lemma byte_mod (x n i : Z) :
  0 <= i < n ->
  ((x mod 2 ^ (8 * n)) / 2 ^ (8 * i)) mod 256 = (x / 2 ^ (8 * i)) mod 256.
Proof.
  intros Hi.
  set (r := x mod 2 ^ (8 * n)).
  rewrite (Z.div_mod x (2 ^ (8 * n))) at 1 by (apply Z.pow_nonzero; lia).
  fold r. set (q := x / 2 ^ (8 * n)).
  replace (8 * n) with (8 * i + (8 + 8 * (n - i - 1))) by lia.
  rewrite !Z.pow_add_r by lia. change (2 ^ 8) with 256.
  set (p := 2 ^ (8 * i)). set (m := 2 ^ (8 * (n - i - 1))).
  assert (Hp : 0 < p) by (apply Z.pow_pos_nonneg; lia).
  replace (p * (256 * m) * q + r) with ((q * m * 256) * p + r) by ring.
  rewrite Z.div_add_l by lia.
  rewrite Z.add_comm, Z.mod_add by lia. reflexivity.
Qed.

Lemma load_le_store_le_outside (k : nat) : forall off off0 n x b,
  off + Z.of_nat k <= off0 \/ off0 + n <= off ->
  load_le k off (store_le n off0 x b) = load_le k off b.
Proof.
  induction k as [|k IH]; intros off off0 n x b Hd; [reflexivity|].
  cbn [load_le]. rewrite IH by lia. f_equal. f_equal.
  unfold store_le.
  destruct (off0 <=? off) eqn:H0; destruct (off <? off0 + n) eqn:H1;
    cbn [andb]; try reflexivity.
  apply Z.leb_le in H0. apply Z.ltb_lt in H1. lia.
Qed.

(** A member of a structure read after a member was assigned: the value
    assigned when it is the same member, the old value when the two do
    not overlap. *)
Lemma deref_at_assign_at t off buf x :
  is_signed t = false -> 0 < sizeof t ->
  deref_at t off (assign_at t off buf x) = x mod 2 ^ (8 * sizeof t).
Proof.
  intros Hu Hs. unfold deref_at, assign_at, cast. rewrite Hu.
  rewrite <- (Z2Nat.id (sizeof t)) at 2 by lia.
  rewrite load_le_store_le, Z2Nat.id by lia.
  now rewrite Z.mod_mod by lia.
Qed.

Lemma deref_at_assign_at_other t t' off off' buf x :
  0 <= sizeof t ->
  off + sizeof t <= off' \/ off' + sizeof t' <= off ->
  deref_at t off (assign_at t' off' buf x) = deref_at t off buf.
Proof.
  intros Hs Hd. unfold deref_at, assign_at.
  rewrite load_le_store_le_outside; [reflexivity|].
  rewrite Z2Nat.id by lia. exact Hd.
Qed.

(** A value below [2 ^ w] has no bit at or above [w]. *)
Lemma small_high_bits w x n :
  0 <= w -> 0 <= x < 2 ^ w -> w <= n -> Z.testbit x n = false.
Proof.
  intros Hw Hx Hn.
  rewrite <- (Z.mod_small x (2 ^ w)) by exact Hx.
  rewrite <- Z.land_ones by exact Hw.
  rewrite Z.land_spec, Z.testbit_ones_nonneg by lia.
  replace (n <? w) with false by (symmetry; apply Z.ltb_ge; lia).
  apply andb_false_r.
Qed.
(** ** SPARC: reading back, aliasing, reset *)

Module WindowProofs.
Import Sparc WindowSpec SparcProofs.

Lemma deref_uint32_range value : 0 <= deref uint32_t value < 2 ^ 32.
Proof.
  unfold deref, deref_at, cast; cbn [is_signed sizeof].
  apply Z.mod_pos_bound. reflexivity.
Qed.

Lemma deref_assign_uint32 buf x :
  0 <= x < 2 ^ 32 -> deref uint32_t (assign uint32_t buf x) = x.
Proof.
  intros Hx. rewrite deref_assign_unsigned by (reflexivity || (cbn; lia)).
  apply Z.mod_small. exact Hx.
Qed.

Lemma assign_outside t buf x i :
  ~ 0 <= i < sizeof t -> assign t buf x i = buf i.
Proof.
  intros Hi. unfold assign, assign_at, store_le.
  destruct (0 <=? i) eqn:H0; destruct (i <? 0 + sizeof t) eqn:H1;
    cbn [andb]; try reflexivity.
  apply Z.leb_le in H0. apply Z.ltb_lt in H1. lia.
Qed.

Section WithHeader.
Context {H : sparc_h}.

Ltac split_ranges :=
  repeat match goal with
         | |- context [in_range ?a ?b ?c] => destruct (in_range a b c) eqn:?
         | |- context [?a =? ?b] => destruct (Z.eqb_spec a b)
         end.

Lemma sparc_write_read_back env regid value size env' buf :
  reg_write env regid value size = (UC_ERR_OK, env') ->
  fst (reg_read env' regid buf size)
    = (if in_register regid then UC_ERR_ARG else UC_ERR_OK) /\
  snd (reg_read env' regid buf size)
    = assign uint32_t buf (deref uint32_t value).
Proof.
  unfold reg_write, reg_read, in_register, CHECK_REG_TYPE, regwptr_at.
  destruct size as [sz|]; [destruct (sz =? sizeof uint32_t)|];
    split_ranges; cbn [negb andb fst snd];
    intros Hw; try discriminate; injection Hw as <-;
    rewrite ?sparc_upd_same, ?(sparc_upd_other _ _ regwptr) by discriminate;
    rewrite ?sparc_upd_same; try (split; reflexivity).
  all: rewrite sparc_upd_other by discriminate; rewrite sparc_upd_same; split; reflexivity.
Qed.

Lemma in_range_bounds lo hi x : in_range lo hi x = true -> lo <= x <= hi.
Proof.
  unfold in_range. intros Hr. apply andb_true_iff in Hr as [Ha Hb].
  apply Z.leb_le in Ha. apply Z.leb_le in Hb. lia.
Qed.

Lemma regbase_neq x y : x <> y -> regbase x <> regbase y.
Proof. congruence. Qed.

Lemma gregs_neq x y : x <> y -> gregs x <> gregs y.
Proof. congruence. Qed.

(** X2: on the SPARC target distinct identifiers name distinct storage.
    When the ranges O and L of the header hold at most eight identifiers
    each, a write of one identifier (successful or not) leaves what a
    read of any other identifier returns, code and buffer, as it was:
    global, out, local and in registers and the program counter do not
    overlap. *)
Theorem sparc_write_keeps_other_registers env a b value size buf size' :
  windows_of_eight -> a <> b ->
  reg_read (snd (reg_write env a value size)) b buf size'
    = reg_read env b buf size'.
Proof.
  intros [HO HL] Hab.
  unfold reg_write, reg_read, CHECK_REG_TYPE, regwptr_at.
  destruct size as [sz|]; [destruct (sz =? sizeof uint32_t)|];
    destruct size' as [sz'|]; try destruct (sz' =? sizeof uint32_t);
    split_ranges; cbn [fst snd]; try reflexivity; try congruence;
    repeat match goal with
           | Hr : in_range _ _ _ = true |- _ => apply in_range_bounds in Hr
           end;
    rewrite ?(sparc_upd_other _ _ regwptr) by discriminate;
    repeat (rewrite sparc_upd_other
              by first [discriminate | apply regbase_neq; lia | apply gregs_neq; lia]);
    reflexivity.
Qed.

Lemma sparc_reset_read (uc : uc_struct CPUSPARCState) regid buf size :
  let r := reg_read (env_ptr (sparc_reg_reset uc)) regid buf size in
  (fst r = UC_ERR_OK \/ in_register regid = true ->
   snd r = assign uint32_t buf 0) /\
  (fst r <> UC_ERR_OK -> in_register regid = false -> snd r = buf).
Proof.
  unfold reg_read, in_register, CHECK_REG_TYPE, regwptr_at.
  destruct size as [sz|]; [destruct (sz =? sizeof uint32_t)|];
    split_ranges; cbn [negb andb fst snd]; split; intros; try reflexivity;
    try congruence; intuition congruence.
Qed.

Lemma sparc_reg_read_code env regid value size :
  fst (reg_read env regid value size) = UC_ERR_OK \/
  fst (reg_read env regid value size) = UC_ERR_ARG.
Proof.
  unfold reg_read, CHECK_REG_TYPE.
  destruct size as [sz|]; [destruct (sz =? sizeof uint32_t)|];
    split_ranges; cbn [fst]; auto.
Qed.

Lemma sparc_reg_read_in_register_code env regid value size :
  in_register regid = true ->
  fst (reg_read env regid value size) = UC_ERR_ARG.
Proof.
  unfold reg_read, in_register.
  split_ranges; cbn [negb andb fst]; intros; congruence.
Qed.

Lemma reg_read_pc env buf size :
  AccessSpec.pc_outside_ranges ->
  size = None \/ size = Some 4 ->
  reg_read env UC_SPARC_REG_PC buf size
    = (UC_ERR_OK, assign uint32_t buf (env pc)).
Proof.
  intros (HG & HO & HL & HI) Hsz. unfold reg_read.
  rewrite HG, HO, HL, HI, Z.eqb_refl.
  now rewrite CHECK_REG_TYPE_pass.
Qed.
End WithHeader.

(** X1: on the SPARC target a register that [reg_write] has written
    reads back through [reg_read] with the same identifier and declared
    size: the caller's buffer receives the 32-bit value that was written
    and nothing past its four bytes changes.  The read reports success,
    except for the identifiers of the branch I0..I7, for which it reports
    [UC_ERR_ARG] although it has delivered the value. *)
Theorem sparc_write_then_read {H : sparc_h} env regid value size env' buf :
  reg_write env regid value size = (UC_ERR_OK, env') ->
  let r := reg_read env' regid buf size in
  fst r = (if in_register regid then UC_ERR_ARG else UC_ERR_OK) /\
  deref uint32_t (snd r) = deref uint32_t value /\
  (forall i, ~ 0 <= i < 4 -> snd r i = buf i).
Proof.
  intros Hw r. subst r.
  destruct (sparc_write_read_back env regid value size env' buf Hw) as [Hret Hval].
  split; [exact Hret|]. rewrite Hval. split.
  - apply deref_assign_uint32, deref_uint32_range.
  - intros i Hi. apply assign_outside. exact Hi.
Qed.

Lemma sparc_write_then_read_witness :
  let env' := snd (@reg_write sparc_header env_shifted 78
                     (bytes_of 0xcafe0001) (Some 4)) in
  @reg_write sparc_header env_shifted 78 (bytes_of 0xcafe0001) (Some 4)
    = (UC_ERR_OK, env') /\
  fst (@reg_read sparc_header env' 78 zero_buffer (Some 4)) = UC_ERR_OK /\
  deref uint32_t (snd (@reg_read sparc_header env' 78 zero_buffer (Some 4)))
    = deref uint32_t (bytes_of 0xcafe0001).
Proof.
  split; [reflexivity|].
  destruct (@sparc_write_then_read sparc_header env_shifted 78
              (bytes_of 0xcafe0001) (Some 4) _ zero_buffer eq_refl)
    as (Hret & Hval & _).
  split; [exact Hret | exact Hval].
Defined.

Lemma sparc_header_windows_of_eight : @windows_of_eight sparc_header.
Proof. split; cbn; lia. Qed.

Lemma sparc_write_keeps_other_registers_witness :
  @windows_of_eight sparc_header /\ 78 <> 70 /\
  @reg_read sparc_header
    (snd (@reg_write sparc_header env_shifted 78 (bytes_of 1) (Some 4)))
    70 zero_buffer (Some 4)
  = @reg_read sparc_header env_shifted 70 zero_buffer (Some 4).
Proof.
  assert (Hne : 78 <> 70) by discriminate.
  split; [exact sparc_header_windows_of_eight|]. split; [exact Hne|].
  exact (@sparc_write_keeps_other_registers sparc_header env_shifted 78 70
           (bytes_of 1) (Some 4) zero_buffer (Some 4)
           sparc_header_windows_of_eight Hne).
Defined.

(** X3: after [sparc_reg_reset] every register the accessor reads is
    zero: a read that succeeds, and a read of an in register, leaves the
    32-bit value 0 in the caller's buffer; any other read leaves the
    buffer as it was.  The program counter [sparc_get_pc] returns is 0
    and the register window is back at the start of the register file. *)
Theorem sparc_reset_then_read {H : sparc_h} uc regid buf size :
  let uc' := sparc_reg_reset uc in
  let r := reg_read (env_ptr uc') regid buf size in
  (fst r = UC_ERR_OK \/ in_register regid = true ->
   snd r = assign uint32_t buf 0) /\
  (fst r <> UC_ERR_OK -> in_register regid = false -> snd r = buf) /\
  sparc_get_pc uc' = 0 /\ env_ptr uc' regwptr = 0.
Proof.
  intros uc' r. subst uc' r.
  destruct (sparc_reset_read uc regid buf size) as [Hz Hb].
  split; [exact Hz|]. split; [exact Hb|]. split; reflexivity.
Qed.

(** X4: the SPARC program counter seen through its three accesses.  With
    [UC_SPARC_REG_PC] outside the four register ranges, [sparc_get_pc]
    after [sparc_set_pc] returns the address truncated to 32 bits, a read
    of [UC_SPARC_REG_PC] after [sparc_set_pc] delivers the same 32-bit
    value, and [sparc_get_pc] after a write of [UC_SPARC_REG_PC] returns
    the value written. *)
Theorem sparc_pc_set_get_read {H : sparc_h} uc address buf size :
  AccessSpec.pc_outside_ranges ->
  size = None \/ size = Some 4 ->
  let uc' := sparc_set_pc uc address in
  sparc_get_pc uc' = address mod 2 ^ 32 /\
  reg_read (env_ptr uc') UC_SPARC_REG_PC buf size
    = (UC_ERR_OK, assign uint32_t buf (address mod 2 ^ 32)) /\
  (forall value,
      sparc_get_pc
        (set_env uc (snd (reg_write (env_ptr uc) UC_SPARC_REG_PC value size)))
      = deref uint32_t value).
Proof.
  intros Hpc Hsz uc'. subst uc'.
  assert (Hset : env_ptr (sparc_set_pc uc address) pc = address mod 2 ^ 32).
  { unfold sparc_set_pc, set_env; cbn [env_ptr].
    rewrite sparc_upd_other, sparc_upd_same by discriminate. reflexivity. }
  assert (Hsmall : forall x, 0 <= x < 2 ^ 32 -> cast uint64_t x = x).
  { intros x Hx. unfold cast; cbn [is_signed sizeof]. apply Z.mod_small.
    change (2 ^ (8 * 8)) with (2 ^ 64). change (2 ^ 32) with 4294967296 in Hx.
    change (2 ^ 64) with 18446744073709551616. lia. }
  split; [|split].
  - unfold sparc_get_pc. rewrite Hset. apply Hsmall.
    apply Z.mod_pos_bound. reflexivity.
  - rewrite reg_read_pc by assumption. now rewrite Hset.
  - intros value. rewrite reg_write_pc by assumption.
    unfold sparc_get_pc, set_env; cbn [env_ptr snd].
    rewrite sparc_upd_other, sparc_upd_same by discriminate.
    apply Hsmall, deref_uint32_range.
Qed.

Lemma sparc_pc_set_get_read_witness :
  @AccessSpec.pc_outside_ranges sparc_header /\
  (Some 4 = None \/ Some 4 = Some 4) /\
  @sparc_get_pc (sparc_set_pc RequestSpec.sparc_uc0 0x100004000) = 0x4000.
Proof.
  assert (Hsz : Some 4 = None \/ Some 4 = Some 4) by (right; reflexivity).
  split; [exact NextPcProofs.sparc_header_pc_outside_ranges|].
  split; [exact Hsz|].
  exact (proj1 (@sparc_pc_set_get_read sparc_header RequestSpec.sparc_uc0
                  0x100004000 zero_buffer (Some 4)
                  NextPcProofs.sparc_header_pc_outside_ranges Hsz)).
Defined.

End WindowProofs.

(** ** Batches of reads *)

Module ReadBatchProofs.
Import ReadBatchSpec RequestSpec.

Lemma passed_elements {R : Type} (regs : list R) : forall vals sizes,
  map passed (elements regs vals sizes) ++ skipn (length regs) vals = vals.
Proof.
  induction regs as [|regid regs IH]; intros vals sizes; [reflexivity|].
  destruct vals as [|value vals]; [reflexivity|].
  cbn [elements map length skipn passed fst snd app]. f_equal. apply IH.
Qed.

(** Every list of elements is read as a whole or has a first element
    whose read fails. *)
Lemma reads_or_first_failure {S E : Type}
    (read : S -> E -> uc_err * buffer * S) :
  forall l s,
    (exists outs s', reads read s l outs s') \/
    (exists pre x post outs s_j,
        l = pre ++ x :: post /\ reads read s pre outs s_j /\
        fst (fst (read s_j x)) <> UC_ERR_OK).
Proof.
  induction l as [|x l IH]; intros s.
  - left. exists [], s. constructor.
  - destruct (read s x) as [[e v] s1] eqn:Hx.
    destruct e;
      try (right; exists [], x, l, [], s;
           repeat split; [constructor | rewrite Hx; discriminate]).
    destruct (IH s1) as [(outs & s' & Hall) | (pre & y & post & outs & s_j & -> & Hpre & Hy)].
    + left. exists (v :: outs), s'. econstructor; eassumption.
    + right. exists (x :: pre), y, post, (v :: outs), s_j.
      repeat split; [econstructor; eassumption | assumption].
Qed.

Section X86Reads.
Context {H : X86.cpu_h}.
Import X86.

Lemma x86_read_all mode regs : forall vals sizes env outs env',
  reads (x86_read mode) env (elements regs vals sizes) outs env' ->
  reg_read_batch env regs vals sizes mode
    = (UC_ERR_OK, outs ++ skipn (length regs) vals, env').
Proof.
  induction regs as [|regid regs IH]; intros vals sizes env outs env' Hr.
  - cbn in Hr. inversion Hr; subst. reflexivity.
  - destruct vals as [|value vals]; cbn in Hr.
    + inversion Hr; subst. reflexivity.
    + inversion Hr as [|? ? ? v s1 outs' ? Hx Hrest]; subst.
      unfold x86_read in Hx. cbn [reg_read_batch].
      injection Hx as Hret Hv Henv. rewrite Hret. cbn [is_err].
      rewrite Henv, (IH _ _ _ _ _ Hrest), Hv. reflexivity.
Qed.

Lemma x86_read_first_failure mode regs :
  forall vals sizes env pre x post outs env_j e,
  elements regs vals sizes = pre ++ x :: post ->
  reads (x86_read mode) env pre outs env_j ->
  fst (fst (x86_read mode env_j x)) = e ->
  e <> UC_ERR_OK ->
  reg_read_batch env regs vals sizes mode
    = (e, outs ++ map passed (x :: post) ++ skipn (length regs) vals, env_j).
Proof.
  induction regs as [|regid regs IH];
    intros vals sizes env pre x post outs env_j e Hel Hpre Hx He.
  - cbn in Hel. destruct pre; discriminate.
  - destruct vals as [|value vals]; cbn in Hel; [destruct pre; discriminate|].
    destruct pre as [|y pre]; cbn in Hel; inversion Hel; subst; clear Hel.
    + inversion Hpre; subst. cbn [reg_read_batch].
      unfold x86_read in He |- *; cbn [fst snd] in He |- *.
      rewrite (BatchProofs.is_err_true _ He).
      destruct (SizeCheckProofs.x86_reg_read_error_no_copy env_j regid value
                  (size_ptr sizes) mode He) as [-> ->].
      cbn [app skipn length map passed fst snd]. now rewrite passed_elements.
    + inversion Hpre as [|? ? ? v0 s1 outs' ? Hy Hrest]; subst.
      unfold x86_read in Hy. cbn [reg_read_batch].
      injection Hy as Hret Hv Henv. rewrite Hret. cbn [is_err].
      rewrite Henv, (IH _ _ _ _ _ _ _ _ _ H2 Hrest eq_refl He), Hv. reflexivity.
Qed.
End X86Reads.

Section SparcReads.
Context {H : Sparc.sparc_h}.
Import Sparc.

Lemma sparc_read_loops_agree regs : forall vals sizes env,
  sparc_context_reg_read_loop env regs vals sizes
    = sparc_reg_read_loop env regs vals sizes.
Proof.
  induction regs as [|regid regs IH]; intros vals sizes env; [reflexivity|].
  destruct vals as [|value vals]; [reflexivity|].
  cbn [sparc_context_reg_read_loop sparc_reg_read_loop].
  destruct (reg_read env regid value (size_ptr sizes)) as [err v].
  now rewrite IH.
Qed.

Lemma sparc_reads_env env l outs env' :
  reads sparc_read env l outs env' -> env' = env.
Proof.
  induction 1 as [|s x l v s1 outs s' Hx _ IH]; [reflexivity|].
  destruct x as [[regid value] size]. unfold sparc_read in Hx.
  destruct (reg_read s regid value size). injection Hx as _ _ <-. exact IH.
Qed.

Lemma sparc_read_all regs : forall vals sizes env outs env',
  reads sparc_read env (elements regs vals sizes) outs env' ->
  sparc_reg_read_loop env regs vals sizes
    = (UC_ERR_OK, outs ++ skipn (length regs) vals).
Proof.
  induction regs as [|regid regs IH]; intros vals sizes env outs env' Hr.
  - cbn in Hr. inversion Hr; subst. reflexivity.
  - destruct vals as [|value vals]; cbn in Hr.
    + inversion Hr; subst. reflexivity.
    + inversion Hr as [|? ? ? v s1 outs' ? Hx Hrest]; subst.
      unfold sparc_read in Hx. cbn [sparc_reg_read_loop].
      destruct (reg_read env regid value (size_ptr sizes)) as [err v'].
      injection Hx as -> -> <-. cbn [is_err].
      rewrite (IH _ _ _ _ _ Hrest). reflexivity.
Qed.

Lemma sparc_read_first_failure regs :
  forall vals sizes env pre x post outs env_j e v env_e,
  elements regs vals sizes = pre ++ x :: post ->
  reads sparc_read env pre outs env_j ->
  sparc_read env_j x = (e, v, env_e) ->
  e <> UC_ERR_OK ->
  sparc_reg_read_loop env regs vals sizes
    = (e, outs ++ v :: map passed post ++ skipn (length regs) vals).
Proof.
  induction regs as [|regid regs IH];
    intros vals sizes env pre x post outs env_j e v env_e Hel Hpre Hx He.
  - cbn in Hel. destruct pre; discriminate.
  - destruct vals as [|value vals]; cbn in Hel; [destruct pre; discriminate|].
    destruct pre as [|y pre]; cbn in Hel; inversion Hel; subst; clear Hel.
    + inversion Hpre; subst. cbn [sparc_reg_read_loop].
      unfold sparc_read in Hx.
      destruct (reg_read env_j regid value (size_ptr sizes)) as [err v'].
      injection Hx as -> -> _. rewrite (BatchProofs.is_err_true _ He).
      cbn [app skipn length]. now rewrite passed_elements.
    + inversion Hpre as [|? ? ? v0 s1 outs' ? Hy Hrest]; subst.
      unfold sparc_read in Hy. cbn [sparc_reg_read_loop].
      destruct (reg_read env regid value (size_ptr sizes)) as [err v'].
      injection Hy as -> -> <-. cbn [is_err].
      rewrite (IH _ _ _ _ _ _ _ _ _ _ _ H2 Hrest Hx He). reflexivity.
Qed.

Lemma sparc_read_in_register regs : forall vals sizes env regid,
  In regid (ids regs vals) -> WindowSpec.in_register regid = true ->
  fst (sparc_reg_read_loop env regs vals sizes) = UC_ERR_ARG.
Proof.
  unfold ids.
  induction regs as [|r regs IH]; intros vals sizes env regid Hin Hreg.
  - destruct Hin.
  - destruct vals as [|value vals]; [destruct Hin|].
    cbn [elements map fst In sizes_next] in Hin. cbn [sparc_reg_read_loop].
    pose proof (WindowProofs.sparc_reg_read_code env r value (size_ptr sizes)) as Hcode.
    pose proof (WindowProofs.sparc_reg_read_in_register_code env r value
                  (size_ptr sizes)) as Hi.
    destruct (reg_read env r value (size_ptr sizes)) as [err v].
    cbn [fst] in Hcode, Hi.
    destruct Hcode as [-> | ->]; cbn [is_err]; [|reflexivity].
    destruct Hin as [<- | Hin]; [specialize (Hi Hreg); discriminate|].
    specialize (IH vals (sizes_next sizes) env regid Hin Hreg).
    destruct (sparc_reg_read_loop env regs vals (sizes_next sizes)).
    exact IH.
Qed.
End SparcReads.

(** X5: [sparc_reg_read] and [sparc_context_reg_read] read the elements
    of a batch in order and stop at the first read that fails.  They
    return its error; the buffers of the elements before it hold what
    their reads delivered, the buffer of the failing element is as its
    read left it, and the buffers after it are untouched.  When every
    read succeeds the call returns success with every buffer filled.  One
    of the two cases always applies, and the call on a context gives the
    result of the call on a CPU in the same state. *)
Theorem sparc_batch_read_first_failure {H : Sparc.sparc_h}
    (uc : uc_struct Sparc.CPUSPARCState) regs vals sizes :
  (forall pre x post outs env_j e v env_e,
      elements regs vals sizes = pre ++ x :: post ->
      reads sparc_read (env_ptr uc) pre outs env_j ->
      sparc_read env_j x = (e, v, env_e) ->
      e <> UC_ERR_OK ->
      Sparc.sparc_reg_read uc regs vals sizes
        = (e, outs ++ v :: map passed post ++ skipn (length regs) vals)) /\
  (forall outs env',
      reads sparc_read (env_ptr uc) (elements regs vals sizes) outs env' ->
      Sparc.sparc_reg_read uc regs vals sizes
        = (UC_ERR_OK, outs ++ skipn (length regs) vals)) /\
  ((exists outs env',
       reads sparc_read (env_ptr uc) (elements regs vals sizes) outs env') \/
   (exists pre x post outs env_j,
       elements regs vals sizes = pre ++ x :: post /\
       reads sparc_read (env_ptr uc) pre outs env_j /\
       fst (fst (sparc_read env_j x)) <> UC_ERR_OK)) /\
  (forall ctx : uc_context Sparc.CPUSPARCState,
      data ctx = env_ptr uc ->
      Sparc.sparc_context_reg_read ctx regs vals sizes
        = Sparc.sparc_reg_read uc regs vals sizes).
Proof.
  unfold Sparc.sparc_reg_read, Sparc.sparc_context_reg_read.
  split; [|split; [|split]].
  - intros. eapply sparc_read_first_failure; eauto.
  - intros. eapply sparc_read_all; eauto.
  - apply reads_or_first_failure.
  - intros ctx ->. apply sparc_read_loops_agree.
Qed.

(** X6: a batch read of the SPARC target never succeeds when one of its
    elements names an in register (an identifier of the branch I0..I7):
    the read of that element reports [UC_ERR_ARG] whatever the declared
    size, and every other failure is [UC_ERR_ARG] too. *)
Theorem sparc_batch_read_in_register {H : Sparc.sparc_h}
    (uc : uc_struct Sparc.CPUSPARCState) regs vals sizes regid :
  In regid (ids regs vals) -> WindowSpec.in_register regid = true ->
  fst (Sparc.sparc_reg_read uc regs vals sizes) = UC_ERR_ARG.
Proof. intros Hin Hreg. now apply sparc_read_in_register with regid. Qed.

Lemma sparc_batch_read_in_register_witness :
  In 61 (ids [53; 61; 88] [zero_buffer; zero_buffer; zero_buffer]) /\
  @WindowSpec.in_register Sparc.sparc_header 61 = true /\
  fst (@Sparc.sparc_reg_read Sparc.sparc_header sparc_uc0 [53; 61; 88]
         [zero_buffer; zero_buffer; zero_buffer] (Some [4; 4; 4]))
    = UC_ERR_ARG.
Proof.
  assert (Hin : In 61 (ids [53; 61; 88] [zero_buffer; zero_buffer; zero_buffer]))
    by (right; left; reflexivity).
  split; [exact Hin|]. split; [reflexivity|].
  exact (@sparc_batch_read_in_register Sparc.sparc_header sparc_uc0 [53; 61; 88]
           [zero_buffer; zero_buffer; zero_buffer] (Some [4; 4; 4]) 61 Hin eq_refl).
Defined.

(** X7: [reg_read_batch] of the x86 target, and with it [x86_reg_read]
    and [x86_context_reg_read], reads the elements of a batch in order
    and stops at the first read that fails.  It returns its error; the
    buffers of the elements before it hold what their reads delivered;
    the buffer of the failing element and the buffers after it are
    untouched, and the state is the one the reads before it left.  When
    every read succeeds the call returns success with every buffer
    filled.  One of the two cases always applies.  The call on a context
    returns the code and the buffers of the call on a CPU in the same
    state and mode. *)
Theorem x86_batch_read_first_failure {H : X86.cpu_h} m env regs vals sizes :
  (forall pre x post outs env_j e,
      elements regs vals sizes = pre ++ x :: post ->
      reads (x86_read m) env pre outs env_j ->
      fst (fst (x86_read m env_j x)) = e ->
      e <> UC_ERR_OK ->
      X86.reg_read_batch env regs vals sizes m
        = (e, outs ++ map passed (x :: post) ++ skipn (length regs) vals, env_j)) /\
  (forall outs env',
      reads (x86_read m) env (elements regs vals sizes) outs env' ->
      X86.reg_read_batch env regs vals sizes m
        = (UC_ERR_OK, outs ++ skipn (length regs) vals, env')) /\
  ((exists outs env',
       reads (x86_read m) env (elements regs vals sizes) outs env') \/
   (exists pre x post outs env_j,
       elements regs vals sizes = pre ++ x :: post /\
       reads (x86_read m) env pre outs env_j /\
       fst (fst (x86_read m env_j x)) <> UC_ERR_OK)) /\
  (forall (uc : uc_struct X86.CPUX86State) (ctx : uc_context X86.CPUX86State),
      env_ptr uc = env -> data ctx = env ->
      mode uc = m -> ctx_mode ctx = m ->
      fst (X86.x86_reg_read uc regs vals sizes)
        = fst (X86.x86_context_reg_read ctx regs vals sizes) /\
      fst (X86.x86_reg_read uc regs vals sizes)
        = (fst (fst (X86.reg_read_batch env regs vals sizes m)),
           snd (fst (X86.reg_read_batch env regs vals sizes m))) /\
      quit_request (snd (X86.x86_reg_read uc regs vals sizes)) = quit_request uc /\
      tb_exit_requests (snd (X86.x86_reg_read uc regs vals sizes))
        = tb_exit_requests uc).
Proof.
  split; [|split; [|split]].
  - intros. eapply x86_read_first_failure; eauto.
  - intros. eapply x86_read_all; eauto.
  - apply reads_or_first_failure.
  - intros uc ctx Hu Hc Hmu Hmc.
    unfold X86.x86_reg_read, X86.x86_context_reg_read. cbv zeta.
    rewrite Hu, Hc, Hmu, Hmc.
    destruct (X86.reg_read_batch env regs vals sizes m) as [[err vs] env1].
    repeat split.
Qed.

End ReadBatchProofs.

(** ** Requests of a failing write call *)

Module FailingWriteProofs.
Import BatchSpec RequestSpec.

Section X86Failing.
Context {H : X86.cpu_h}.
Import X86.

Lemma applied_setpc mode pre : forall s s_j,
  applied (x86_step mode) s pre s_j ->
  snd s_j = if existsb is_pc_reg (map (fun x => fst (fst x)) pre)
            then 1 else snd s.
Proof.
  induction pre as [|x pre IH]; intros s s_j Happ.
  - inversion Happ; subst. reflexivity.
  - inversion Happ as [|? ? ? s1 ? Hstep Hrest]; subst.
    destruct x as [[regid value] size].
    unfold x86_step in Hstep. injection Hstep as Hret Hs1.
    pose proof (RequestProofs.reg_write_setpc (fst s) regid value size mode (snd s)
                  Hret) as Hpc.
    rewrite (IH _ _ Hrest). subst s1. cbn [snd map existsb fst].
    rewrite Hpc. destruct (is_pc_reg regid); cbn [orb]; [|reflexivity].
    now destruct (existsb is_pc_reg _).
Qed.

Lemma x86_failing_write (uc : uc_struct CPUX86State) regs vals sizes
    pre x post s_j e :
  elements regs vals sizes = pre ++ x :: post ->
  applied (x86_step (mode uc)) (env_ptr uc, 0) pre s_j ->
  fst (x86_step (mode uc) s_j x) = e ->
  e <> UC_ERR_OK ->
  x86_reg_write uc regs vals sizes = (e, set_env uc (fst s_j)).
Proof.
  intros Hel Hpre Hx He. unfold x86_reg_write. cbv zeta.
  rewrite (BatchProofs.x86_batch_first_failure _ _ _ _ _ _ _ _ _ _ _
             Hel Hpre Hx He).
  cbn [wr_ret wr_env]. now rewrite (BatchProofs.is_err_true _ He).
Qed.
End X86Failing.

Section SparcFailing.
Context {H : Sparc.sparc_h}.
Import Sparc.

Lemma applied_requests pre : forall uc uc_j,
  applied sparc_step uc pre uc_j ->
  tb_exit_requests uc_j =
    (tb_exit_requests uc
     + sparc_pc_elements (map (fun x => fst (fst x)) pre))%nat /\
  (quit_request uc_j =
     if (0 <? sparc_pc_elements (map (fun x => fst (fst x)) pre))%nat
     then true else quit_request uc).
Proof.
  unfold sparc_pc_elements.
  induction pre as [|x pre IH]; intros uc uc_j Happ.
  - inversion Happ; subst. cbn. split; [lia | reflexivity].
  - inversion Happ as [|? ? ? s1 ? Hstep Hrest]; subst.
    destruct x as [[regid value] size].
    cbv [sparc_step] in Hstep.
    destruct (reg_write (env_ptr uc) regid value size) as [err env].
    destruct err; cbn [is_err] in Hstep; try discriminate.
    injection Hstep as <-.
    destruct (IH _ _ Hrest) as [Ht Hq]. rewrite Ht, Hq.
    cbn [map fst count_occ].
    destruct (Z.eqb_spec regid UC_SPARC_REG_PC) as [-> | Hne].
    + destruct (Z.eq_dec UC_SPARC_REG_PC UC_SPARC_REG_PC); [|contradiction].
      cbn. split; [lia|].
      now destruct (count_occ Z.eq_dec _ _).
    + destruct (Z.eq_dec regid UC_SPARC_REG_PC); [contradiction|].
      cbn. split; [lia | reflexivity].
Qed.
End SparcFailing.

(** X8: a failing [sparc_reg_write] has raised the requests of the
    elements before the failure.  When the first failing element comes
    after the prefix [pre], the call returns its error and leaves the
    handle as the elements of [pre] left it: the number of requests to
    abandon the current translated unit has grown by the number of
    elements of [pre] that name the program counter, and [quit_request]
    is set as soon as there is one. *)
Theorem sparc_failing_write_requests {H : Sparc.sparc_h}
    (uc : uc_struct Sparc.CPUSPARCState) regs vals sizes pre x post uc_j e :
  elements regs vals sizes = pre ++ x :: post ->
  applied sparc_step uc pre uc_j ->
  fst (sparc_step uc_j x) = e ->
  e <> UC_ERR_OK ->
  Sparc.sparc_reg_write uc regs vals sizes = (e, uc_j) /\
  tb_exit_requests uc_j =
    (tb_exit_requests uc
     + sparc_pc_elements (map (fun x => fst (fst x)) pre))%nat /\
  quit_request uc_j =
    (if (0 <? sparc_pc_elements (map (fun x => fst (fst x)) pre))%nat
     then true else quit_request uc).
Proof.
  intros Hel Hpre Hx He. split.
  - eapply BatchProofs.sparc_batch_first_failure; eauto.
  - now apply applied_requests.
Qed.

Lemma sparc_failing_write_requests_witness :
  let uc_j := mk_uc (Sparc.upd (Sparc.upd (fun _ => 0) Sparc.pc 8) Sparc.npc 12)
                UC_MODE_32 true 1 in
  @Sparc.sparc_reg_write Sparc.sparc_header sparc_uc0
    [88; 53] [bytes_of 8; bytes_of 1] (Some [4; 2]) = (UC_ERR_ARG, uc_j) /\
  tb_exit_requests uc_j = 1%nat /\ quit_request uc_j = true.
Proof.
  intros uc_j.
  assert (Hpre : applied (@sparc_step Sparc.sparc_header) sparc_uc0
                   [(88, bytes_of 8, Some 4)] uc_j)
    by (eapply applied_cons; [reflexivity | apply applied_nil]).
  assert (Hne : UC_ERR_ARG <> UC_ERR_OK) by discriminate.
  exact (@sparc_failing_write_requests Sparc.sparc_header sparc_uc0
           [88; 53] [bytes_of 8; bytes_of 1] (Some [4; 2])
           [(88, bytes_of 8, Some 4)] (53, bytes_of 1, Some 2) [] uc_j
           UC_ERR_ARG eq_refl Hpre eq_refl Hne).
Defined.

(** X9: a failing [x86_reg_write] raises no request, also when elements
    before the failure have written the program counter.  When the first
    failing element comes after the prefix [pre], the call returns its
    error, the registers are as the elements of [pre] left them, and
    [quit_request] and the number of requests are as before the call,
    although [*setpc] is 1 when [pre] names RIP, EIP or IP. *)
Theorem x86_failing_write_raises_no_request {H : X86.cpu_h}
    (uc : uc_struct X86.CPUX86State) regs vals sizes pre x post s_j e :
  elements regs vals sizes = pre ++ x :: post ->
  applied (x86_step (mode uc)) (env_ptr uc, 0) pre s_j ->
  fst (x86_step (mode uc) s_j x) = e ->
  e <> UC_ERR_OK ->
  let r := X86.x86_reg_write uc regs vals sizes in
  fst r = e /\ env_ptr (snd r) = fst s_j /\
  quit_request (snd r) = quit_request uc /\
  tb_exit_requests (snd r) = tb_exit_requests uc /\
  snd s_j = (if existsb is_pc_reg (map (fun x => fst (fst x)) pre)
             then 1 else 0).
Proof.
  intros Hel Hpre Hx He r. subst r.
  rewrite (x86_failing_write uc regs vals sizes pre x post s_j e Hel Hpre Hx He).
  cbn [fst snd set_env env_ptr quit_request tb_exit_requests].
  repeat (split; [reflexivity|]).
  exact (applied_setpc (mode uc) pre (env_ptr uc, 0) s_j Hpre).
Qed.

Lemma x86_failing_write_raises_no_request_witness :
  let r := @X86.x86_reg_write X86.sample_cpu_h x86_uc0
             [X86.UC_X86_REG_EIP; X86.UC_X86_REG_other 0]
             [bytes_of 0x1000; bytes_of 2] (Some [4; 4]) in
  fst r = UC_ERR_ARG /\
  env_ptr (snd r) = X86.upd X86.env0 X86.eip 0x1000 /\
  quit_request (snd r) = false /\
  tb_exit_requests (snd r) = 0%nat.
Proof.
  intros r.
  assert (Hpre : applied (@x86_step X86.sample_cpu_h (mode x86_uc0))
                   (env_ptr x86_uc0, 0)
                   [(X86.UC_X86_REG_EIP, bytes_of 0x1000, Some 4)]
                   (X86.upd X86.env0 X86.eip 0x1000, 1))
    by (eapply applied_cons; [reflexivity | apply applied_nil]).
  assert (Hne : UC_ERR_ARG <> UC_ERR_OK) by discriminate.
  destruct (@x86_failing_write_raises_no_request X86.sample_cpu_h x86_uc0
              [X86.UC_X86_REG_EIP; X86.UC_X86_REG_other 0]
              [bytes_of 0x1000; bytes_of 2] (Some [4; 4])
              [(X86.UC_X86_REG_EIP, bytes_of 0x1000, Some 4)]
              (X86.UC_X86_REG_other 0, bytes_of 2, Some 4) []
              (X86.upd X86.env0 X86.eip 0x1000, 1) UC_ERR_ARG eq_refl
              Hpre eq_refl Hne)
    as (Hret & Henv & Hq & Ht & _).
  repeat split; assumption.
Defined.

End FailingWriteProofs.

(** ** Reads: no effect on the state, views of the general registers *)

Module ReadProofs.
Import X86 SubRegisterSpec X86Proofs.

Lemma deref_assign_same_size t t' buf x :
  is_signed t = false -> sizeof t' = sizeof t -> 0 < sizeof t ->
  deref t (assign t' buf x) = x mod 2 ^ (8 * sizeof t).
Proof.
  intros Hu Hsz Hpos.
  rewrite <- (deref_assign_unsigned t buf x Hu Hpos).
  unfold assign, assign_at. now rewrite Hsz.
Qed.

(** The bits the four read macros return. *)
Lemma READ_BYTE_L_view x :
  READ_BYTE_L x mod 2 ^ 8 = Z.land (Z.shiftr x 0) (Z.ones 8).
Proof.
  unfold READ_BYTE_L. rewrite <- Z.land_ones by lia. rewrite Z.shiftr_0_r.
  change 0xff with (Z.ones 8). now rewrite <- Z.land_assoc, Z.land_diag.
Qed.

Lemma READ_WORD_view x :
  READ_WORD x mod 2 ^ 16 = Z.land (Z.shiftr x 0) (Z.ones 16).
Proof.
  unfold READ_WORD. rewrite <- Z.land_ones by lia. rewrite Z.shiftr_0_r.
  change 0xffff with (Z.ones 16). now rewrite <- Z.land_assoc, Z.land_diag.
Qed.

Lemma READ_DWORD_view x :
  READ_DWORD x mod 2 ^ 32 = Z.land (Z.shiftr x 0) (Z.ones 32).
Proof.
  unfold READ_DWORD. rewrite <- Z.land_ones by lia. rewrite Z.shiftr_0_r.
  change 0xffffffff with (Z.ones 32). now rewrite <- Z.land_assoc, Z.land_diag.
Qed.

Lemma READ_BYTE_H_view x :
  READ_BYTE_H x mod 2 ^ 8 = Z.land (Z.shiftr x 8) (Z.ones 8).
Proof.
  unfold READ_BYTE_H. rewrite <- Z.land_ones by lia.
  change 0xffff with (Z.ones 16).
  apply Z.bits_inj'. intros n Hn.
  rewrite !Z.land_spec, !Z.shiftr_spec, Z.land_spec by lia.
  rewrite !Z.testbit_ones_nonneg by lia.
  destruct (Z.ltb_spec n 8), (Z.ltb_spec (n + 8) 16); try lia;
    now rewrite ?andb_true_r, ?andb_false_r.
Qed.

Section WithHelpers.
Context {H : cpu_h}.

Lemma rchk_pass env value size t v :
  size = None \/ size = Some (sizeof t) ->
  rchk env value size t v = Rd UC_ERR_OK v env.
Proof. intros Hsz. unfold rchk. now rewrite CHECK_REG_TYPE_pass. Qed.

Lemma rchk_env env value size t v : rd_env (rchk env value size t v) = env.
Proof.
  unfold rchk.
  destruct (CHECK_REG_TYPE_bail size t (Rd UC_ERR_ARG value env)
              (fun ret => Rd ret v env)) as [-> | ->]; reflexivity.
Qed.

Lemma reg_read_mode_32_env env regid value size :
  regid <> UC_X86_REG_MSR ->
  rd_env (reg_read_mode_32 env regid value size) = env.
Proof.
  unfold reg_read_mode_32; destruct regid; intros Hne;
    first [apply rchk_env | reflexivity | congruence].
Qed.

Lemma reg_read_mode_64_env env regid value size :
  regid <> UC_X86_REG_MSR ->
  rd_env (reg_read_mode_64 env regid value size) = env.
Proof.
  unfold reg_read_mode_64; destruct regid; intros Hne;
    first [apply rchk_env | reflexivity | congruence].
Qed.

Lemma reg_read_mode_16_env env regid value size :
  regid <> UC_X86_REG_MSR ->
  rd_env (reg_read_mode_16 env regid value size) = env.
Proof.
  intros Hne. pose proof (reg_read_mode_32_env env regid value size Hne) as H32.
  revert H32. unfold reg_read_mode_16; destruct regid; intros H32;
    first [apply rchk_env | exact H32].
Qed.

Lemma reg_read_env env regid value size mode :
  regid <> UC_X86_REG_MSR ->
  rd_env (reg_read env regid value size mode) = env.
Proof.
  intros Hne.
  pose proof (reg_read_mode_16_env env regid value size Hne) as H16.
  pose proof (reg_read_mode_32_env env regid value size Hne) as H32.
  pose proof (reg_read_mode_64_env env regid value size Hne) as H64.
  revert H16 H32 H64.
  unfold reg_read; destruct regid; intros H16 H32 H64;
    first [apply rchk_env | destruct mode; first [assumption | reflexivity]].
Qed.

Lemma view_read mode regid slot v env buf size :
  sub_register mode regid = Some (slot, v) ->
  size = None \/ size = Some (sizeof (view_type v)) ->
  rd_ret (reg_read env regid buf size mode) = UC_ERR_OK /\
  deref (view_type v) (rd_value (reg_read env regid buf size mode))
    = Z.land (Z.shiftr (env (regs slot)) (view_lo v)) (Z.ones (view_width v)) /\
  (forall i, ~ 0 <= i < sizeof (view_type v) ->
     rd_value (reg_read env regid buf size mode) i = buf i).
Proof.
  intros Hsub Hsz.
  destruct mode; cbn [sub_register] in Hsub; try discriminate Hsub;
    destruct regid; cbn [legacy_view long_view] in Hsub; try discriminate Hsub;
    injection Hsub as <- <-;
    unfold reg_read, reg_read_mode_16, reg_read_mode_32, reg_read_mode_64;
    rewrite rchk_pass by exact Hsz;
    cbn [rd_ret rd_value view_type view_lo view_width];
    (split; [reflexivity|]);
    (split; [rewrite deref_assign_same_size by (reflexivity || (cbn; lia));
             first [ apply READ_BYTE_L_view | apply READ_BYTE_H_view
                   | apply READ_WORD_view | apply READ_DWORD_view ]
            |intros i Hi; apply WindowProofs.assign_outside; exact Hi]).
Qed.
End WithHelpers.

(** X10: apart from [UC_X86_REG_MSR], whose read runs the native
    micro-operation on the CPU state, a register read of the x86 target
    never changes the state: in every mode, for every identifier and
    every declared size, whether the read succeeds or fails. *)
Theorem reg_read_keeps_state {H : cpu_h} env regid value size mode :
  regid <> UC_X86_REG_MSR ->
  rd_env (reg_read env regid value size mode) = env.
Proof. apply reg_read_env. Qed.

Lemma reg_read_keeps_state_witness :
  UC_X86_REG_FPTAG <> UC_X86_REG_MSR /\
  rd_env (@reg_read sample_cpu_h FpTagSpec.env_denormal UC_X86_REG_FPTAG
            zero_buffer (Some 2) UC_MODE_64)
    = FpTagSpec.env_denormal.
Proof.
  assert (Hne : UC_X86_REG_FPTAG <> UC_X86_REG_MSR) by discriminate.
  split; [exact Hne|].
  exact (@reg_read_keeps_state sample_cpu_h FpTagSpec.env_denormal
           UC_X86_REG_FPTAG zero_buffer (Some 2) UC_MODE_64 Hne).
Defined.

(** X11: a read through a narrow view of a general-purpose register (low
    byte, high byte, low word, and in the 64-bit mode low dword) succeeds
    when the size passes the check, leaves the state as it is, and
    delivers exactly the bits of the view of the wider backing slot: the
    slot shifted right by the first bit of the view and masked to its
    width.  Nothing past the bytes of the view changes in the caller's
    buffer. *)
Theorem narrow_read_extracts_view {H : cpu_h}
    mode regid slot v env buf size :
  sub_register mode regid = Some (slot, v) ->
  size = None \/ size = Some (sizeof (view_type v)) ->
  let r := reg_read env regid buf size mode in
  rd_ret r = UC_ERR_OK /\ rd_env r = env /\
  deref (view_type v) (rd_value r)
    = Z.land (Z.shiftr (env (regs slot)) (view_lo v)) (Z.ones (view_width v)) /\
  (forall i, ~ 0 <= i < sizeof (view_type v) -> rd_value r i = buf i).
Proof.
  intros Hsub Hsz r. subst r.
  destruct (view_read mode regid slot v env buf size Hsub Hsz)
    as (Hret & Hval & Hout).
  split; [exact Hret|]. split; [|split; assumption].
  apply reg_read_env. intros ->.
  destruct mode; discriminate Hsub.
Qed.

Lemma narrow_read_extracts_view_witness :
  @sub_register sample_cpu_h UC_MODE_64 UC_X86_REG_AH = Some (0, high_byte) /\
  (Some 1 = None \/ Some 1 = Some (sizeof (view_type high_byte))) /\
  deref uint8_t
    (rd_value (@reg_read sample_cpu_h env_eax UC_X86_REG_AH zero_buffer
                 (Some 1) UC_MODE_64))
    = Z.land (Z.shiftr (env_eax (regs 0)) 8) (Z.ones 8).
Proof.
  assert (Hsz : Some 1 = None \/ Some 1 = Some (sizeof (view_type high_byte)))
    by (right; reflexivity).
  split; [reflexivity|]. split; [exact Hsz|].
  destruct (@narrow_read_extracts_view sample_cpu_h UC_MODE_64 UC_X86_REG_AH
              0 high_byte env_eax zero_buffer (Some 1) eq_refl Hsz)
    as (_ & _ & Hval & _).
  exact Hval.
Defined.

End ReadProofs.

(** ** Reading back what was written (x86) *)

Module RoundTripProofs.
Import X86 RoundTripSpec X86Proofs.

Lemma land_ones_small (v k : Z) :
  0 <= k -> 0 <= v < 2 ^ k -> Z.land v (Z.ones k) = v.
Proof. intros Hk Hv. rewrite Z.land_ones by lia. apply Z.mod_small. exact Hv. Qed.

(** What the read macros see after the write macros. *)
Lemma READ_WORD_WRITE_WORD env l w :
  READ_WORD (WRITE_WORD env l w l) = Z.land w 0xffff.
Proof.
  unfold READ_WORD, WRITE_WORD. rewrite x86_upd_same.
  change 0xffff with (Z.ones 16).
  apply Z.bits_inj'. intros n Hn.
  rewrite !Z.land_spec, Z.lor_spec, !Z.land_spec, Z.lnot_spec by lia.
  destruct (Z.testbit (Z.ones 16) n), (Z.testbit w n), (Z.testbit (env l) n);
    reflexivity.
Qed.

Lemma READ_DWORD_WRITE_DWORD env l w :
  READ_DWORD (WRITE_DWORD env l w l) = Z.land w 0xffffffff.
Proof.
  unfold READ_DWORD, WRITE_DWORD. rewrite x86_upd_same.
  change 0xffffffff with (Z.ones 32).
  apply Z.bits_inj'. intros n Hn.
  rewrite !Z.land_spec, Z.lor_spec, !Z.land_spec, Z.lnot_spec by lia.
  destruct (Z.testbit (Z.ones 32) n), (Z.testbit w n), (Z.testbit (env l) n);
    reflexivity.
Qed.

Lemma READ_BYTE_L_WRITE_BYTE_L env l b :
  READ_BYTE_L (WRITE_BYTE_L env l b l) = Z.land b 0xff.
Proof.
  unfold READ_BYTE_L, WRITE_BYTE_L. rewrite x86_upd_same.
  change 0xff with (Z.ones 8).
  apply Z.bits_inj'. intros n Hn.
  rewrite !Z.land_spec, Z.lor_spec, !Z.land_spec, Z.lnot_spec by lia.
  destruct (Z.testbit (Z.ones 8) n), (Z.testbit b n), (Z.testbit (env l) n);
    reflexivity.
Qed.

Lemma READ_BYTE_H_WRITE_BYTE_H env l b :
  READ_BYTE_H (WRITE_BYTE_H env l b l) = Z.land b 0xff.
Proof.
  unfold READ_BYTE_H, WRITE_BYTE_H. rewrite x86_upd_same.
  change 0xff with (Z.ones 8). change 0xffff with (Z.ones 16).
  change 0xff00 with (Z.shiftl (Z.ones 8) 8).
  apply Z.bits_inj'. intros n Hn.
  rewrite Z.shiftr_spec, Z.land_spec by lia.
  rewrite SubRegisterProofs.insert_field_bits by lia.
  rewrite Z.land_spec, !Z.testbit_ones_nonneg by lia.
  replace (n + 8 - 8) with n by lia.
  destruct (Z.leb_spec 8 (n + 8)); [|lia].
  destruct (Z.ltb_spec (n + 8) (8 + 8)), (Z.ltb_spec (n + 8) 16),
    (Z.ltb_spec n 8); try lia; cbn [andb];
    rewrite ?andb_true_r, ?andb_false_r; reflexivity.
Qed.

(** The status word is split into [fpus] and [fpstt] by the write and
    put together again by the read. *)
Lemma fpsw_recompose (v : Z) :
  cast uint16_t
    (Z.lor (cast uint16_t
              (Z.land (cast uint16_t (cast uint16_t (Z.land v (Z.lnot 0x3800))))
                      (Z.lnot 0x3800)))
           (Z.shiftl (Z.land (Z.land (Z.shiftr v 11) 0x7) 0x7) 11))
    = Z.land v (Z.ones 16).
Proof.
  unfold cast; cbn [is_signed sizeof]. change (2 ^ (8 * 2)) with (2 ^ 16).
  rewrite <- !Z.land_ones by lia.
  change 0x3800 with (Z.shiftl (Z.ones 3) 11). change 7 with (Z.ones 3).
  apply Z.bits_inj'. intros n Hn.
  rewrite !Z.land_spec, Z.lor_spec, !Z.land_spec, !Z.lnot_spec,
    !SubRegisterProofs.testbit_field_mask by lia.
  rewrite Z.shiftl_spec by lia.
  destruct (Z.leb_spec 11 n); cbn [andb negb].
  - rewrite !Z.land_spec, Z.shiftr_spec, !Z.testbit_ones_nonneg by lia.
    replace (n - 11 + 11) with n by lia.
    destruct (Z.ltb_spec n (11 + 3)), (Z.ltb_spec (n - 11) 3), (Z.ltb_spec n 16);
      try lia; cbn [negb]; destruct (Z.testbit v n); reflexivity.
  - rewrite (Z.testbit_neg_r _ (n - 11)) by lia.
    rewrite !Z.testbit_ones_nonneg by lia.
    destruct (Z.ltb_spec n 16); try lia. destruct (Z.testbit v n); reflexivity.
Qed.

Section WithHelpers.
Context {H : cpu_h}.
Variables (env : CPUX86State) (value buf : buffer) (size : option Z)
          (setpc : Z).

(** A value of type [t] written after [CHECK_REG_TYPE(t)] and read
    after [CHECK_REG_TYPE(t')]: [E] is the state the write leaves, [V]
    the buffer the read leaves. *)
Lemma rt_checked t t' (E : CPUX86State) (V : CPUX86State -> buffer) :
  sizeof t = sizeof t' -> 0 < sizeof t ->
  reads_back (sizeof t) value buf (V E) ->
  round_trip value buf size (fun s => chk env s setpc t E)
    (fun e => rchk e buf size t' (V e)).
Proof.
  intros Hsz Hpos Hback. unfold round_trip, chk, rchk, CHECK_REG_TYPE.
  rewrite <- Hsz.
  destruct size as [sz|]; [destruct (Z.eqb_spec sz (sizeof t))|];
    cbn [wr_ret wr_env rd_ret rd_env rd_value]; intros Hret; try discriminate;
    (split; [reflexivity|]); (split; [reflexivity|]);
    exists (sizeof t); (split; [exact Hpos|]);
    (split; [|exact Hback]);
    intros sz0; destruct (Z.eqb_spec sz0 (sizeof t));
    cbn [wr_ret]; intuition congruence.
Qed.

Lemma rt_checked_setpc t t' (E : CPUX86State) (V : CPUX86State -> buffer) :
  sizeof t = sizeof t' -> 0 < sizeof t ->
  reads_back (sizeof t) value buf (V E) ->
  round_trip value buf size (fun s => chk_setpc env s setpc t E)
    (fun e => rchk e buf size t' (V e)).
Proof.
  intros Hsz Hpos Hback. unfold round_trip, chk_setpc, rchk, CHECK_REG_TYPE.
  rewrite <- Hsz.
  destruct size as [sz|]; [destruct (Z.eqb_spec sz (sizeof t))|];
    cbn [wr_ret wr_env rd_ret rd_env rd_value]; intros Hret; try discriminate;
    (split; [reflexivity|]); (split; [reflexivity|]);
    exists (sizeof t); (split; [exact Hpos|]);
    (split; [|exact Hback]);
    intros sz0; destruct (Z.eqb_spec sz0 (sizeof t));
    cbn [wr_ret]; intuition congruence.
Qed.

(** One scalar: [R] is what the read copies out of the state. *)
Lemma scalar_reads_back t t' (x : Z) :
  sizeof t = sizeof t' ->
  (forall i, 0 <= i < sizeof t -> (x / 2 ^ (8 * i)) mod 256 = value i mod 256) ->
  reads_back (sizeof t) value buf (assign t' buf x).
Proof.
  intros Hsz Hbytes. split; intros i Hi; unfold assign.
  - rewrite assign_at_inside by lia. rewrite Z.sub_0_r. now apply Hbytes.
  - apply assign_at_outside. lia.
Qed.

Lemma rt_chk t t' (E : CPUX86State) (R : CPUX86State -> Z) :
  sizeof t = sizeof t' -> 0 < sizeof t ->
  (forall i, 0 <= i < sizeof t ->
     (R E / 2 ^ (8 * i)) mod 256 = value i mod 256) ->
  round_trip value buf size (fun s => chk env s setpc t E)
    (fun e => rchk e buf size t' (assign t' buf (R e))).
Proof.
  intros Hsz Hpos Hbytes.
  apply (rt_checked t t' E (fun e => assign t' buf (R e))); try assumption.
  now apply scalar_reads_back.
Qed.

Lemma rt_chk_setpc t t' (E : CPUX86State) (R : CPUX86State -> Z) :
  sizeof t = sizeof t' -> 0 < sizeof t ->
  (forall i, 0 <= i < sizeof t ->
     (R E / 2 ^ (8 * i)) mod 256 = value i mod 256) ->
  round_trip value buf size (fun s => chk_setpc env s setpc t E)
    (fun e => rchk e buf size t' (assign t' buf (R e))).
Proof.
  intros Hsz Hpos Hbytes.
  apply (rt_checked_setpc t t' E (fun e => assign t' buf (R e))); try assumption.
  now apply scalar_reads_back.
Qed.

(** The bytes of an unsigned scalar read from the caller's buffer, also
    after a mask or a conversion that keeps its width. *)
Lemma deref_byte t i :
  is_signed t = false -> 0 <= i < sizeof t ->
  (deref t value / 2 ^ (8 * i)) mod 256 = value i mod 256.
Proof.
  intros Hu Hi. unfold deref.
  rewrite <- (Z.sub_0_r i) at 1. apply deref_at_byte; [exact Hu | lia].
Qed.

Lemma deref_land t i :
  is_signed t = false -> 0 <= i < sizeof t ->
  (Z.land (deref t value) (Z.ones (8 * sizeof t)) / 2 ^ (8 * i)) mod 256
    = value i mod 256.
Proof.
  intros Hu Hi. rewrite land_ones_small; [now apply deref_byte | lia |].
  apply deref_at_range; [exact Hu | lia].
Qed.

Lemma deref_cast t t' i :
  is_signed t = false -> is_signed t' = false -> sizeof t' = sizeof t ->
  0 <= i < sizeof t ->
  (cast t' (deref t value) / 2 ^ (8 * i)) mod 256 = value i mod 256.
Proof.
  intros Hu Hu' Hsz Hi. unfold cast. rewrite Hu', Hsz.
  rewrite (Z.mod_small (deref t value))
    by (apply deref_at_range; [exact Hu | lia]).
  now apply deref_byte.
Qed.

Ltac rt_bytes :=
  let i := fresh "i" in
  let Hi := fresh "Hi" in
  intros i Hi; cbv beta;
  rewrite ?READ_WORD_WRITE_WORD, ?READ_DWORD_WRITE_DWORD,
    ?READ_BYTE_L_WRITE_BYTE_L, ?READ_BYTE_H_WRITE_BYTE_H, ?x86_upd_same;
  unfold READ_WORD, READ_DWORD, READ_QWORD;
  first [ apply deref_byte | apply (deref_land uint8_t)
        | apply (deref_land uint16_t) | apply (deref_land uint32_t)
        | apply deref_cast ];
  first [reflexivity | exact Hi].

Ltac rt_scalar :=
  cbv beta iota;
  first [apply rt_chk | apply rt_chk_setpc];
  [reflexivity | reflexivity | rt_bytes].

Lemma rt_mode_32 regid :
  verbatim_32 regid = true ->
  round_trip value buf size
    (fun s => reg_write_mode_32 env regid value s setpc)
    (fun e => reg_read_mode_32 e regid buf size).
Proof.
  unfold reg_write_mode_32, reg_read_mode_32.
  destruct regid; cbn [verbatim_32]; intros Hv; try discriminate Hv; clear Hv;
    rt_scalar.
Qed.

Lemma rt_mode_16 regid :
  verbatim_32 regid = true ->
  round_trip value buf size
    (fun s => reg_write_mode_16 env regid value s setpc)
    (fun e => reg_read_mode_16 e regid buf size).
Proof.
  intros Hv. pose proof (rt_mode_32 regid Hv) as H32. revert Hv H32.
  unfold reg_write_mode_16, reg_read_mode_16.
  destruct regid; cbn [verbatim_32]; intros Hv; try discriminate Hv; clear Hv;
    intros H32; exact H32.
Qed.

(** The vector registers: two or four 64-bit words. *)
Lemma rt_words_2 (l0 l1 : loc) :
  l0 <> l1 ->
  round_trip value buf size
    (fun s => chk env s setpc float64_2
                (upd (upd env l0 (deref_at uint64_t 0 value))
                     l1 (deref_at uint64_t 8 value)))
    (fun e => rchk e buf size float64_2
                (assign_at uint64_t 8 (assign_at uint64_t 0 buf (e l0)) (e l1))).
Proof.
  intros Hl.
  apply (rt_checked float64_2 float64_2 _
           (fun e => assign_at uint64_t 8 (assign_at uint64_t 0 buf (e l0)) (e l1)));
    [reflexivity | reflexivity |].
  rewrite x86_upd_same, x86_upd_other, x86_upd_same by congruence.
  cbn [sizeof]. split; intros i Hi.
  - destruct (Z_lt_dec i 8).
    + rewrite assign_at_outside, assign_at_inside by (cbn [sizeof]; lia).
      apply deref_at_byte; [reflexivity | cbn [sizeof]; lia].
    + rewrite assign_at_inside by (cbn [sizeof]; lia).
      apply deref_at_byte; [reflexivity | cbn [sizeof]; lia].
  - rewrite !assign_at_outside by (cbn [sizeof]; lia). reflexivity.
Qed.

Lemma rt_words_4 (l0 l1 l2 l3 : loc) :
  l0 <> l1 -> l0 <> l2 -> l0 <> l3 -> l1 <> l2 -> l1 <> l3 -> l2 <> l3 ->
  round_trip value buf size
    (fun s => chk env s setpc float64_4
                (upd (upd (upd (upd env l0 (deref_at uint64_t 0 value))
                               l1 (deref_at uint64_t 8 value))
                          l2 (deref_at uint64_t 16 value))
                     l3 (deref_at uint64_t 24 value)))
    (fun e => rchk e buf size float64_4
                (assign_at uint64_t 24
                   (assign_at uint64_t 16
                      (assign_at uint64_t 8 (assign_at uint64_t 0 buf (e l0))
                         (e l1))
                      (e l2))
                   (e l3))).
Proof.
  intros H01 H02 H03 H12 H13 H23.
  apply (rt_checked float64_4 float64_4 _
           (fun e => assign_at uint64_t 24
                       (assign_at uint64_t 16
                          (assign_at uint64_t 8 (assign_at uint64_t 0 buf (e l0))
                             (e l1))
                          (e l2))
                       (e l3)));
    [reflexivity | reflexivity |].
  repeat (rewrite x86_upd_same || rewrite x86_upd_other by congruence).
  cbn [sizeof]. split; intros i Hi.
  - destruct (Z_lt_dec i 8); [|destruct (Z_lt_dec i 16); [|destruct (Z_lt_dec i 24)]];
      repeat (rewrite assign_at_outside by (cbn [sizeof]; lia));
      rewrite assign_at_inside by (cbn [sizeof]; lia);
      (apply deref_at_byte; [reflexivity | cbn [sizeof]; lia]).
  - rewrite !assign_at_outside by (cbn [sizeof]; lia). reflexivity.
Qed.

(** A stack register: a 64-bit word and a 16-bit word, in the physical
    register the top of the stack selects. *)
Lemma rt_st (n : Z) :
  round_trip value buf size
    (fun s => chk env s setpc char_10
                (upd (upd env (fpregs (FPST env n) low) (deref_at uint64_t 0 value))
                     (fpregs (FPST env n) high) (deref_at uint16_t 8 value)))
    (fun e => rchk e buf size char_10
                (assign_at uint16_t 8
                   (assign_at uint64_t 0 buf (e (fpregs (FPST e n) low)))
                   (e (fpregs (FPST e n) high)))).
Proof.
  apply (rt_checked char_10 char_10 _
           (fun e => assign_at uint16_t 8
                       (assign_at uint64_t 0 buf (e (fpregs (FPST e n) low)))
                       (e (fpregs (FPST e n) high))));
    [reflexivity | reflexivity |].
  unfold FPST. rewrite !(x86_upd_other _ _ fpstt) by discriminate.
  rewrite x86_upd_same, x86_upd_other, x86_upd_same by congruence.
  cbn [sizeof]. split; intros i Hi.
  - destruct (Z_lt_dec i 8).
    + rewrite assign_at_outside, assign_at_inside by (cbn [sizeof]; lia).
      apply deref_at_byte; [reflexivity | cbn [sizeof]; lia].
    + rewrite assign_at_inside by (cbn [sizeof]; lia).
      apply deref_at_byte; [reflexivity | cbn [sizeof]; lia].
  - rewrite !assign_at_outside by (cbn [sizeof]; lia). reflexivity.
Qed.

Lemma rt_fpsw :
  round_trip value buf size
    (fun s => chk env s setpc uint16_t
       (let fpus' := deref uint16_t value in
        let env := upd env fpus (cast uint16_t (Z.land fpus' (Z.lnot 0x3800))) in
        let env := upd env fpstt (Z.land (Z.shiftr fpus' 11) 0x7) in
        env))
    (fun e => rchk e buf size uint16_t
       (let f1 := cast uint16_t (e fpus) in
        let f2 := cast uint16_t (Z.land f1 (Z.lnot 0x3800)) in
        let f3 := cast uint16_t
                    (Z.lor f2 (Z.shiftl (Z.land (e fpstt) 0x7) 11)) in
        assign uint16_t buf f3)).
Proof.
  cbv zeta.
  apply (rt_chk uint16_t uint16_t _
           (fun e => cast uint16_t
                       (Z.lor (cast uint16_t
                                 (Z.land (cast uint16_t (e fpus)) (Z.lnot 0x3800)))
                              (Z.shiftl (Z.land (e fpstt) 0x7) 11))));
    [reflexivity | reflexivity |].
  intros i Hi.
  rewrite x86_upd_same, x86_upd_other, x86_upd_same by discriminate.
  rewrite fpsw_recompose. now apply (deref_land uint16_t).
Qed.

Lemma rt_mode_64 regid :
  verbatim_64 regid = true ->
  round_trip value buf size
    (fun s => reg_write_mode_64 env regid value s setpc)
    (fun e => reg_read_mode_64 e regid buf size).
Proof.
  unfold reg_write_mode_64, reg_read_mode_64.
  destruct regid; cbn [verbatim_64]; intros Hv; try discriminate Hv; clear Hv;
    first [rt_scalar | cbv beta iota zeta; apply rt_words_2; congruence].
Qed.

(** Every identifier of the three tables reads back as written. *)
Lemma rt_reg mode regid :
  verbatim mode regid = true ->
  round_trip value buf size
    (fun s => reg_write env regid value s mode setpc)
    (fun e => reg_read e regid buf size mode).
Proof.
  unfold verbatim, reg_write, reg_write_switch, reg_read.
  destruct regid; cbn [verbatim_any orb]; intros Hv;
    first [ rt_scalar
          | cbv beta iota zeta;
            first [ apply rt_fpsw | apply rt_words_2; congruence
                  | apply rt_words_4; congruence | apply rt_st ]
          | destruct mode; cbn in Hv; try discriminate Hv; cbv beta iota;
            match goal with
            | |- context [reg_write_mode_16] => apply rt_mode_16
            | |- context [reg_write_mode_32] => apply rt_mode_32
            | |- context [reg_write_mode_64] => apply rt_mode_64
            end; exact Hv ].
Qed.

End WithHelpers.

(** X12: reading back what was written.  For every identifier that the
    x86 [reg_write] stores as given, in the mode of the call -- the
    general-purpose registers and all their narrow views, the instruction
    pointer, control and debug registers, the status word, the x87
    pointers, the stack registers ST0..ST7, the vector registers, and in
    the 64-bit mode the selectors of CS, DS, SS, ES and the bases of FS and
    GS -- a successful write followed by a read of the same identifier
    with the same declared size succeeds, changes no state, and fills the
    caller's buffer with exactly the bytes that were written, leaving the
    bytes after them untouched.  The number of bytes is the one declared
    size the write accepts. *)
Theorem write_then_read_same_bytes {H : cpu_h}
    mode regid env value size setpc buf :
  verbatim mode regid = true ->
  wr_ret (reg_write env regid value size mode setpc) = UC_ERR_OK ->
  let env' := wr_env (reg_write env regid value size mode setpc) in
  let r := reg_read env' regid buf size mode in
  rd_ret r = UC_ERR_OK /\ rd_env r = env' /\
  exists n, 0 < n /\
    (forall sz, wr_ret (reg_write env regid value (Some sz) mode setpc)
                  = UC_ERR_OK <-> sz = n) /\
    reads_back n value buf (rd_value r).
Proof.
  intros Hv Hw. exact (rt_reg env value buf size setpc mode regid Hv Hw).
Qed.

Lemma write_then_read_same_bytes_witness :
  let env' := wr_env (@reg_write sample_cpu_h SubRegisterSpec.env_eax
                        UC_X86_REG_AH (bytes_of 0x7f) (Some 1) UC_MODE_64 0) in
  verbatim UC_MODE_64 UC_X86_REG_AH = true /\
  wr_ret (@reg_write sample_cpu_h SubRegisterSpec.env_eax UC_X86_REG_AH
            (bytes_of 0x7f) (Some 1) UC_MODE_64 0) = UC_ERR_OK /\
  rd_ret (@reg_read sample_cpu_h env' UC_X86_REG_AH zero_buffer (Some 1)
            UC_MODE_64) = UC_ERR_OK /\
  exists n, 0 < n /\
    reads_back n (bytes_of 0x7f) zero_buffer
      (rd_value (@reg_read sample_cpu_h env' UC_X86_REG_AH zero_buffer (Some 1)
                   UC_MODE_64)).
Proof.
  intros env'. split; [reflexivity|]. split; [reflexivity|].
  destruct (@write_then_read_same_bytes sample_cpu_h UC_MODE_64 UC_X86_REG_AH
              SubRegisterSpec.env_eax (bytes_of 0x7f) (Some 1) 0 zero_buffer
              eq_refl eq_refl)
    as (Hret & _ & n & Hn & _ & Hback).
  split; [exact Hret|]. exists n. split; assumption.
Defined.

End RoundTripProofs.

(** ** Reader and writer side by side (x86) *)

Module AgreeProofs.
Import X86 AgreeSpec X86Proofs.

Section WithHelpers.
Context {H : cpu_h}.
Variables (env env' : CPUX86State) (value buf : buffer) (size : option Z)
          (setpc : Z).

Lemma alike_checked {A : Type} t t' (bail : A) (k : uc_err -> A) (ret : A -> uc_err)
    (w : option Z -> wr) :
  sizeof t = sizeof t' ->
  ret bail = UC_ERR_ARG -> ret (k UC_ERR_OK) = UC_ERR_OK ->
  (forall s, w s = CHECK_REG_TYPE s t' (Wr UC_ERR_ARG env' setpc)
                     (fun _ => w None)) ->
  (ret (CHECK_REG_TYPE size t bail k) <> UC_ERR_OK ->
   w size = Wr UC_ERR_ARG env' setpc) /\
  (ret (CHECK_REG_TYPE size t bail k) = UC_ERR_OK -> w size = w None).
Proof.
  intros Hsz Hbail Hk Hw. rewrite (Hw size). unfold CHECK_REG_TYPE.
  rewrite <- Hsz.
  destruct size as [sz|]; [destruct (sz =? sizeof t)|];
    split; intros Hr; congruence.
Qed.

Lemma alike_chk t t' v E :
  sizeof t = sizeof t' ->
  accepts_alike env' setpc size (rchk env buf size t v)
    (fun s => chk env' s setpc t' E).
Proof.
  intros Hsz. unfold accepts_alike, rchk.
  apply (alike_checked t t' _ _ rd_ret (fun s => chk env' s setpc t' E));
    try reflexivity; try exact Hsz.
Qed.

Lemma alike_chk_setpc t t' v E :
  sizeof t = sizeof t' ->
  accepts_alike env' setpc size (rchk env buf size t v)
    (fun s => chk_setpc env' s setpc t' E).
Proof.
  intros Hsz. unfold accepts_alike, rchk.
  apply (alike_checked t t' _ _ rd_ret (fun s => chk_setpc env' s setpc t' E));
    try reflexivity; try exact Hsz.
Qed.

Lemma alike_chk_seg t t' v seg :
  sizeof t = sizeof t' ->
  accepts_alike env' setpc size (rchk env buf size t v)
    (fun s => chk_seg env' value s setpc t' seg).
Proof.
  intros Hsz. unfold accepts_alike, rchk.
  apply (alike_checked t t' _ _ rd_ret
           (fun s => chk_seg env' value s setpc t' seg));
    try reflexivity; try exact Hsz.
Qed.

Lemma alike_msr E :
  accepts_alike env' setpc size
    (CHECK_REG_TYPE size uc_x86_msr (Rd UC_ERR_ARG buf env)
       (fun ret => let (value, env) := x86_msr_read env buf in Rd ret value env))
    (fun s => chk env' s setpc uc_x86_msr E).
Proof.
  unfold accepts_alike.
  apply (alike_checked uc_x86_msr uc_x86_msr _ _ rd_ret
           (fun s => chk env' s setpc uc_x86_msr E));
    reflexivity.
Qed.

(** An identifier the writer does not know. *)
Lemma alike_refused r :
  accepts_alike env' setpc size r (fun _ => Wr UC_ERR_ARG env' setpc).
Proof. unfold accepts_alike. split; reflexivity. Qed.

Ltac alike :=
  cbv beta iota;
  first [ apply alike_chk; reflexivity | apply alike_chk_setpc; reflexivity
        | apply alike_chk_seg; reflexivity | apply alike_msr
        | apply alike_refused ].

Lemma alike_mode_32 regid :
  accepts_alike env' setpc size (reg_read_mode_32 env regid buf size)
    (fun s => reg_write_mode_32 env' regid value s setpc).
Proof. unfold reg_read_mode_32, reg_write_mode_32; destruct regid; alike. Qed.

Lemma alike_mode_64 regid :
  accepts_alike env' setpc size (reg_read_mode_64 env regid buf size)
    (fun s => reg_write_mode_64 env' regid value s setpc).
Proof. unfold reg_read_mode_64, reg_write_mode_64; destruct regid; alike. Qed.

Lemma alike_mode_16 regid :
  accepts_alike env' setpc size (reg_read_mode_16 env regid buf size)
    (fun s => reg_write_mode_16 env' regid value s setpc).
Proof.
  pose proof (alike_mode_32 regid) as H32. revert H32.
  unfold reg_read_mode_16, reg_write_mode_16; destruct regid; intros H32;
    first [exact H32 | alike].
Qed.

Lemma alike_reg regid mode :
  accepts_alike env' setpc size (reg_read env regid buf size mode)
    (fun s => reg_write env' regid value s mode setpc).
Proof.
  unfold reg_read, reg_write, reg_write_switch.
  destruct regid;
    first [ cbv zeta; alike
          | destruct mode; cbv beta iota;
            first [ apply alike_mode_16 | apply alike_mode_32
                  | apply alike_mode_64 | apply alike_refused ] ].
Qed.
End WithHelpers.

(** X13: the reader and the writer of the x86 target know the same
    identifiers and check the same sizes, in every mode.  Whenever
    [reg_read] refuses an identifier with its declared size (unknown
    identifier or wrong size), [reg_write] of that identifier with that
    size returns [UC_ERR_ARG] and changes nothing; whenever [reg_read]
    accepts them, [reg_write] does not stop at its size check: its result
    is the one of the same write without a declared size.  So a register
    that can be written with some size can always be read with that size.
    The converse fails for one register: in the 16- and 32-bit modes
    [UC_X86_REG_FS_BASE] is read but every write of it is refused. *)
Theorem reader_and_writer_accept_alike {H : cpu_h}
    env env' regid value buf size mode setpc :
  let r := reg_read env regid buf size mode in
  let w := reg_write env' regid value size mode setpc in
  (rd_ret r <> UC_ERR_OK -> w = Wr UC_ERR_ARG env' setpc) /\
  (rd_ret r = UC_ERR_OK -> w = reg_write env' regid value None mode setpc) /\
  (forall m, m = UC_MODE_16 \/ m = UC_MODE_32 ->
     rd_ret (reg_read env UC_X86_REG_FS_BASE buf None m) = UC_ERR_OK /\
     reg_write env' UC_X86_REG_FS_BASE value size m setpc
       = Wr UC_ERR_ARG env' setpc).
Proof.
  intros r w. subst r w.
  destruct (alike_reg env env' value buf size setpc regid mode) as [Hno Hyes].
  split; [exact Hno|]. split; [exact Hyes|].
  intros m [-> | ->]; split; reflexivity.
Qed.

End AgreeProofs.

(** ** Writing the floating-point tag word and the status word *)

Module FpWriteProofs.
Import X86 FpTagSpec X86Proofs.

Lemma fptags_neq i j : i <> j -> fptags i <> fptags j.
Proof. congruence. Qed.

(** The loop of the tag-word write: slot [j] is marked empty exactly when
    its two-bit tag is 3, and nothing but the eight marks changes. *)
Lemma fptag_write_loop_spec (n : nat) : forall i w env,
  0 <= w < 2 ^ 16 ->
  (forall j, i <= j < i + Z.of_nat n ->
     fptag_write_loop n i w env (fptags j)
       = if tag_field w (j - i) =? 3 then 1 else 0) /\
  (forall l, (forall j, i <= j < i + Z.of_nat n -> l <> fptags j) ->
     fptag_write_loop n i w env l = env l).
Proof.
  induction n as [|n IH]; intros i w env Hw.
  - split; [intros j Hj; lia | reflexivity].
  - cbn [fptag_write_loop].
    assert (Hw' : 0 <= Z.shiftr w 2 < 2 ^ 16).
    { rewrite Z.shiftr_div_pow2 by lia. change (2 ^ 2) with 4.
      change (2 ^ 16) with 65536 in *. Z.div_mod_to_equations. lia. }
    assert (Hc : cast uint16_t (Z.shiftr w 2) = Z.shiftr w 2).
    { unfold cast; cbn [is_signed sizeof]. now apply Z.mod_small. }
    rewrite Hc.
    destruct (IH (i + 1) (Z.shiftr w 2)
                (upd env (fptags i) (if Z.land w 3 =? 3 then 1 else 0)) Hw')
      as [Hin Hout].
    split.
    + intros j Hj. destruct (Z.eq_dec j i) as [-> | Hne].
      * rewrite Hout by (intros j Hj'; apply fptags_neq; lia).
        rewrite x86_upd_same. unfold tag_field.
        now rewrite Z.sub_diag, Z.mul_0_r, Z.shiftr_0_r.
      * rewrite Hin by lia. unfold tag_field.
        rewrite Z.shiftr_shiftr by lia.
        now replace (2 + 2 * (j - (i + 1))) with (2 * (j - i)) by lia.
    + intros l Hl. rewrite Hout by (intros j Hj; apply Hl; lia).
      apply x86_upd_other. intros <-. apply (Hl i); [lia | reflexivity].
Qed.

Lemma slot_class_not_empty env i :
  env (fptags i) = 0 -> tag_code (slot_class env i) <> 3.
Proof.
  intros He. unfold slot_class. rewrite He. cbn [Z.eqb negb].
  repeat match goal with
         | |- context [if ?c then _ else _] => destruct c
         end; cbn; lia.
Qed.

Lemma slot_class_empty env i :
  env (fptags i) = 1 -> tag_code (slot_class env i) = 3.
Proof. intros He. unfold slot_class. rewrite He. reflexivity. Qed.

Lemma slot_class_contents env env' i :
  env' (fptags i) = 0 ->
  env' (fpregs i low) = env (fpregs i low) ->
  env' (fpregs i high) = env (fpregs i high) ->
  slot_class env' i = slot_class (upd env (fptags i) 0) i.
Proof.
  intros Ht Hl Hh. unfold slot_class, exponent, mantissa.
  rewrite Ht, Hl, Hh, x86_upd_same.
  now rewrite !x86_upd_other by discriminate.
Qed.

Section WithHelpers.
Context {H : cpu_h}.

Lemma fptag_write env value size mode setpc :
  size = None \/ size = Some 2 ->
  let w := deref uint16_t value in
  let r := reg_write env UC_X86_REG_FPTAG value size mode setpc in
  wr_ret r = UC_ERR_OK /\
  (forall i, 0 <= i < 8 ->
     wr_env r (fptags i) = if tag_field w i =? 3 then 1 else 0) /\
  (forall l, (forall i, 0 <= i < 8 -> l <> fptags i) -> wr_env r l = env l).
Proof.
  intros Hsz w r. subst r. unfold reg_write, reg_write_switch.
  rewrite chk_pass by exact Hsz. cbn [wr_ret wr_env]. cbv zeta.
  assert (Hw : 0 <= w < 2 ^ 16)
    by (apply (deref_at_range uint16_t 0 value); [reflexivity | cbn; lia]).
  destruct (fptag_write_loop_spec 8 0 w env Hw) as [Hin Hout].
  split; [reflexivity|]. split.
  - intros i Hi. fold w. rewrite Hin by (cbn; lia). now rewrite Z.sub_0_r.
  - intros l Hl. apply Hout. intros j Hj. apply Hl. cbn in Hj. lia.
Qed.

Lemma fptag_write_read env value size mode setpc buf i :
  size = None \/ size = Some 2 -> 0 <= i < 8 ->
  let w := deref uint16_t value in
  let env' := wr_env (reg_write env UC_X86_REG_FPTAG value size mode setpc) in
  let back := deref uint16_t
                (rd_value (reg_read env' UC_X86_REG_FPTAG buf size mode)) in
  tag_field back i =
    if tag_field w i =? 3 then 3
    else tag_code (slot_class (upd env (fptags i) 0) i).
Proof.
  intros Hsz Hi w env' back.
  destruct (fptag_write env value size mode setpc Hsz) as (_ & Hin & Hout).
  fold w env' in Hin, Hout. subst back.
  unfold reg_read, rchk. rewrite CHECK_REG_TYPE_pass by exact Hsz.
  cbn [rd_value]. cbv zeta.
  destruct (FpTagProofs.fptag_loop_fields env' i Hi) as [Hrange Hfield].
  rewrite deref_assign_unsigned by (cbn; lia || reflexivity).
  change (2 ^ (8 * sizeof uint16_t)) with (2 ^ 16).
  rewrite Z.mod_small by exact Hrange. rewrite Hfield.
  specialize (Hin i Hi).
  destruct (tag_field w i =? 3).
  - now apply slot_class_empty.
  - f_equal. apply slot_class_contents; [exact Hin | |];
      apply Hout; intros j Hj; discriminate.
Qed.
End WithHelpers.

(** X14: a write of the floating-point tag word keeps one bit of each
    two-bit tag.  It succeeds when the size passes the check, marks
    physical slot [i] empty exactly when tag [i] of the written word is 3,
    and changes nothing but the eight marks.  Reading the tag word back
    therefore returns 3 in the slots written as 3, and in every other slot
    the tag computed from the contents of the register, whatever tag (0,
    1 or 2) was written. *)
Theorem fptag_write_keeps_empty_marks {H : cpu_h} env value size mode setpc :
  size = None \/ size = Some 2 ->
  let w := deref uint16_t value in
  let r := reg_write env UC_X86_REG_FPTAG value size mode setpc in
  wr_ret r = UC_ERR_OK /\
  (forall i, 0 <= i < 8 ->
     wr_env r (fptags i) = if tag_field w i =? 3 then 1 else 0) /\
  (forall l, (forall i, 0 <= i < 8 -> l <> fptags i) -> wr_env r l = env l) /\
  (forall buf i, 0 <= i < 8 ->
     tag_field
       (deref uint16_t
          (rd_value (reg_read (wr_env r) UC_X86_REG_FPTAG buf size mode))) i
     = if tag_field w i =? 3 then 3
       else tag_code (slot_class (upd env (fptags i) 0) i)).
Proof.
  intros Hsz w r. subst w r.
  destruct (fptag_write env value size mode setpc Hsz) as (Hret & Hin & Hout).
  split; [exact Hret|]. split; [exact Hin|]. split; [exact Hout|].
  intros buf i Hi.
  exact (fptag_write_read env value size mode setpc buf i Hsz Hi).
Qed.

Lemma fptag_write_keeps_empty_marks_witness :
  let r := @reg_write sample_cpu_h env0 UC_X86_REG_FPTAG (bytes_of 0xfffe)
             (Some 2) UC_MODE_32 0 in
  (Some 2 = None \/ Some 2 = Some 2) /\
  wr_env r (fptags 0) = 0 /\ wr_env r (fptags 1) = 1 /\
  tag_field
    (deref uint16_t
       (rd_value (@reg_read sample_cpu_h (wr_env r) UC_X86_REG_FPTAG zero_buffer
                    (Some 2) UC_MODE_32))) 0 = 1.
Proof.
  intros r.
  assert (Hsz : Some 2 = None \/ Some 2 = Some 2) by (right; reflexivity).
  split; [exact Hsz|].
  destruct (@fptag_write_keeps_empty_marks sample_cpu_h env0 (bytes_of 0xfffe)
              (Some 2) UC_MODE_32 0 Hsz) as (_ & Hin & _ & Hback).
  split; [exact (Hin 0 ltac:(lia))|]. split; [exact (Hin 1 ltac:(lia))|].
  exact (Hback zero_buffer 0 ltac:(lia)).
Defined.

End FpWriteProofs.

(** ** The x87 register stack *)

Module FpStackProofs.
Import X86 FpStackSpec X86Proofs.

Lemma FPST_mod env n : FPST env n = (env fpstt + n) mod 8.
Proof. unfold FPST. change 7 with (Z.ones 3). now rewrite Z.land_ones by lia. Qed.

Section WithHelpers.
Context {H : cpu_h}.

Lemma st_read env regid k buf size mode :
  st_index regid = Some k ->
  enum_sub regid UC_X86_REG_ST0 = k ->
  size = None \/ size = Some 10 ->
  let p := (env fpstt + k) mod 8 in
  let r := reg_read env regid buf size mode in
  rd_ret r = UC_ERR_OK /\
  deref_at uint64_t 0 (rd_value r) = env (fpregs p low) mod 2 ^ 64 /\
  deref_at uint16_t 8 (rd_value r) = env (fpregs p high) mod 2 ^ 16.
Proof.
  intros Hst Hk Hsz p r. subst p r.
  destruct regid; try discriminate Hst; clear Hst;
    unfold reg_read; rewrite ReadProofs.rchk_pass by exact Hsz;
    cbn [rd_ret rd_value]; cbv zeta; rewrite Hk, FPST_mod;
    (split; [reflexivity|]); split.
  all: first
    [ rewrite deref_at_assign_at_other by (cbn [sizeof]; lia);
      apply (deref_at_assign_at uint64_t); [reflexivity | cbn; lia]
    | apply (deref_at_assign_at uint16_t); [reflexivity | cbn; lia] ].
Qed.

Lemma fpsw_write_top env value size mode setpc :
  size = None \/ size = Some 2 ->
  let r := reg_write env UC_X86_REG_FPSW value size mode setpc in
  wr_ret r = UC_ERR_OK /\
  wr_env r fpstt = (deref uint16_t value / 2 ^ 11) mod 8 /\
  forall l, l <> fpstt -> l <> fpus -> wr_env r l = env l.
Proof.
  intros Hsz r. subst r. unfold reg_write, reg_write_switch.
  rewrite chk_pass by exact Hsz. cbn [wr_ret wr_env]. cbv zeta.
  split; [reflexivity|]. split.
  - rewrite x86_upd_same. change 7 with (Z.ones 3).
    now rewrite Z.land_ones, Z.shiftr_div_pow2 by lia.
  - intros l Hl1 Hl2. now rewrite !x86_upd_other by congruence.
Qed.
End WithHelpers.

(** X15: the stack registers follow the top of the stack that the status
    word carries.  A write of [UC_X86_REG_FPSW] stores bits 11 to 13 of
    the word as the top [top]; a read of STk after it (k the number the
    header gives the identifier, relative to ST0) then delivers the ten
    bytes of the physical register [(top + k) mod 8], always one of the
    eight registers, and the write has changed none of them. *)
Theorem st_register_follows_top {H : cpu_h}
    env value size mode setpc regid k buf size' :
  st_index regid = Some k ->
  enum_sub regid UC_X86_REG_ST0 = k ->
  size = None \/ size = Some 2 ->
  size' = None \/ size' = Some 10 ->
  let top := (deref uint16_t value / 2 ^ 11) mod 8 in
  let p := (top + k) mod 8 in
  let w := reg_write env UC_X86_REG_FPSW value size mode setpc in
  let r := reg_read (wr_env w) regid buf size' mode in
  wr_ret w = UC_ERR_OK /\ wr_env w fpstt = top /\ 0 <= p < 8 /\
  rd_ret r = UC_ERR_OK /\
  deref_at uint64_t 0 (rd_value r) = env (fpregs p low) mod 2 ^ 64 /\
  deref_at uint16_t 8 (rd_value r) = env (fpregs p high) mod 2 ^ 16.
Proof.
  intros Hst Hk Hsz Hsz' top p w r. subst top p w r.
  destruct (fpsw_write_top env value size mode setpc Hsz) as (Hret & Htop & Hother).
  destruct (st_read (wr_env (reg_write env UC_X86_REG_FPSW value size mode setpc))
              regid k buf size' mode Hst Hk Hsz') as (Hr & Hlo & Hhi).
  rewrite Htop in Hlo, Hhi.
  rewrite !Hother in Hlo, Hhi by discriminate.
  repeat split; try assumption; apply Z.mod_pos_bound; lia.
Qed.

#[local] Existing Instance sample_cpu_h.

Lemma st_register_follows_top_witness :
  let w := reg_write env_fp_numbered UC_X86_REG_FPSW (bytes_of 0x3800) (Some 2)
             UC_MODE_32 0 in
  st_index UC_X86_REG_ST2 = Some 2 /\
  enum_sub UC_X86_REG_ST2 UC_X86_REG_ST0 = 2 /\
  (Some 2 = None \/ Some 2 = Some 2) /\
  (Some 10 = None \/ Some 10 = Some 10) /\
  wr_env w fpstt = 7 /\
  deref_at uint64_t 0
    (rd_value (reg_read (wr_env w) UC_X86_REG_ST2 zero_buffer (Some 10) UC_MODE_32))
    = 0x8000000000000001.
Proof.
  intros w.
  assert (Hsz : Some 2 = None \/ Some 2 = Some 2) by (right; reflexivity).
  assert (Hsz' : Some 10 = None \/ Some 10 = Some 10) by (right; reflexivity).
  assert (Hst : st_index UC_X86_REG_ST2 = Some 2) by reflexivity.
  assert (Hk : enum_sub UC_X86_REG_ST2 UC_X86_REG_ST0 = 2) by reflexivity.
  split; [exact Hst|]. split; [exact Hk|].
  split; [exact Hsz|]. split; [exact Hsz'|].
  destruct (st_register_follows_top env_fp_numbered (bytes_of 0x3800) (Some 2)
              UC_MODE_32 0 UC_X86_REG_ST2 2 zero_buffer (Some 10)
              Hst Hk Hsz Hsz')
    as (_ & Htop & _ & _ & Hlo & _).
  split; [exact Htop | exact Hlo].
Defined.

End FpStackProofs.

(** ** Vector registers *)

Module VectorProofs.
Import X86 VectorSpec RoundTripSpec X86Proofs.

Section WithHelpers.
Context {H : cpu_h}.

Lemma xmm_read mode regid env buf size :
  is_xmm mode regid = true -> size = None \/ size = Some 16 ->
  reg_read env regid buf size mode =
    Rd UC_ERR_OK
      (assign_at uint64_t 8
         (assign_at uint64_t 0 buf (env (xmm_regs (enum_sub regid UC_X86_REG_XMM0) 0)))
         (env (xmm_regs (enum_sub regid UC_X86_REG_XMM0) 1)))
      env.
Proof.
  intros Hx Hsz.
  destruct regid; try discriminate Hx;
    try (destruct mode; try discriminate Hx);
    unfold reg_read, reg_read_mode_64;
    rewrite ReadProofs.rchk_pass by exact Hsz; reflexivity.
Qed.

Lemma xmm_write mode regid env value size setpc :
  is_xmm mode regid = true -> size = None \/ size = Some 16 ->
  reg_write env regid value size mode setpc =
    Wr UC_ERR_OK
      (upd (upd env (xmm_regs (enum_sub regid UC_X86_REG_XMM0) 0)
                (deref_at uint64_t 0 value))
           (xmm_regs (enum_sub regid UC_X86_REG_XMM0) 1)
           (deref_at uint64_t 8 value))
      setpc.
Proof.
  intros Hx Hsz.
  destruct regid; try discriminate Hx;
    try (destruct mode; try discriminate Hx);
    unfold reg_write, reg_write_switch, reg_write_mode_64;
    rewrite chk_pass by exact Hsz; reflexivity.
Qed.

Lemma ymm_read mode regid env buf size :
  is_ymm regid = true -> size = None \/ size = Some 32 ->
  reg_read env regid buf size mode =
    Rd UC_ERR_OK
      (assign_at uint64_t 24
         (assign_at uint64_t 16
            (assign_at uint64_t 8
               (assign_at uint64_t 0 buf
                  (env (xmm_regs (enum_sub regid UC_X86_REG_YMM0) 0)))
               (env (xmm_regs (enum_sub regid UC_X86_REG_YMM0) 1)))
            (env (ymmh_regs (enum_sub regid UC_X86_REG_YMM0) 0)))
         (env (ymmh_regs (enum_sub regid UC_X86_REG_YMM0) 1)))
      env.
Proof.
  intros Hy Hsz.
  destruct regid; try discriminate Hy;
    unfold reg_read; rewrite ReadProofs.rchk_pass by exact Hsz; reflexivity.
Qed.

Lemma ymm_write mode regid env value size setpc :
  is_ymm regid = true -> size = None \/ size = Some 32 ->
  reg_write env regid value size mode setpc =
    Wr UC_ERR_OK
      (upd (upd (upd (upd env (xmm_regs (enum_sub regid UC_X86_REG_YMM0) 0)
                          (deref_at uint64_t 0 value))
                     (xmm_regs (enum_sub regid UC_X86_REG_YMM0) 1)
                     (deref_at uint64_t 8 value))
                (ymmh_regs (enum_sub regid UC_X86_REG_YMM0) 0)
                (deref_at uint64_t 16 value))
           (ymmh_regs (enum_sub regid UC_X86_REG_YMM0) 1)
           (deref_at uint64_t 24 value))
      setpc.
Proof.
  intros Hy Hsz.
  destruct regid; try discriminate Hy;
    unfold reg_write, reg_write_switch; rewrite chk_pass by exact Hsz;
    reflexivity.
Qed.

Lemma xmm_neq i q q' : q <> q' -> xmm_regs i q <> xmm_regs i q'.
Proof. congruence. Qed.

(** The low half of a 256-bit register is the 128-bit register of the
    same number. *)
Lemma ymm_write_xmm_read mode a b env value setpc buf :
  is_xmm mode a = true -> is_ymm b = true ->
  enum_sub a UC_X86_REG_XMM0 = enum_sub b UC_X86_REG_YMM0 ->
  let w := reg_write env b value (Some 32) mode setpc in
  let r := reg_read (wr_env w) a buf (Some 16) mode in
  wr_ret w = UC_ERR_OK /\ rd_ret r = UC_ERR_OK /\
  reads_back 16 value buf (rd_value r).
Proof.
  intros Hx Hy Hn w r. subst w r.
  rewrite (ymm_write mode b) by (exact Hy || (right; reflexivity)).
  cbn [wr_ret wr_env].
  rewrite (xmm_read mode a) by (exact Hx || (right; reflexivity)).
  cbn [rd_ret rd_value]. rewrite Hn.
  split; [reflexivity|]. split; [reflexivity|].
  set (n := enum_sub b UC_X86_REG_YMM0).
  rewrite !(x86_upd_other _ (ymmh_regs _ _)) by discriminate.
  rewrite x86_upd_same, x86_upd_other, x86_upd_same
    by (apply xmm_neq; discriminate).
  split; intros i Hi.
  - destruct (Z_lt_dec i 8).
    + rewrite assign_at_outside, assign_at_inside by (cbn [sizeof]; lia).
      apply deref_at_byte; [reflexivity | cbn [sizeof]; lia].
    + rewrite assign_at_inside by (cbn [sizeof]; lia).
      apply deref_at_byte; [reflexivity | cbn [sizeof]; lia].
  - rewrite !assign_at_outside by (cbn [sizeof]; lia). reflexivity.
Qed.

(** A write of the 128-bit register replaces the low half of the 256-bit
    register and keeps its high half. *)
Lemma xmm_write_ymm_read mode a b env value setpc buf :
  is_xmm mode a = true -> is_ymm b = true ->
  enum_sub a UC_X86_REG_XMM0 = enum_sub b UC_X86_REG_YMM0 ->
  let before := reg_read env b buf (Some 32) mode in
  let w := reg_write env a value (Some 16) mode setpc in
  let r := reg_read (wr_env w) b buf (Some 32) mode in
  wr_ret w = UC_ERR_OK /\ rd_ret r = UC_ERR_OK /\
  (forall i, 0 <= i < 16 -> rd_value r i = value i mod 256) /\
  (forall i, ~ 0 <= i < 16 -> rd_value r i = rd_value before i).
Proof.
  intros Hx Hy Hn before w r. subst before w r.
  rewrite (xmm_write mode a) by (exact Hx || (right; reflexivity)).
  cbn [wr_ret wr_env].
  rewrite !(ymm_read mode b) by (exact Hy || (right; reflexivity)).
  cbn [rd_ret rd_value]. rewrite Hn.
  split; [reflexivity|]. split; [reflexivity|].
  set (n := enum_sub b UC_X86_REG_YMM0).
  rewrite !(x86_upd_other _ _ (ymmh_regs _ _)) by discriminate.
  rewrite x86_upd_same, x86_upd_other, x86_upd_same
    by (apply xmm_neq; discriminate).
  split; intros i Hi.
  - rewrite !(assign_at_outside uint64_t 24), !(assign_at_outside uint64_t 16)
      by (cbn [sizeof]; lia).
    destruct (Z_lt_dec i 8).
    + rewrite assign_at_outside, assign_at_inside by (cbn [sizeof]; lia).
      apply deref_at_byte; [reflexivity | cbn [sizeof]; lia].
    + rewrite assign_at_inside by (cbn [sizeof]; lia).
      apply deref_at_byte; [reflexivity | cbn [sizeof]; lia].
  - destruct (Z_lt_dec i 0); [|destruct (Z_lt_dec i 24); [|destruct (Z_lt_dec i 32)]].
    + rewrite !assign_at_outside by (cbn [sizeof]; lia). reflexivity.
    + rewrite !(assign_at_outside uint64_t 24) by (cbn [sizeof]; lia).
      rewrite !(assign_at_inside uint64_t 16) by (cbn [sizeof]; lia). reflexivity.
    + rewrite !(assign_at_inside uint64_t 24) by (cbn [sizeof]; lia). reflexivity.
    + rewrite !assign_at_outside by (cbn [sizeof]; lia). reflexivity.
Qed.
End WithHelpers.

(** X16: XMMn is the low half of YMMn.  For an identifier of the 128-bit
    registers that the mode knows and the identifier of the 256-bit
    register with the same number in the header, a write of the 256-bit
    register followed by a read of the 128-bit one delivers the first 16
    bytes written; a write of the 128-bit register followed by a read of
    the 256-bit one delivers the 16 bytes written followed by the high 16
    bytes the register held before. *)
Theorem xmm_is_low_half_of_ymm {H : cpu_h} mode a b env value setpc buf :
  is_xmm mode a = true -> is_ymm b = true ->
  enum_sub a UC_X86_REG_XMM0 = enum_sub b UC_X86_REG_YMM0 ->
  (let w := reg_write env b value (Some 32) mode setpc in
   let r := reg_read (wr_env w) a buf (Some 16) mode in
   wr_ret w = UC_ERR_OK /\ rd_ret r = UC_ERR_OK /\
   reads_back 16 value buf (rd_value r)) /\
  (let before := reg_read env b buf (Some 32) mode in
   let w := reg_write env a value (Some 16) mode setpc in
   let r := reg_read (wr_env w) b buf (Some 32) mode in
   wr_ret w = UC_ERR_OK /\ rd_ret r = UC_ERR_OK /\
   (forall i, 0 <= i < 16 -> rd_value r i = value i mod 256) /\
   (forall i, ~ 0 <= i < 16 -> rd_value r i = rd_value before i)).
Proof.
  intros Hx Hy Hn. split.
  - now apply ymm_write_xmm_read.
  - now apply xmm_write_ymm_read.
Qed.

#[local] Existing Instance sample_cpu_h.

Lemma xmm_is_low_half_of_ymm_witness :
  is_xmm UC_MODE_64 UC_X86_REG_XMM9 = true /\
  is_ymm UC_X86_REG_YMM9 = true /\
  enum_sub UC_X86_REG_XMM9 UC_X86_REG_XMM0
    = enum_sub UC_X86_REG_YMM9 UC_X86_REG_YMM0 /\
  reads_back 16 (bytes_of 0x0102030405060708090a0b0c0d0e0f10111213) zero_buffer
    (rd_value
       (reg_read
          (wr_env (reg_write env0 UC_X86_REG_YMM9
                     (bytes_of 0x0102030405060708090a0b0c0d0e0f10111213)
                     (Some 32) UC_MODE_64 0))
          UC_X86_REG_XMM9 zero_buffer (Some 16) UC_MODE_64)).
Proof.
  assert (Hn : enum_sub UC_X86_REG_XMM9 UC_X86_REG_XMM0
               = enum_sub UC_X86_REG_YMM9 UC_X86_REG_YMM0) by reflexivity.
  split; [reflexivity|]. split; [reflexivity|]. split; [exact Hn|].
  destruct (xmm_is_low_half_of_ymm UC_MODE_64 UC_X86_REG_XMM9 UC_X86_REG_YMM9
              env0 (bytes_of 0x0102030405060708090a0b0c0d0e0f10111213) 0
              zero_buffer eq_refl eq_refl Hn) as [(_ & _ & Hback) _].
  exact Hback.
Defined.

End VectorProofs.

(** ** Descriptor-table registers *)

Module TableProofs.
Import X86 TableSpec X86Proofs.

Lemma get_field_range f value :
  is_signed (f_type f) = false -> 0 <= sizeof (f_type f) ->
  0 <= get_field f value < 2 ^ (8 * sizeof (f_type f)).
Proof. intros Hu Hs. unfold get_field. now apply deref_at_range. Qed.

Lemma get_set_same f buf x :
  is_signed (f_type f) = false -> 0 < sizeof (f_type f) ->
  get_field f (set_field f buf x) = x mod 2 ^ (8 * sizeof (f_type f)).
Proof. intros Hu Hs. unfold get_field, set_field. now apply deref_at_assign_at. Qed.

Lemma get_set_other f g buf x :
  0 <= sizeof (f_type f) ->
  f_off f + sizeof (f_type f) <= f_off g \/
  f_off g + sizeof (f_type g) <= f_off f ->
  get_field f (set_field g buf x) = get_field f buf.
Proof.
  intros Hs Hd. unfold get_field, set_field.
  now apply deref_at_assign_at_other.
Qed.

Ltac fields :=
  repeat first
    [ rewrite get_set_same by (reflexivity || (cbn; lia))
    | rewrite get_set_other by (cbn; lia) ].

Section WithHelpers.
Context {H : cpu_h}.

(** X17: the descriptor-table registers keep less than [uc_x86_mmr]
    holds.  In each of the three modes a write of IDTR, GDTR, LDTR or TR
    with a size that passes the check succeeds and changes that table
    register only.  For IDTR and GDTR it stores the limit truncated to 16
    bits and the base, and ignores selector and flags; for LDTR and TR it
    stores all four members.  The base is truncated to 32 bits outside the
    64-bit mode.  A read of the same identifier afterwards delivers these
    stored values, and for IDTR and GDTR leaves the selector and flags of
    the caller's structure as they were. *)
Theorem table_write_then_read mode regid tab short env value size setpc buf :
  table_of regid = Some (tab, short) ->
  x86_mode mode = true ->
  size = None \/ size = Some 24 ->
  let w := reg_write env regid value size mode setpc in
  let r := reg_read (wr_env w) regid buf size mode in
  (wr_ret w = UC_ERR_OK /\
   wr_env w (tab base) = get_field mmr_base value mod 2 ^ base_bits mode /\
   wr_env w (tab limit) =
     (if short then get_field mmr_limit value mod 2 ^ 16
      else get_field mmr_limit value) /\
   wr_env w (tab selector) =
     (if short then env (tab selector) else get_field mmr_selector value) /\
   wr_env w (tab flags) =
     (if short then env (tab flags) else get_field mmr_flags value) /\
   (forall l, (forall f, l <> tab f) -> wr_env w l = env l)) /\
  (rd_ret r = UC_ERR_OK /\
   get_field mmr_base (rd_value r)
     = get_field mmr_base value mod 2 ^ base_bits mode /\
   get_field mmr_limit (rd_value r) =
     (if short then get_field mmr_limit value mod 2 ^ 16
      else get_field mmr_limit value) /\
   get_field mmr_selector (rd_value r)
     = get_field mmr_selector (if short then buf else value) /\
   get_field mmr_flags (rd_value r)
     = get_field mmr_flags (if short then buf else value)).
Proof.
  intros Htab Hmode Hsz w r. subst w r.
  pose proof (get_field_range mmr_base value eq_refl ltac:(cbn; lia)) as Hb.
  pose proof (get_field_range mmr_limit value eq_refl ltac:(cbn; lia)) as Hl.
  pose proof (get_field_range mmr_selector value eq_refl ltac:(cbn; lia)) as Hs.
  pose proof (get_field_range mmr_flags value eq_refl ltac:(cbn; lia)) as Hf.
  cbn [f_type mmr_base mmr_limit mmr_selector mmr_flags sizeof] in Hb, Hl, Hs, Hf.
  change (2 ^ (8 * 8)) with 18446744073709551616 in Hb.
  change (2 ^ (8 * 4)) with 4294967296 in Hl, Hf.
  change (2 ^ (8 * 2)) with 65536 in Hs.
  destruct regid; try discriminate Htab; injection Htab as <- <-;
    destruct mode; try discriminate Hmode;
    unfold reg_write, reg_write_switch, reg_write_mode_16, reg_write_mode_32,
      reg_write_mode_64, reg_read, reg_read_mode_16, reg_read_mode_32,
      reg_read_mode_64;
    rewrite chk_pass by exact Hsz; cbn [wr_ret wr_env];
    rewrite ReadProofs.rchk_pass by exact Hsz; cbn [rd_ret rd_value];
    cbv zeta; cbn [base_bits];
    repeat (rewrite x86_upd_same || rewrite x86_upd_other by discriminate);
    fields;
    unfold cast; cbn [is_signed sizeof f_type mmr_base mmr_limit mmr_selector mmr_flags];
    change (2 ^ (8 * 8)) with 18446744073709551616;
    change (2 ^ (8 * 4)) with 4294967296;
    change (2 ^ (8 * 2)) with 65536;
    change (2 ^ 64) with 18446744073709551616;
    change (2 ^ 32) with 4294967296;
    change (2 ^ 16) with 65536;
    (split; [ (split; [reflexivity|]);
              (split; [Z.div_mod_to_equations; lia|]);
              (split; [Z.div_mod_to_equations; lia|]);
              (split; [try reflexivity; Z.div_mod_to_equations; lia|]);
              (split; [try reflexivity; Z.div_mod_to_equations; lia|]);
              intros l0 Hl0;
              repeat (rewrite x86_upd_other by (apply not_eq_sym, Hl0));
              reflexivity
            | (split; [reflexivity|]);
              repeat split; try reflexivity; Z.div_mod_to_equations; lia ]).
Qed.
End WithHelpers.

#[local] Existing Instance sample_cpu_h.

Lemma table_write_then_read_witness :
  let w := reg_write env0 UC_X86_REG_GDTR wide_mmr (Some 24) UC_MODE_32 0 in
  table_of UC_X86_REG_GDTR = Some (gdt, true) /\
  x86_mode UC_MODE_32 = true /\
  (Some 24 = None \/ Some 24 = Some 24) /\
  get_field mmr_limit wide_mmr = 0x1ffff /\
  get_field mmr_base wide_mmr = 0x100002000 /\
  wr_env w (gdt limit) = 0xffff /\ wr_env w (gdt base) = 0x2000 /\
  get_field mmr_selector
    (rd_value (reg_read (wr_env w) UC_X86_REG_GDTR zero_buffer (Some 24) UC_MODE_32))
    = 0.
Proof.
  intros w.
  assert (Hsz : Some 24 = None \/ Some 24 = Some 24) by (right; reflexivity).
  split; [reflexivity|]. split; [reflexivity|]. split; [exact Hsz|].
  split; [reflexivity|]. split; [reflexivity|].
  destruct (table_write_then_read UC_MODE_32 UC_X86_REG_GDTR gdt true env0
              wide_mmr (Some 24) 0 zero_buffer eq_refl eq_refl Hsz)
    as ((_ & Hb & Hl & _) & (_ & _ & _ & Hs & _)).
  split; [exact Hl|]. split; [exact Hb | exact Hs].
Defined.

End TableProofs.

(** ** The program counter, set and read *)

Module PcRoundTripProofs.
Import X86 X86Proofs.

Section WithHelpers.
Context {H : cpu_h}.

Lemma x86_set_pc_get_pc_flat (uc : uc_struct CPUX86State) address :
  mode uc <> UC_MODE_16 -> 0 <= address < 2 ^ 64 ->
  x86_get_pc (x86_set_pc uc address) = address /\
  env_ptr (x86_set_pc uc address) eip = address.
Proof.
  intros Hm Ha. unfold x86_set_pc, x86_get_pc.
  assert (Hc : cast uint64_t address = address)
    by (unfold cast; cbn [is_signed sizeof]; apply Z.mod_small; exact Ha).
  destruct (mode uc) eqn:Hmode; try congruence;
    unfold set_env; cbn [env_ptr mode]; rewrite ?Hmode, x86_upd_same;
    unfold target_ulong; rewrite !Hc; split; reflexivity.
Qed.

Lemma x86_rip_write_get_pc (uc : uc_struct CPUX86State) value size setpc :
  mode uc = UC_MODE_64 -> size = None \/ size = Some 8 ->
  let w := reg_write (env_ptr uc) UC_X86_REG_RIP value size (mode uc) setpc in
  wr_ret w = UC_ERR_OK /\
  x86_get_pc (set_env uc (wr_env w)) = deref uint64_t value.
Proof.
  intros Hm Hsz w. subst w. rewrite Hm.
  unfold reg_write, reg_write_switch, reg_write_mode_64.
  rewrite chk_setpc_pass by exact Hsz. cbn [wr_ret wr_env].
  split; [reflexivity|].
  unfold x86_get_pc, set_env; cbn [env_ptr mode]. rewrite Hm, x86_upd_same.
  unfold cast; cbn [is_signed sizeof]. apply Z.mod_small.
  apply (deref_at_range uint64_t 0 value); [reflexivity | cbn; lia].
Qed.
End WithHelpers.

(** X18: where [x86_get_pc] returns what [x86_set_pc] has set.  For an
    address below 2^64: in every mode but the 16-bit one the program
    counter read back is the address set; in the 16-bit mode it is the
    address when the selector of CS is below 0x8000 and the address plus
    0x100000 (modulo 2^64) otherwise; and in the 64-bit mode
    [x86_get_pc] after a write of [UC_X86_REG_RIP] returns the value
    written. *)
Theorem x86_set_pc_then_get_pc {H : cpu_h} (uc : uc_struct CPUX86State) address :
  0 <= address < 2 ^ 64 ->
  (mode uc <> UC_MODE_16 -> x86_get_pc (x86_set_pc uc address) = address) /\
  (mode uc = UC_MODE_16 ->
   0 <= env_ptr uc (segs R_CS selector) < 0x10000 ->
   x86_get_pc (x86_set_pc uc address) =
     if env_ptr uc (segs R_CS selector) <? 0x8000 then address
     else (address + 0x100000) mod 2 ^ 64) /\
  (mode uc = UC_MODE_64 ->
   forall value size setpc, size = None \/ size = Some 8 ->
     x86_get_pc
       (set_env uc
          (wr_env (reg_write (env_ptr uc) UC_X86_REG_RIP value size (mode uc)
                     setpc)))
     = deref uint64_t value).
Proof.
  intros Ha. split; [|split].
  - intros Hm. now apply x86_set_pc_get_pc_flat.
  - intros Hm Hsel. now apply PcProofs.x86_set_pc_get_pc_16.
  - intros Hm value size setpc Hsz.
    now apply (x86_rip_write_get_pc uc value size setpc Hm Hsz).
Qed.

#[local] Existing Instance sample_cpu_h.

Lemma x86_set_pc_then_get_pc_witness :
  0 <= 0x7fff0 < 2 ^ 64 /\
  x86_get_pc (x86_set_pc RequestSpec.x86_uc0 0x7fff0) = 0x7fff0 /\
  (let uc := mk_uc (upd env0 (segs R_CS selector) 0x7000) UC_MODE_16 false 0 in
   x86_get_pc (x86_set_pc uc 0x7fff0) = 0x7fff0).
Proof.
  assert (Ha : 0 <= 0x7fff0 < 2 ^ 64) by (cbn; lia).
  assert (Hsel : 0 <= env_ptr (mk_uc (upd env0 (segs R_CS selector) 0x7000)
                                 UC_MODE_16 false 0) (segs R_CS selector)
                 < 0x10000)
    by (vm_compute; split; [discriminate | reflexivity]).
  split; [exact Ha|]. split.
  - exact (proj1 (x86_set_pc_then_get_pc RequestSpec.x86_uc0 0x7fff0 Ha)
             ltac:(discriminate)).
  - exact (proj1 (proj2 (x86_set_pc_then_get_pc
                           (mk_uc (upd env0 (segs R_CS selector) 0x7000)
                              UC_MODE_16 false 0) 0x7fff0 Ha))
             eq_refl Hsel).
Defined.

End PcRoundTripProofs.

(** ** Real-mode segments *)

Module RealModeProofs.
Import X86 RealModeSpec X86Proofs.

Section WithHelpers.
Context {H : cpu_h}.

(** X19: in the 16-bit mode a write of DS, ES, SS, FS or GS loads a
    real-mode segment.  Provided [cpu_x86_load_seg_cache] stores the four
    values it is given, the write (with a size that passes the check)
    succeeds without any legality check and leaves the selector written,
    the base 16 times the selector, the limit 0xffff and the flags of a
    present, writable, accessed data segment; a read of the identifier
    afterwards returns the selector written. *)
Theorem real_mode_segment_write env regid seg value size setpc buf :
  load_seg_cache_assigns ->
  real_mode_seg regid = Some seg ->
  size = None \/ size = Some 2 ->
  let sel := deref uint16_t value in
  let w := reg_write env regid value size UC_MODE_16 setpc in
  let r := reg_read (wr_env w) regid buf size UC_MODE_16 in
  wr_ret w = UC_ERR_OK /\
  wr_env w (segs seg selector) = sel /\
  wr_env w (segs seg base) = 16 * sel /\
  wr_env w (segs seg limit) = 0xffff /\
  wr_env w (segs seg flags) = X86_NON_CS_FLAGS /\
  rd_ret r = UC_ERR_OK /\ deref uint16_t (rd_value r) = sel.
Proof.
  intros Hhelper Hseg Hsz sel w r. subst w r.
  assert (Hsel : 0 <= sel < 2 ^ 16)
    by (apply (deref_at_range uint16_t 0 value); [reflexivity | cbn; lia]).
  change (2 ^ 16) with 65536 in Hsel.
  assert (Hbase : cast target_ulong (cast uint32_t (Z.shiftl sel 4)) = 16 * sel).
  { rewrite Z.shiftl_mul_pow2 by lia. change (2 ^ 4) with 16.
    unfold cast, target_ulong; cbn [is_signed sizeof].
    change (2 ^ (8 * 4)) with 4294967296.
    change (2 ^ (8 * 8)) with 18446744073709551616.
    rewrite (Z.mod_small (sel * 16)) by lia.
    rewrite Z.mod_small by lia. lia. }
  destruct regid; try discriminate Hseg; injection Hseg as <-;
    unfold reg_write, reg_write_switch, reg_write_mode_16, reg_read,
      reg_read_mode_16;
    rewrite chk_pass by exact Hsz; cbn [wr_ret wr_env];
    rewrite ReadProofs.rchk_pass by exact Hsz; cbn [rd_ret rd_value];
    unfold load_seg_16_helper; fold sel; rewrite Hbase;
    match goal with
    | |- context [cpu_x86_load_seg_cache ?e ?s ?a ?b ?c ?d] =>
        destruct (Hhelper e s a b c d) as (H1 & H2 & H3 & H4)
    end;
    rewrite H1, H2, H3, H4;
    repeat (split; [reflexivity|]);
    rewrite ReadProofs.deref_assign_same_size by (reflexivity || (cbn; lia));
    change (2 ^ (8 * sizeof uint16_t)) with 65536;
    apply Z.mod_small; lia.
Qed.

End WithHelpers.

Lemma sample_load_seg_cache_assigns : @load_seg_cache_assigns sample_cpu_h.
Proof.
  intros env seg_reg sel b lim fl. cbn.
  unfold sample_load_seg_cache.
  repeat (rewrite x86_upd_same || rewrite x86_upd_other by discriminate).
  repeat split.
Qed.

#[local] Existing Instance sample_cpu_h.

Lemma real_mode_segment_write_witness :
  let w := reg_write SegmentSpec.env_protected UC_X86_REG_SS (bytes_of 0xb800)
             (Some 2) UC_MODE_16 0 in
  load_seg_cache_assigns /\
  real_mode_seg UC_X86_REG_SS = Some 2 /\
  (Some 2 = None \/ Some 2 = Some 2) /\
  wr_ret w = UC_ERR_OK /\
  wr_env w (segs 2 selector) = 0xb800 /\
  wr_env w (segs 2 base) = 0xb8000 /\
  wr_env w (segs 2 limit) = 0xffff.
Proof.
  intros w.
  assert (Hseg : real_mode_seg UC_X86_REG_SS = Some 2) by reflexivity.
  assert (Hsz : Some 2 = None \/ Some 2 = Some 2) by (right; reflexivity).
  split; [exact sample_load_seg_cache_assigns|].
  split; [exact Hseg|]. split; [exact Hsz|].
  destruct (real_mode_segment_write SegmentSpec.env_protected UC_X86_REG_SS 2
              (bytes_of 0xb800) (Some 2) 0 zero_buffer
              sample_load_seg_cache_assigns Hseg Hsz)
    as (Hret & Hs & Hb & Hl & _).
  repeat split; assumption.
Defined.

End RealModeProofs.

(** ** Reset of the general registers *)

Module ResetRegsProofs.
Import X86 ResetRegsSpec SubRegisterSpec X86Proofs.

Section WithHelpers.
Context {H : cpu_h}.

Lemma x86_reg_reset_general (uc : uc_struct CPUX86State) l :
  helpers_keep_general -> general l = true ->
  env_ptr (x86_reg_reset uc) l = 0.
Proof.
  intros (Hfl & Hcr & Hseg) Hl.
  unfold x86_reg_reset, set_env; cbn [env_ptr].
  destruct l; try discriminate Hl;
    destruct (mode uc); unfold load_seg_16_helper;
    repeat first [ rewrite Hseg by exact Hl | rewrite Hcr by exact Hl
                 | rewrite Hfl by exact Hl
                 | rewrite x86_upd_other by discriminate
                 | rewrite x86_upd_same
                 | progress (unfold memset0, store_memset0 at 1) ];
    reflexivity.
Qed.

Lemma x86_reg_reset_views (uc : uc_struct CPUX86State) regid slot v buf :
  helpers_keep_general ->
  sub_register (mode uc) regid = Some (slot, v) ->
  let r := reg_read (env_ptr (x86_reg_reset uc)) regid buf None (mode uc) in
  rd_ret r = UC_ERR_OK /\ deref (view_type v) (rd_value r) = 0.
Proof.
  intros Hh Hsub r. subst r.
  destruct (ReadProofs.view_read (mode uc) regid slot v
              (env_ptr (x86_reg_reset uc)) buf None Hsub (or_introl eq_refl))
    as (Hret & Hval & _).
  split; [exact Hret|]. rewrite Hval.
  rewrite (x86_reg_reset_general uc (regs slot) Hh eq_refl).
  now rewrite Z.shiftr_0_l, Z.land_0_l.
Qed.
End WithHelpers.

Lemma sample_helpers_keep_general : @helpers_keep_general sample_cpu_h.
Proof.
  repeat split; intros; cbn; unfold sample_load_seg_cache;
    destruct l; try discriminate;
    repeat rewrite x86_upd_other by discriminate; reflexivity.
Qed.

(** X20: [x86_reg_reset] clears the general-purpose registers and the
    instruction pointer in every mode.  Provided the helpers the reset
    calls ([cpu_load_eflags], [cpu_x86_update_cr0],
    [cpu_x86_load_seg_cache]) leave these registers alone, every slot of
    [regs] and [eip] is 0 after the reset, and a read through any narrow
    view of a general-purpose register in the mode of the handle
    succeeds and returns 0. *)
Theorem x86_reset_clears_general_registers {H : cpu_h}
    (uc : uc_struct CPUX86State) :
  helpers_keep_general ->
  let env' := env_ptr (x86_reg_reset uc) in
  (forall i, env' (regs i) = 0) /\ env' eip = 0 /\
  (forall regid slot v buf,
      sub_register (mode uc) regid = Some (slot, v) ->
      let r := reg_read env' regid buf None (mode uc) in
      rd_ret r = UC_ERR_OK /\ deref (view_type v) (rd_value r) = 0).
Proof.
  intros Hh env'. subst env'. split; [|split].
  - intros i. now apply x86_reg_reset_general.
  - now apply x86_reg_reset_general.
  - intros regid slot v buf Hsub.
    exact (x86_reg_reset_views uc regid slot v buf Hh Hsub).
Qed.

#[local] Existing Instance sample_cpu_h.

Lemma x86_reset_clears_general_registers_witness :
  let env' := env_ptr (x86_reg_reset (mk_uc env_busy UC_MODE_64 false 0)) in
  helpers_keep_general /\ env_busy (regs 3) = 0x1234 /\
  env' (regs 3) = 0 /\ env' eip = 0.
Proof.
  intros env'.
  split; [exact sample_helpers_keep_general|]. split; [reflexivity|].
  destruct (x86_reset_clears_general_registers
              (mk_uc env_busy UC_MODE_64 false 0) sample_helpers_keep_general)
    as (Hregs & Heip & _).
  split; [exact (Hregs 3) | exact Heip].
Defined.

End ResetRegsProofs.

(** ** General-purpose registers, one slot each *)

Module GprProofs.
Import X86 SubRegisterSpec GprSpec X86Proofs.

Lemma WRITE_other env x w l :
  l <> x ->
  WRITE_BYTE_L env x w l = env l /\ WRITE_BYTE_H env x w l = env l /\
  WRITE_WORD env x w l = env l /\ WRITE_DWORD env x w l = env l.
Proof.
  intros Hl. unfold WRITE_BYTE_L, WRITE_BYTE_H, WRITE_WORD, WRITE_DWORD.
  now rewrite !x86_upd_other by congruence.
Qed.

Section WithHelpers.
Context {H : cpu_h}.

Lemma chk_frame env size setpc t E l :
  E l = env l -> wr_env (chk env size setpc t E) l = env l.
Proof.
  intros HE. unfold chk.
  destruct (CHECK_REG_TYPE_bail size t (Wr UC_ERR_ARG env setpc)
              (fun ret => Wr ret E setpc)) as [-> | ->]; cbn [wr_env]; auto.
Qed.

Lemma rchk_same env1 env2 buf size t v1 v2 :
  v1 = v2 ->
  rd_ret (rchk env1 buf size t v1) = rd_ret (rchk env2 buf size t v2) /\
  rd_value (rchk env1 buf size t v1) = rd_value (rchk env2 buf size t v2).
Proof.
  intros ->. unfold rchk, CHECK_REG_TYPE.
  destruct size as [sz|]; [destruct (sz =? sizeof t)|]; split; reflexivity.
Qed.

(** A write of a general-purpose register, whole or view, changes
    nothing outside its slot. *)
Lemma gpr_write_frame mode a sa env value size setpc l :
  gpr_slot mode a = Some sa -> l <> regs sa ->
  wr_env (reg_write env a value size mode setpc) l = env l.
Proof.
  intros Ha Hl.
  destruct (WRITE_other env (regs sa) (deref uint8_t value) l Hl) as (HBL & HBH & _).
  destruct (WRITE_other env (regs sa) (deref uint16_t value) l Hl) as (_ & _ & HW & _).
  destruct (WRITE_other env (regs sa) (deref uint32_t value) l Hl) as (_ & _ & _ & HD).
  assert (HU : forall v, upd env (regs sa) v l = env l)
    by (intros v; apply x86_upd_other; congruence).
  revert Ha.
  destruct mode; cbn [gpr_slot sub_register full_register]; intros Ha;
    try discriminate Ha;
    destruct a; cbn [legacy_view long_view wide_register] in Ha;
    try discriminate Ha; injection Ha as Ha; subst sa;
    unfold reg_write, reg_write_switch, reg_write_mode_16, reg_write_mode_32,
      reg_write_mode_64;
    apply chk_frame; first [apply HU | exact HBL | exact HBH | exact HW | exact HD].
Qed.

(** A read of a general-purpose register, whole or view, depends on its
    slot only. *)
Lemma gpr_read_slot mode b sb env1 env2 buf size :
  gpr_slot mode b = Some sb -> env1 (regs sb) = env2 (regs sb) ->
  rd_ret (reg_read env1 b buf size mode) = rd_ret (reg_read env2 b buf size mode) /\
  rd_value (reg_read env1 b buf size mode)
    = rd_value (reg_read env2 b buf size mode).
Proof.
  intros Hb Heq. revert Hb.
  destruct mode; cbn [gpr_slot sub_register full_register]; intros Hb;
    try discriminate Hb;
    destruct b; cbn [legacy_view long_view wide_register] in Hb;
    try discriminate Hb; injection Hb as Hb; subst sb;
    unfold reg_read, reg_read_mode_16, reg_read_mode_32, reg_read_mode_64;
    apply rchk_same; rewrite Heq; reflexivity.
Qed.
End WithHelpers.

(** X21: the general-purpose registers of the x86 target do not overlap.
    When two identifiers name registers kept in different slots of
    [regs] (as whole registers or through any of their views), a write of
    the first, successful or not, leaves the code and the buffer that a
    read of the second returns as they were before the write. *)
Theorem gpr_write_keeps_other_registers {H : cpu_h}
    mode a b sa sb env value size setpc buf size' :
  gpr_slot mode a = Some sa -> gpr_slot mode b = Some sb -> sa <> sb ->
  let env' := wr_env (reg_write env a value size mode setpc) in
  rd_ret (reg_read env' b buf size' mode) = rd_ret (reg_read env b buf size' mode) /\
  rd_value (reg_read env' b buf size' mode)
    = rd_value (reg_read env b buf size' mode).
Proof.
  intros Ha Hb Hne env'. subst env'.
  apply (gpr_read_slot mode b sb); [exact Hb|].
  apply (gpr_write_frame mode a sa); [exact Ha | congruence].
Qed.

#[local] Existing Instance sample_cpu_h.

Lemma gpr_write_keeps_other_registers_witness :
  gpr_slot UC_MODE_64 UC_X86_REG_AH = Some 0 /\
  gpr_slot UC_MODE_64 UC_X86_REG_R9D = Some 9 /\ 0 <> 9 /\
  rd_value
    (reg_read
       (wr_env (reg_write env_numbered UC_X86_REG_AH (bytes_of 0xff) (Some 1)
                  UC_MODE_64 0))
       UC_X86_REG_R9D zero_buffer (Some 4) UC_MODE_64)
  = rd_value (reg_read env_numbered UC_X86_REG_R9D zero_buffer (Some 4) UC_MODE_64).
Proof.
  assert (Ha : gpr_slot UC_MODE_64 UC_X86_REG_AH = Some 0) by reflexivity.
  assert (Hb : gpr_slot UC_MODE_64 UC_X86_REG_R9D = Some 9) by reflexivity.
  assert (Hne : 0 <> 9) by discriminate.
  split; [exact Ha|]. split; [exact Hb|]. split; [exact Hne|].
  exact (proj2 (gpr_write_keeps_other_registers UC_MODE_64 UC_X86_REG_AH
                  UC_X86_REG_R9D 0 9 env_numbered (bytes_of 0xff) (Some 1) 0
                  zero_buffer (Some 4) Ha Hb Hne)).
Defined.

End GprProofs.

(** ** The narrow identifiers of the instruction pointer *)

Module IpProofs.
Import X86 SubRegisterSpec IpSpec X86Proofs.

Lemma chk_setpc_ok env size setpc t E :
  wr_ret (chk_setpc env size setpc t E) = UC_ERR_OK ->
  wr_env (chk_setpc env size setpc t E) = E /\
  wr_setpc (chk_setpc env size setpc t E) = 1.
Proof.
  unfold chk_setpc.
  destruct (CHECK_REG_TYPE_bail size t (Wr UC_ERR_ARG env setpc)
              (fun ret => Wr ret E 1)) as [-> | ->]; cbn.
  - discriminate.
  - auto.
Qed.

(** An assignment of a value narrower than the view's width. *)
Lemma assign_eip_view env v x :
  0 <= x < 2 ^ view_width v -> view_lo v = 0 ->
  (forall l, l <> eip -> upd env eip x l = env l) /\
  (forall n, 0 <= n < view_width v ->
     Z.testbit (upd env eip x eip) n = Z.testbit x n) /\
  (forall n, view_width v <= n -> Z.testbit (upd env eip x eip) n = false).
Proof.
  intros Hx Hlo. split; [|split].
  - intros l Hl. apply x86_upd_other. congruence.
  - intros n _. now rewrite x86_upd_same.
  - intros n Hn. rewrite x86_upd_same.
    apply (small_high_bits (view_width v)); [destruct v; cbn; lia | exact Hx | exact Hn].
Qed.

(** X22: the narrow identifiers of the x86 instruction pointer.  A
    successful write of [IP] or [EIP] asks for the program counter to be
    set, changes only [eip], and puts the 16 or 32 bits written into the
    low bits of [eip]; the bits above them are cleared, except for [IP]
    in the 64-bit mode, where they keep their value. *)
Theorem ip_write_upper_bits {H : cpu_h} mode regid v env value size setpc :
  ip_view regid = Some v ->
  let w := reg_write env regid value size mode setpc in
  wr_ret w = UC_ERR_OK ->
  wr_setpc w = 1 /\
  (forall l, l <> eip -> wr_env w l = env l) /\
  (forall n, 0 <= n < view_width v ->
     Z.testbit (wr_env w eip) n = Z.testbit (deref (view_type v) value) n) /\
  (forall n, view_width v <= n ->
     Z.testbit (wr_env w eip) n =
       if ip_keeps_rest mode regid then Z.testbit (env eip) n else false).
Proof.
  intros Hv w. subst w.
  assert (H16 : 0 <= deref uint16_t value < 2 ^ view_width low_word)
    by (apply (deref_at_range uint16_t 0 value); [reflexivity | cbn; lia]).
  assert (H32 : 0 <= deref uint32_t value < 2 ^ view_width low_dword)
    by (apply (deref_at_range uint32_t 0 value); [reflexivity | cbn; lia]).
  destruct regid; try discriminate Hv; injection Hv as <-;
    destruct mode; cbn [ip_keeps_rest];
    unfold reg_write, reg_write_switch, reg_write_mode_16, reg_write_mode_32,
      reg_write_mode_64;
    intros Hok; try discriminate Hok;
    destruct (chk_setpc_ok _ _ _ _ _ Hok) as [-> ->];
    (split; [reflexivity|]);
    try (apply assign_eip_view; [assumption | reflexivity]).
  destruct (SubRegisterProofs.WRITE_WORD_view env eip (deref uint16_t value)) as (Hother & Hrest & Hview).
  split; [exact Hother|]. split.
  - intros n Hn. rewrite Hview by (cbn in *; lia). f_equal. cbn. lia.
  - intros n Hn. apply Hrest; cbn in *; lia.
Qed.

#[local] Existing Instance sample_cpu_h.

Lemma ip_write_upper_bits_witness :
  ip_view UC_X86_REG_IP = Some low_word /\
  wr_ret (reg_write env_far UC_X86_REG_IP (bytes_of 0xabcd) (Some 2) UC_MODE_64 0)
    = UC_ERR_OK /\
  wr_env (reg_write env_far UC_X86_REG_IP (bytes_of 0xabcd) (Some 2) UC_MODE_64 0)
    eip = 0x112233445566abcd /\
  wr_env (reg_write env_far UC_X86_REG_IP (bytes_of 0xabcd) (Some 2) UC_MODE_32 0)
    eip = 0xabcd /\
  wr_setpc (reg_write env_far UC_X86_REG_IP (bytes_of 0xabcd) (Some 2) UC_MODE_64 0)
    = 1.
Proof.
  assert (Hv : ip_view UC_X86_REG_IP = Some low_word) by reflexivity.
  assert (Hok : wr_ret (reg_write env_far UC_X86_REG_IP (bytes_of 0xabcd)
                          (Some 2) UC_MODE_64 0) = UC_ERR_OK) by reflexivity.
  split; [exact Hv|]. split; [exact Hok|].
  split; [reflexivity|]. split; [reflexivity|].
  exact (proj1 (ip_write_upper_bits UC_MODE_64 UC_X86_REG_IP low_word env_far
                  (bytes_of 0xabcd) (Some 2) 0 Hv Hok)).
Defined.

End IpProofs.

(** ** Model-specific registers *)

Module MsrRoundTripProofs.
Import X86 TableSpec MsrSpec X86Proofs.

(** The two 32-bit halves of a value, put together again. *)
Lemma pair_of_halves v :
  Z.lor (v mod 2 ^ 32) (Z.shiftl (Z.shiftr v 32 mod 2 ^ 32) 32) = v mod 2 ^ 64.
Proof.
  apply Z.bits_inj'. intros n Hn.
  rewrite <- !Z.land_ones by lia.
  rewrite Z.lor_spec, Z.shiftl_spec, !Z.land_spec by lia.
  destruct (Z.ltb_spec n 32) as [Hlt | Hge].
  - rewrite !(Z.testbit_neg_r _ (n - 32)) by lia.
    rewrite !Z.testbit_ones_nonneg by lia.
    replace (n <? 32) with true by (symmetry; apply Z.ltb_lt; lia).
    replace (n <? 64) with true by (symmetry; apply Z.ltb_lt; lia).
    cbn [andb orb]. rewrite orb_false_r. reflexivity.
  - rewrite Z.shiftr_spec by lia.
    rewrite !Z.testbit_ones_nonneg by lia.
    replace (n - 32 + 32) with n by lia.
    replace (n <? 32) with false by (symmetry; apply Z.ltb_ge; lia).
    rewrite andb_false_r, orb_false_l.
    destruct (Z.ltb_spec n 64), (Z.ltb_spec (n - 32) 32); try lia; reflexivity.
Qed.

Section WithHelpers.
Context {H : cpu_h}.

(** What [x86_msr_write] hands to the micro-operation arrives in the bank,
    and the restored registers do not disturb it. *)
Lemma msr_write_bank rid bank env msr :
  borrowed_distinct -> msr_bank rid bank ->
  get_field msr_rid msr = rid ->
  bank (x86_msr_write env msr) = get_field msr_value msr.
Proof.
  intros (Hac & Had & Hcd) (Hwr & _ & Hgpr) Hrid.
  unfold x86_msr_write. rewrite !Hgpr, Hwr.
  - unfold msr_pair.
    rewrite x86_upd_other, x86_upd_same by congruence.
    rewrite x86_upd_same.
    unfold cast; cbn [is_signed sizeof]. change (2 ^ (8 * 4)) with (2 ^ 32).
    rewrite !Z.mod_mod by lia. rewrite pair_of_halves.
    apply Z.mod_small.
    apply (TableProofs.get_field_range msr_value msr); [reflexivity | cbn; lia].
  - rewrite !x86_upd_other by congruence. rewrite x86_upd_same. exact Hrid.
Qed.

(** What [x86_msr_read] takes from the micro-operation is the bank. *)
Lemma msr_read_bank rid bank env buf :
  msr_bank rid bank -> get_field msr_rid buf = rid ->
  get_field msr_value (fst (x86_msr_read env buf)) = cast uint64_t (bank env) /\
  get_field msr_rid (fst (x86_msr_read env buf)) = rid.
Proof.
  intros (_ & Hrd & Hgpr) Hrid.
  unfold x86_msr_read; cbn [fst]. split.
  - rewrite TableProofs.get_set_same by (reflexivity || (cbn; lia)).
    assert (Hpair : forall e,
      Z.lor (cast uint32_t (e (regs R_EAX)))
            (cast uint64_t
               (Z.shiftl (cast uint64_t (cast uint32_t (e (regs R_EDX)))) 32))
      = msr_pair e).
    { intros e. unfold msr_pair. f_equal.
      assert (Hr : 0 <= cast uint32_t (e (regs R_EDX)) < 2 ^ 32)
        by (unfold cast; cbn [is_signed sizeof]; apply Z.mod_pos_bound; lia).
      unfold cast at 2; cbn [is_signed sizeof].
      rewrite (Z.mod_small (cast uint32_t _)) by (change (2 ^ (8 * 8)) with (2 ^ 64); lia).
      unfold cast at 1; cbn [is_signed sizeof].
      apply Z.mod_small. rewrite Z.shiftl_mul_pow2 by lia.
      change (2 ^ (8 * 8)) with (2 ^ 32 * 2 ^ 32). nia. }
    rewrite Hpair, Hrd.
    + rewrite Hgpr. unfold cast; cbn [is_signed sizeof msr_value f_type].
      now rewrite Z.mod_mod by lia.
    + rewrite x86_upd_same. exact Hrid.
  - rewrite TableProofs.get_set_other by (cbn; lia). exact Hrid.
Qed.
End WithHelpers.

(** X23: a model-specific register reads back the value written.  When
    the three borrowed registers are three registers and the native
    micro-operations keep the index [rid] in a 64-bit cell outside the
    general-purpose registers, a write of [UC_X86_REG_MSR] followed by a
    read with the same index succeeds in each of the three modes, and the
    structure read holds the 64-bit value written and the index asked
    for: the value is split into [EDX:EAX] and put together again without
    loss. *)
Theorem msr_write_then_read {H : cpu_h}
    mode rid bank env msr size setpc buf :
  x86_mode mode = true ->
  borrowed_distinct -> msr_bank rid bank ->
  get_field msr_rid msr = rid -> get_field msr_rid buf = rid ->
  size = None \/ size = Some 16 ->
  let w := reg_write env UC_X86_REG_MSR msr size mode setpc in
  let r := reg_read (wr_env w) UC_X86_REG_MSR buf size mode in
  wr_ret w = UC_ERR_OK /\ rd_ret r = UC_ERR_OK /\
  bank (wr_env w) = get_field msr_value msr /\
  get_field msr_value (rd_value r) = get_field msr_value msr /\
  get_field msr_rid (rd_value r) = rid.
Proof.
  intros Hm Hd Hb Hrid Hrid' Hsz w r.
  assert (Hw : w = Wr UC_ERR_OK (x86_msr_write env msr) setpc).
  { subst w. destruct mode; try discriminate Hm;
      unfold reg_write, reg_write_switch, reg_write_mode_16, reg_write_mode_32,
        reg_write_mode_64;
      now apply chk_pass. }
  assert (Hr : forall e, reg_read e UC_X86_REG_MSR buf size mode
                 = Rd UC_ERR_OK (fst (x86_msr_read e buf)) (snd (x86_msr_read e buf))).
  { intros e. destruct mode; try discriminate Hm;
      unfold reg_read, reg_read_mode_16, reg_read_mode_32, reg_read_mode_64;
      rewrite CHECK_REG_TYPE_pass by exact Hsz;
      destruct (x86_msr_read e buf); reflexivity. }
  subst r. rewrite Hr, Hw. cbn [wr_ret wr_env rd_ret rd_value].
  pose proof (msr_write_bank rid bank env msr Hd Hb Hrid) as Hbank.
  destruct (msr_read_bank rid bank (x86_msr_write env msr) buf Hb Hrid')
    as [Hval Hidx].
  repeat split; try assumption.
  rewrite Hval, Hbank. apply Z.mod_small.
  apply (TableProofs.get_field_range msr_value msr); [reflexivity | cbn; lia].
Qed.

#[local] Existing Instance sample_cpu_h.

Lemma sample_msr_bank : msr_bank MSR_EFER (fun env => env efer).
Proof.
  split; [|split].
  - intros env Hc. cbn [helper_wrmsr sample_cpu_h]. unfold sample_wrmsr.
    cbn [R_ECX sample_cpu_h] in Hc. rewrite Hc.
    change (cast uint32_t MSR_EFER =? MSR_EFER) with true. cbv iota.
    now rewrite x86_upd_same.
  - intros env Hc. cbn [helper_rdmsr sample_cpu_h]. unfold sample_rdmsr, msr_pair.
    cbn [R_ECX R_EAX R_EDX sample_cpu_h] in *. rewrite Hc.
    change (cast uint32_t MSR_EFER =? MSR_EFER) with true. cbv iota.
    rewrite x86_upd_other, x86_upd_same by discriminate. rewrite x86_upd_same.
    unfold cast; cbn [is_signed sizeof]. change (2 ^ (8 * 4)) with (2 ^ 32).
    rewrite !Z.mod_mod by lia. apply pair_of_halves.
  - intros env i v. apply x86_upd_other. discriminate.
Qed.

Lemma msr_write_then_read_witness :
  let msr := msr_of MSR_EFER 0x1122334455667788 in
  let buf := msr_of MSR_EFER 0 in
  let w := reg_write env0 UC_X86_REG_MSR msr (Some 16) UC_MODE_64 0 in
  x86_mode UC_MODE_64 = true /\ borrowed_distinct /\
  msr_bank MSR_EFER (fun env => env efer) /\
  get_field msr_rid msr = MSR_EFER /\ get_field msr_rid buf = MSR_EFER /\
  (Some 16 = None \/ Some 16 = Some 16) /\
  get_field msr_value msr = 0x1122334455667788 /\
  get_field msr_value
    (rd_value (reg_read (wr_env w) UC_X86_REG_MSR buf (Some 16) UC_MODE_64))
  = get_field msr_value msr.
Proof.
  intros msr buf w.
  assert (Hm : x86_mode UC_MODE_64 = true) by reflexivity.
  assert (Hd : borrowed_distinct) by (repeat split; discriminate).
  assert (Hrid : get_field msr_rid msr = MSR_EFER) by reflexivity.
  assert (Hrid' : get_field msr_rid buf = MSR_EFER) by reflexivity.
  assert (Hsz : Some 16 = None \/ Some 16 = Some 16) by (right; reflexivity).
  split; [exact Hm|]. split; [exact Hd|]. split; [exact sample_msr_bank|].
  split; [exact Hrid|]. split; [exact Hrid'|]. split; [exact Hsz|].
  split; [reflexivity|].
  exact (proj1 (proj2 (proj2 (proj2
           (msr_write_then_read UC_MODE_64 MSR_EFER (fun env => env efer) env0
              msr (Some 16) 0 buf Hm Hd sample_msr_bank Hrid Hrid' Hsz))))).
Defined.

End MsrRoundTripProofs.
